(** * OSMAR point-of-sale dashboard: period resolution and consumption analysis

    A shallow embedding of the date-range logic of [Dashboard.tsx] and
    [Sales.tsx] and of the consumption / revenue analysis of the reports
    page, together with the properties the specification states about them.

    Conventions of the embedding.
    - A JavaScript [Date] is its time value: milliseconds since the epoch,
      an integer [Z].  The local-time accessors follow ECMA-262 (Day,
      TimeWithinDay, DayFromYear, MakeDay, MakeDate, ...) for a host whose
      local zone has a fixed offset [tz] (in milliseconds) from UTC.
      Time values are not clipped to the +-8.64e15 range.
    - A mutable [Date] object that the code updates in place ([setDate],
      [setHours]) is threaded explicitly: each setter returns the new time
      value, and the next use of the same object reads that value.
    - JavaScript numbers are modelled by exact rationals [Q]; sale-item
      quantities are integers.  [Math.floor] and [Math.ceil] produce [Z].
      Division by a possibly-zero total produces a [jsnum], which keeps
      NaN and the infinities apart from the finite values.
    - The numbers of the running code are IEEE 754 binary64.  The custom
      rounding uses only operations that are exact on them (comparison,
      [% 1], [Math.floor], adding 1 to an integer).  The analysis multiplies
      by 1.1, 0.9 and 1.2 and divides by 30 and 7, which round; module
      [Binary64] repeats these computations on binary64 numbers, and
      [binary64_agreement] checks that they give what the rationals give
      on a range of integer quantities. *)

From Stdlib Require Import ZArith QArith Qround List String Ascii Bool Lia.
From Stdlib Require Import DecimalString.
From Stdlib Require Import Permutation Sorted.
From Stdlib Require Import PrimFloat Uint63.
Import ListNotations.

Local Open Scope string_scope.
Local Open Scope list_scope.
Local Open Scope Z_scope.

(** ** ECMA-262 date arithmetic *)

Module JSDate.

Definition msPerDay : Z := 86400000.
Definition msPerHour : Z := 3600000.
Definition msPerMinute : Z := 60000.
Definition msPerSecond : Z := 1000.

Definition Day (t : Z) : Z := t / msPerDay.
Definition TimeWithinDay (t : Z) : Z := t mod msPerDay.

Definition DaysInYear (y : Z) : Z :=
  if negb (y mod 4 =? 0) then 365
  else if negb (y mod 100 =? 0) then 366
  else if negb (y mod 400 =? 0) then 365
  else 366.

Definition DayFromYear (y : Z) : Z :=
  365 * (y - 1970) + (y - 1969) / 4 - (y - 1901) / 100 + (y - 1601) / 400.

(** ECMA-262 defines YearFromTime as the largest [y] whose first day is
    not after the given day.  It is computed here from the mean year length
    and corrected by one year either way; [YearFromDay_spec] and
    [YearFromDay_largest] show that this is that largest [y]. *)
Definition YearFromDay (d : Z) : Z :=
  let y0 := 1970 + (d * 400) / 146097 in
  if d <? DayFromYear y0 then y0 - 1
  else if DayFromYear (y0 + 1) <=? d then y0 + 1
  else y0.

Definition InLeapYear (d : Z) : Z :=
  if DaysInYear (YearFromDay d) =? 366 then 1 else 0.

Definition DayWithinYear (d : Z) : Z := d - DayFromYear (YearFromDay d).

(** First day (within the year) of month [m], for leap flag [l]. *)
Definition monthStart (m l : Z) : Z :=
  match m with
  | 0 => 0
  | 1 => 31
  | 2 => 59 + l
  | 3 => 90 + l
  | 4 => 120 + l
  | 5 => 151 + l
  | 6 => 181 + l
  | 7 => 212 + l
  | 8 => 243 + l
  | 9 => 273 + l
  | 10 => 304 + l
  | _ => 334 + l
  end.

Definition MonthFromDay (d : Z) : Z :=
  let w := DayWithinYear d in
  let l := InLeapYear d in
  if w <? 31 then 0
  else if w <? 59 + l then 1
  else if w <? 90 + l then 2
  else if w <? 120 + l then 3
  else if w <? 151 + l then 4
  else if w <? 181 + l then 5
  else if w <? 212 + l then 6
  else if w <? 243 + l then 7
  else if w <? 273 + l then 8
  else if w <? 304 + l then 9
  else if w <? 334 + l then 10
  else 11.

Definition DateFromDay (d : Z) : Z :=
  DayWithinYear d - monthStart (MonthFromDay d) (InLeapYear d) + 1.

Definition WeekDay (d : Z) : Z := (d + 4) mod 7.

Definition MakeTime (h m s ms : Z) : Z :=
  h * msPerHour + m * msPerMinute + s * msPerSecond + ms.

Definition MakeDay (year month date : Z) : Z :=
  let ym := year + month / 12 in
  let mn := month mod 12 in
  let l := if DaysInYear ym =? 366 then 1 else 0 in
  DayFromYear ym + monthStart mn l + date - 1.

Definition MakeDate (day time : Z) : Z := day * msPerDay + time.

Section LocalZone.
(** Offset of local time from UTC, in milliseconds. *)
Variable tz : Z.

Definition LocalTime (t : Z) : Z := t + tz.
Definition UTC (t : Z) : Z := t - tz.

Definition getFullYear (t : Z) : Z := YearFromDay (Day (LocalTime t)).
Definition getMonth (t : Z) : Z := MonthFromDay (Day (LocalTime t)).
Definition getDate (t : Z) : Z := DateFromDay (Day (LocalTime t)).
Definition getDay (t : Z) : Z := WeekDay (Day (LocalTime t)).
Definition getHours (t : Z) : Z := TimeWithinDay (LocalTime t) / msPerHour.
Definition getMinutes (t : Z) : Z :=
  (TimeWithinDay (LocalTime t) / msPerMinute) mod 60.
Definition getSeconds (t : Z) : Z :=
  (TimeWithinDay (LocalTime t) / msPerSecond) mod 60.
Definition getMilliseconds (t : Z) : Z :=
  TimeWithinDay (LocalTime t) mod msPerSecond.

(** [d.setDate(dt)]: the new time value of [d]. *)
Definition setDate (t dt : Z) : Z :=
  let lt := LocalTime t in
  UTC (MakeDate (MakeDay (YearFromDay (Day lt)) (MonthFromDay (Day lt)) dt)
                (TimeWithinDay lt)).

(** [d.setHours(h, m, s, ms)]: the new time value of [d]. *)
Definition setHours (t h m s ms : Z) : Z :=
  UTC (MakeDate (Day (LocalTime t)) (MakeTime h m s ms)).

(** [new Date(y, m, d, h, mi, s)]; a year from 0 to 99 means 1900 + y. *)
Definition newDate (y m d h mi s : Z) : Z :=
  let yr := if (0 <=? y) && (y <=? 99) then 1900 + y else y in
  UTC (MakeDate (MakeDay yr m d) (MakeTime h mi s 0)).

(** [d.toDateString()] prints the weekday, the month, the day of the
    month and the year of the local date; the four fields stand for the
    string, which they determine and which determines them. *)
Definition toDateString (t : Z) : Z * Z * Z * Z :=
  (getDay t, getMonth t, getDate t, getFullYear t).
End LocalZone.

End JSDate.

Import JSDate.

(** ** JavaScript numbers and arrays *)

(** The result of a division whose divisor may be zero. *)
Inductive jsnum : Type :=
  | Fin (q : Q)
  | PosInf
  | NegInf
  | NaN.

Definition Qlt_bool (x y : Q) : bool := negb (Qle_bool y x).

(** [a / b] on finite numbers: 0/0 is NaN, x/0 is an infinity. *)
Definition js_div (a b : Q) : jsnum :=
  if Qeq_bool b 0 then
    match (a ?= 0)%Q with
    | Eq => NaN
    | Gt => PosInf
    | Lt => NegInf
    end
  else Fin (a / b).

(** [x * 100]. *)
Definition js_mul100 (x : jsnum) : jsnum :=
  match x with
  | Fin q => Fin (q * 100)
  | PosInf => PosInf
  | NegInf => NegInf
  | NaN => NaN
  end.




(** [Math.trunc] on a rational, and the remainder [a % 1], which takes the
    sign of [a]. *)
Definition Qtrunc (q : Q) : Z := Z.quot (Qnum q) (Zpos (Qden q)).
Definition js_rem1 (a : Q) : Q := (a - inject_Z (Qtrunc a))%Q.

(** [v || 0]: zero is falsy, every other finite number stands for itself. *)
Definition or_zero (v : Q) : Q := if Qeq_bool v 0 then 0%Q else v.

(** [Array.prototype.sort(cmp)] is not part of the sources.  ECMA-262 fixes
    its result for a consistent comparator: the elements ordered by [cmp],
    elements that compare equal staying in their original order.  It is
    computed by insertion from the right: [x] goes in front of the first
    element [y] of the sorted rest with [cmp x y <= 0]. *)
Section ArraySort.
Context {A : Type}.
Variable cmp : A -> A -> Q.

Fixpoint sort_insert (x : A) (l : list A) : list A :=
  match l with
  | [] => [x]
  | y :: l' =>
      if Qle_bool (cmp x y) 0 then x :: y :: l' else y :: sort_insert x l'
  end.

Definition array_sort (l : list A) : list A := fold_right sort_insert [] l.
End ArraySort.

(** ** Data model *)

(** Modelled from the spec: the declarations of [../types] (Sale, Product
    and the sale items) are not among the sources.  The fields are those of
    section 3 of the specification that the pages read.  [created_at] holds
    the time value of [new Date(sale.created_at)]. *)
Record SaleItem : Type := {
  product_id : string;
  quantity : Z;
  price_at_sale : Q
}.

Record Sale : Type := {
  sale_id : string;
  created_at : Z;
  total : Q;
  payment_method : string;
  sale_items : list SaleItem
}.

Record Product : Type := {
  id : string;
  name : string;
  category : string;
  selling_price : Q;
  cost_price : Q;
  stock_quantity : Z;
  min_stock_level : Z
}.

(** The state a page keeps for the date-range picker. *)
Record PeriodState : Type := {
  selectedPeriod : string;
  startDate : option Z;
  endDate : option Z
}.

(** ** Dashboard.tsx *)

Module Dashboard.

Section Page.
Variable tz : Z.

(** [currentDate] is the clock reading [new Date()] of the call. *)
Definition handlePeriodChange (currentDate : Z) (period : string)
    (st : PeriodState) : PeriodState :=
  if negb (period =? "custom")%string then
    let '(start, end_) :=
      if (period =? "daily")%string then
        (Some (newDate tz (getFullYear tz currentDate) (getMonth tz currentDate)
                       (getDate tz currentDate) 0 0 0),
         Some (newDate tz (getFullYear tz currentDate) (getMonth tz currentDate)
                       (getDate tz currentDate) 23 59 59))
      else if (period =? "weekly")%string then
        let start := currentDate in
        let start := setDate tz start (getDate tz currentDate - getDay tz currentDate) in
        let start := setHours tz start 0 0 0 0 in
        let end_ := start in
        let end_ := setDate tz end_ (getDate tz start + 6) in
        let end_ := setHours tz end_ 23 59 59 999 in
        (Some start, Some end_)
      else if (period =? "monthly")%string then
        (Some (newDate tz (getFullYear tz currentDate) (getMonth tz currentDate) 1 0 0 0),
         Some (newDate tz (getFullYear tz currentDate) (getMonth tz currentDate + 1) 0
                       23 59 59))
      else if (period =? "yearly")%string then
        (Some (newDate tz (getFullYear tz currentDate) 0 1 0 0 0),
         Some (newDate tz (getFullYear tz currentDate) 11 31 23 59 59))
      else (None, None) in
    {| selectedPeriod := period; startDate := start; endDate := end_ |}
  else
    {| selectedPeriod := period; startDate := startDate st; endDate := endDate st |}.

(** The state the page starts in: the daily period of the day it is
    opened on ([now] is the clock reading of the first render). *)
Definition initial (now : Z) : PeriodState :=
  {| selectedPeriod := "daily";
     startDate := Some (newDate tz (getFullYear tz now) (getMonth tz now)
                                (getDate tz now) 0 0 0);
     endDate := Some (newDate tz (getFullYear tz now) (getMonth tz now)
                              (getDate tz now) 23 59 59) |}.

Definition filterSalesByDateRange (st : PeriodState) (sales : list Sale)
    : list Sale :=
  match startDate st, endDate st with
  | Some startDate, Some endDate =>
      filter (fun sale =>
                let saleDate := created_at sale in
                (startDate <=? saleDate) && (saleDate <=? endDate)) sales
  | _, _ => sales
  end.
End Page.

End Dashboard.

(** ** Sales.tsx *)

Module Sales.

(** The state the page starts in. *)
Definition initial : PeriodState :=
  {| selectedPeriod := "all"; startDate := None; endDate := None |}.

Section Page.
Variable tz : Z.

(** [now] is the clock reading [new Date()] of the call; the setters
    update that one object, so each step reads the value the previous
    setter left in it. *)
Definition handlePeriodChange (now : Z) (period : string)
    (st : PeriodState) : PeriodState :=
  if negb (period =? "custom")%string then
    let '(start, end_) :=
      if (period =? "daily")%string then
        let now := setHours tz now 0 0 0 0 in
        let start := now in
        let now := setHours tz now 23 59 59 999 in
        let end_ := now in
        (Some start, Some end_)
      else if (period =? "weekly")%string then
        let now := setDate tz now (getDate tz now - getDay tz now) in
        let start := now in
        let now := setDate tz now (getDate tz now + 6) in
        let end_ := now in
        (Some start, Some end_)
      else if (period =? "monthly")%string then
        (Some (newDate tz (getFullYear tz now) (getMonth tz now) 1 0 0 0),
         Some (newDate tz (getFullYear tz now) (getMonth tz now + 1) 0 0 0 0))
      else if (period =? "yearly")%string then
        (Some (newDate tz (getFullYear tz now) 0 1 0 0 0),
         Some (newDate tz (getFullYear tz now) 11 31 0 0 0))
      else (None, None) in
    {| selectedPeriod := period; startDate := start; endDate := end_ |}
  else
    {| selectedPeriod := period; startDate := startDate st; endDate := endDate st |}.

Definition isDateMatch (st : PeriodState) (sale : Sale) : bool :=
  let saleDate := created_at sale in
  match startDate st, endDate st with
  | Some startDate, Some endDate =>
      (startDate <=? saleDate) && (saleDate <=? endDate)
  | _, _ => true
  end.

(** The text search over the item names is taken as the predicate
    [matchesSearch]; it does not read the dates. *)
Variable matchesSearch : Sale -> bool.

Definition filteredSales (st : PeriodState) (paymentFilter : string)
    (sales : option (list Sale)) : list Sale :=
  match sales with
  | Some sales =>
      filter (fun sale =>
                let isPaymentMatch :=
                  (paymentFilter =? "all")%string
                  || (payment_method sale =? paymentFilter)%string in
                matchesSearch sale && isDateMatch st sale && isPaymentMatch)
             sales
  | None => []
  end.
End Page.

End Sales.

(** ** The reports page *)

Module Reports.

Inductive Tendencia : Type := subindo | estavel | descendo.

Record ConsumoAnalise : Type := {
  produto : string;
  consumo_diario : Z;
  consumo_semanal : Z;
  consumo_mensal : Z;
  quantidade_sugerida : Z;
  tendencia : Tendencia
}.

(** An entry of a chart series.  [value] is a percentage in the category
    chart and a floored amount in the contribution chart. *)
Record CategoryData : Type := {
  cd_name : string;
  cd_value : jsnum;
  cd_percentage : option jsnum
}.

(** An object used as a map from names to amounts: the entries in the order
    in which the keys were first written ([Object.entries]).  Keys are
    names, not array indices. *)
Definition ProductRevenue : Type := list (string * Q).

(** [acc[k] = (acc[k] || 0) + v] *)
Fixpoint acc_add (acc : ProductRevenue) (k : string) (v : Q) : ProductRevenue :=
  match acc with
  | [] => [(k, (0 + v)%Q)]
  | (k', v') :: rest =>
      if (k' =? k)%string then (k', (or_zero v' + v)%Q) :: rest
      else (k', v') :: acc_add rest k v
  end.

(** A sale item that carries the date of its sale: [{...item, created_at}]. *)
Definition ItemVenda : Type := (SaleItem * Z)%type.

(** [items.reduce((sum, item) => sum + item.quantity, 0)] *)
Definition soma (items : list ItemVenda) : Z :=
  fold_left (fun sum item => sum + quantity (fst item)) items 0.

Definition arredondamentoPersonalizado (valor : Q) : Z :=
  if Qlt_bool valor 1 then 1
  else
    let parteDecimal := js_rem1 valor in
    let parteInteira := Qfloor valor in
    if Qle_bool (1 # 2) parteDecimal then parteInteira + 1
    else parteInteira.

Section Page.
Variable tz : Z.
(** The translation function of the page. *)
Variable t : string -> string.

(** [now] is the clock reading of the call. *)
Definition filterSalesByTime (now : Z) (timeFilter : string)
    (sales : list Sale) : list Sale :=
  filter (fun sale =>
    let saleDate := created_at sale in
    if (timeFilter =? "daily")%string then
      let '(wd1, m1, d1, y1) := toDateString tz saleDate in
      let '(wd2, m2, d2, y2) := toDateString tz now in
      (wd1 =? wd2) && (m1 =? m2) && (d1 =? d2) && (y1 =? y2)
    else if (timeFilter =? "weekly")%string then
      let weekAgo := now - 7 * 24 * 60 * 60 * 1000 in
      weekAgo <=? saleDate
    else if (timeFilter =? "monthly")%string then
      (getMonth tz saleDate =? getMonth tz now)
      && (getFullYear tz saleDate =? getFullYear tz now)
    else true) sales.

(** [hoje] is the clock reading of the call. *)
Definition calcularConsumoMedio (hoje : Z) (produto : Product)
    (vendas : list Sale) : ConsumoAnalise :=
  let vendasProduto : list ItemVenda :=
    filter (fun item => (product_id (fst item) =? id produto)%string)
      (flat_map (fun venda =>
                   map (fun item => (item, created_at venda)) (sale_items venda))
                vendas) in
  let umMesAtras :=
    newDate tz (getFullYear tz hoje) (getMonth tz hoje - 1) (getDate tz hoje) 0 0 0 in
  let umaSemanaAtras := hoje - 7 * 24 * 60 * 60 * 1000 in
  let vendasMes := filter (fun item => umMesAtras <=? snd item) vendasProduto in
  let vendasSemana := filter (fun item => umaSemanaAtras <=? snd item) vendasProduto in
  let consumoDiario := (inject_Z (soma vendasMes) / 30)%Q in
  let consumoSemanal := (inject_Z (soma vendasSemana) / 7)%Q in
  let consumoMensal := soma vendasMes in
  let consumoRecente := soma vendasSemana in
  let consumoAntigo :=
    soma (filter (fun item => snd item <? umaSemanaAtras) vendasMes) in
  let tendencia :=
    if Qlt_bool (inject_Z consumoAntigo * (11 # 10)) (inject_Z consumoRecente)
    then subindo
    else if Qlt_bool (inject_Z consumoRecente) (inject_Z consumoAntigo * (9 # 10))
    then descendo
    else estavel in
  let quantidadeSugerida := Qceiling (inject_Z consumoMensal * (12 # 10)) in
  {| produto := name produto;
     consumo_diario := arredondamentoPersonalizado consumoDiario;
     consumo_semanal := arredondamentoPersonalizado consumoSemanal;
     consumo_mensal := arredondamentoPersonalizado (inject_Z consumoMensal);
     quantidade_sugerida := arredondamentoPersonalizado (inject_Z quantidadeSugerida);
     tendencia := tendencia |}.

(** The amounts of the items of [sales] whose product is in the catalog,
    grouped under [key] of that product. *)
Definition revenueBy (key : Product -> string) (products : list Product)
    (sales : list Sale) : ProductRevenue :=
  fold_left (fun acc sale =>
    fold_left (fun acc item =>
      match find (fun p => (id p =? product_id item)%string) products with
      | Some product =>
          acc_add acc (key product) (price_at_sale item * inject_Z (quantity item))%Q
      | None => acc
      end) (sale_items sale) acc) sales [].

(** [Object.values(data).reduce((sum, value) => sum + value, 0)] *)
Definition totalOf (data : ProductRevenue) : Q :=
  fold_left (fun sum value => (sum + value)%Q) (map snd data) 0%Q.

Definition categoryDistribution (products : list Product)
    (filteredSales : list Sale) : list CategoryData :=
  let categoryData := revenueBy category products filteredSales in
  let totalCategorySales := totalOf categoryData in
  map (fun '(name, value) =>
         {| cd_name := t ("products.categories." ++ name);
            cd_value := js_mul100 (js_div value totalCategorySales);
            cd_percentage := None |}) categoryData.

Definition revenueContribution (products : list Product)
    (filteredSales : list Sale) : list CategoryData :=
  let productRevenue := revenueBy name products filteredSales in
  let byRevenue := fun a b : string * Q => (snd b - snd a)%Q in
  let sortedProducts := firstn 5 (array_sort byRevenue productRevenue) in
  let otherRevenue :=
    fold_left (fun sum e => (sum + snd e)%Q)
              (skipn 5 (array_sort byRevenue productRevenue)) 0%Q in
  let totalProductRevenue := totalOf productRevenue in
  map (fun '(name, value) =>
         {| cd_name := name;
            cd_value := Fin (inject_Z (Qfloor value));
            cd_percentage := Some (js_mul100 (js_div value totalProductRevenue)) |})
      sortedProducts
  ++ [ {| cd_name := t "reports.others";
          cd_value := Fin (inject_Z (Qfloor otherRevenue));
          cd_percentage :=
            Some (js_mul100 (js_div otherRevenue totalProductRevenue)) |} ].

(** The analysis table: one record per product of the catalog, computed
    on the sales that passed the time filter, then sorted. *)
Definition analiseConsumo (hoje : Z) (products : list Product)
    (filteredSales : list Sale) : list ConsumoAnalise :=
  let analise :=
    map (fun produto => calcularConsumoMedio hoje produto filteredSales) products in
  array_sort (fun a b =>
                inject_Z (quantidade_sugerida b) - inject_Z (quantidade_sugerida a))%Q
             analise.

Record State : Type := {
  st_categoryDistribution : list CategoryData;
  st_revenueContribution : list CategoryData;
  st_analiseConsumo : list ConsumoAnalise
}.

(** The state the page starts in. *)
Definition initial : State :=
  {| st_categoryDistribution := [];
     st_revenueContribution := [];
     st_analiseConsumo := [] |}.

(** The effect that recomputes the page when the sales, the catalog or
    the time filter change: nothing happens until both collections are
    there.  [now] is the clock reading of the filter and [hoje] that of
    the analysis.  (The monthly revenue series is not modelled.) *)
Definition useEffect (now hoje : Z) (timeFilter : string)
    (sales : option (list Sale)) (products : option (list Product))
    (st : State) : State :=
  match sales, products with
  | Some sales, Some products =>
      let filteredSales := filterSalesByTime now timeFilter sales in
      {| st_categoryDistribution := categoryDistribution products filteredSales;
         st_revenueContribution := revenueContribution products filteredSales;
         st_analiseConsumo := analiseConsumo hoje products filteredSales |}
  | _, _ => st
  end.
End Page.

End Reports.

(** ** The analysis on binary64 numbers *)

Module Binary64.

(** An integer quantity (from 0 to 2^62) as a binary64 number. *)
Definition of_Z (z : Z) : float := PrimFloat.of_uint63 (Uint63.of_Z z).

(** [Math.floor] and [Math.ceil] for 0 <= x < 2^51: adding and subtracting
    2^52 rounds to the nearest integer, which is then corrected by one. *)
Definition floor (x : float) : float :=
  let r := (x + 0x1p+52 - 0x1p+52)%float in
  if (x <? r)%float then (r - 1)%float else r.

Definition ceil (x : float) : float :=
  let r := (x + 0x1p+52 - 0x1p+52)%float in
  if (r <? x)%float then (r + 1)%float else r.

Definition arredondamentoPersonalizado (valor : float) : float :=
  if (valor <? 1)%float then 1%float
  else
    let parteDecimal := (valor - floor valor)%float in
    let parteInteira := floor valor in
    if (0.5 <=? parteDecimal)%float then (parteInteira + 1)%float
    else parteInteira.

(** The literals 1.1, 0.9 and 1.2 denote the nearest binary64 numbers. *)
Definition c1_1 : float := 0x1.199999999999ap+0%float.
Definition c0_9 : float := 0x1.ccccccccccccdp-1%float.
Definition c1_2 : float := 0x1.3333333333333p+0%float.

Definition tendencia (consumoRecente consumoAntigo : Z) : Reports.Tendencia :=
  if (of_Z consumoAntigo * c1_1 <? of_Z consumoRecente)%float then Reports.subindo
  else if (of_Z consumoRecente <? of_Z consumoAntigo * c0_9)%float
  then Reports.descendo
  else Reports.estavel.

Definition consumo_diario (somaMes : Z) : float :=
  arredondamentoPersonalizado (of_Z somaMes / 30)%float.

Definition consumo_semanal (somaSemana : Z) : float :=
  arredondamentoPersonalizado (of_Z somaSemana / 7)%float.

Definition quantidade_sugerida (consumoMensal : Z) : float :=
  arredondamentoPersonalizado (ceil (of_Z consumoMensal * c1_2)%float).

End Binary64.

(** The trend of the code, as a function of the two sums. *)
Definition tendencia_de (consumoRecente consumoAntigo : Z) : Reports.Tendencia :=
  if Qlt_bool (inject_Z consumoAntigo * (11 # 10)) (inject_Z consumoRecente)
  then Reports.subindo
  else if Qlt_bool (inject_Z consumoRecente) (inject_Z consumoAntigo * (9 # 10))
  then Reports.descendo
  else Reports.estavel.

Definition Tendencia_eqb (a b : Reports.Tendencia) : bool :=
  match a, b with
  | Reports.subindo, Reports.subindo
  | Reports.estavel, Reports.estavel
  | Reports.descendo, Reports.descendo => true
  | _, _ => false
  end.

(** The integers from 0 to [n - 1]. *)
Definition upto (n : nat) : list Z := map Z.of_nat (seq 0 n).

(** ** The analysis in the words of the specification *)

(** The quantities that section 4.1 of the specification names, defined on
    the sales directly; the properties below compare the code with them. *)
Module Spec.

Section Analysis.
Variable tz : Z.

(** [now] minus one calendar month: the same day of the previous month,
    at 00:00 local time. *)
Definition oneMonthAgo (now : Z) : Z :=
  newDate tz (getFullYear tz now) (getMonth tz now - 1) (getDate tz now) 0 0 0.

(** [now] minus 7 x 24 h. *)
Definition oneWeekAgo (now : Z) : Z := now - 7 * (24 * msPerHour).

(** The quantity of product [P] in one sale. *)
Definition quantityIn (P : Product) (sale : Sale) : Z :=
  fold_right Z.add 0
    (map quantity
         (filter (fun item => (product_id item =? id P)%string) (sale_items sale))).

(** The quantity of product [P] sold in the sales whose timestamp is in
    [window]. *)
Definition sold (window : Z -> bool) (P : Product) (sales : list Sale) : Z :=
  fold_right Z.add 0
    (map (quantityIn P) (filter (fun sale => window (created_at sale)) sales)).

Definition monthlyTotal (now : Z) : Product -> list Sale -> Z :=
  sold (fun ts => oneMonthAgo now <=? ts).

Definition recent (now : Z) : Product -> list Sale -> Z :=
  sold (fun ts => oneWeekAgo now <=? ts).

Definition older (now : Z) : Product -> list Sale -> Z :=
  sold (fun ts => (oneMonthAgo now <=? ts) && (ts <? oneWeekAgo now)).
End Analysis.

(** Every sale item has a positive quantity (section 3). *)
Definition quantitiesPositive (sales : list Sale) : Prop :=
  forall sale item, In sale sales -> In item (sale_items sale) -> 0 < quantity item.

(** Product [P] has no sale item in [sales]. *)
Definition neverSold (P : Product) (sales : list Sale) : Prop :=
  forall sale item, In sale sales -> In item (sale_items sale) ->
                    product_id item <> id P.

Definition sumQ (l : list Q) : Q := fold_right Qplus 0%Q l.

(** The revenue of the items whose product is in the catalog. *)
Definition grandTotal (products : list Product) (sales : list Sale) : Q :=
  sumQ
    (map (fun item => (price_at_sale item * inject_Z (quantity item))%Q)
         (filter (fun item =>
                    existsb (fun p => (id p =? product_id item)%string) products)
                 (flat_map sale_items sales))).




End Spec.

(** ** Example data *)

(** A sale dated at the epoch, used in the examples. *)
Definition old_sale : Sale :=
  {| sale_id := "s1"; created_at := 0; total := 0%Q; payment_method := "cash";
     sale_items := [] |}.

(** The end-to-end example of section 8: product X sold on three days of
    the last week (10 units) and on five days before that within the month
    (20 units); product Y is in the catalog and was never sold.  The clock
    reads Wednesday 2024-05-15, 12:34:56.789, in a zone at UTC. *)
Definition hoje_x : Z := 1715776496789.

Definition produto_x : Product :=
  {| id := "x"; name := "X"; category := "drinks"; selling_price := 5%Q;
     cost_price := 3%Q; stock_quantity := 10; min_stock_level := 2 |}.

Definition produto_y : Product :=
  {| id := "y"; name := "Y"; category := "snacks"; selling_price := 2%Q;
     cost_price := 1%Q; stock_quantity := 4; min_stock_level := 5 |}.

Definition produto_z : Product :=
  {| id := "z"; name := "Z"; category := "snacks"; selling_price := 4%Q;
     cost_price := 2%Q; stock_quantity := 7; min_stock_level := 1 |}.

(** A sale of [n] units of X, [days] days before [hoje_x]. *)
Definition venda_x (days n : Z) : Sale :=
  {| sale_id := "s"; created_at := hoje_x - days * msPerDay;
     total := (5 * inject_Z n)%Q; payment_method := "card";
     sale_items := [ {| product_id := "x"; quantity := n; price_at_sale := 5%Q |} ] |}.

Definition vendas_x : list Sale :=
  [ venda_x 1 3; venda_x 2 3; venda_x 3 4;
    venda_x 10 4; venda_x 12 4; venda_x 15 4; venda_x 20 4; venda_x 25 4 ].

(** ** Strings and objects of the host *)

Module JSString.

(** [n.toString()] for an integer [n]. *)
Definition toString (n : Z) : string := NilZero.string_of_int (Z.to_int n).

Fixpoint repeatChar (c : ascii) (n : nat) : string :=
  match n with
  | O => EmptyString
  | S k => String c (repeatChar c k)
  end.

(** [s.padStart(n, c)] for a one-character filler. *)
Definition padStart (n : nat) (c : ascii) (s : string) : string :=
  (repeatChar c (n - String.length s) ++ s)%string.

(** White space of the ASCII range: tab, line feed, vertical tab, form
    feed, carriage return, space. *)
Definition isWhiteSpace (c : ascii) : bool :=
  let n := nat_of_ascii c in
  ((9 <=? n) && (n <=? 13) || (n =? 32))%nat.

Fixpoint trimStart (s : string) : string :=
  match s with
  | String c s' => if isWhiteSpace c then trimStart s' else s
  | EmptyString => EmptyString
  end.

(** The value of a digit or letter as a digit of some radix. *)
Definition digitValue (c : ascii) : option Z :=
  let n := Z.of_nat (nat_of_ascii c) in
  if (48 <=? n) && (n <=? 57) then Some (n - 48)
  else if (97 <=? n) && (n <=? 122) then Some (n - 87)
  else if (65 <=? n) && (n <=? 90) then Some (n - 55)
  else None.

(** The number that the longest prefix of digits of [s] denotes; [acc] is
    what the digits read so far denote, [None] when there is none yet. *)
Fixpoint digitsPrefix (radix : Z) (s : string) (acc : option Z) : option Z :=
  match s with
  | String c s' =>
      match digitValue c with
      | Some v =>
          if v <? radix then
            digitsPrefix radix s'
              (Some (match acc with Some a => a * radix + v | None => v end))
          else acc
      | None => acc
      end
  | EmptyString => acc
  end.

(** [parseInt(s)]: leading white space, a sign, [0x] for radix 16, then
    the longest prefix of digits; [None] stands for NaN. *)
Definition parseInt (s : string) : option Z :=
  let s := trimStart s in
  let '(sign, s) :=
    match s with
    | String "-" r => (-1, r)
    | String "+" r => (1, r)
    | _ => (1, s)
    end in
  let '(radix, s) :=
    match s with
    | String "0" (String "x" r) => (16, r)
    | String "0" (String "X" r) => (16, r)
    | _ => (10, s)
    end in
  option_map (Z.mul sign) (digitsPrefix radix s None).

Fixpoint splitFrom (sep : ascii) (s : string) (cur : string) : list string :=
  match s with
  | String c s' =>
      if (c =? sep)%char then cur :: splitFrom sep s' EmptyString
      else splitFrom sep s' (cur ++ String c EmptyString)%string
  | EmptyString => [cur]
  end.

(** [s.split(sep)] for a one-character separator. *)
Definition split (sep : ascii) (s : string) : list string :=
  splitFrom sep s EmptyString.

(** [l.join(sep)] *)
Fixpoint join (sep : string) (l : list string) : string :=
  match l with
  | [] => EmptyString
  | [x] => x
  | x :: rest => (x ++ sep ++ join sep rest)%string
  end.

End JSString.

(** An object used as a map from strings to numbers, as its entries in
    insertion order: the keys that the pages use (hours as [HH:00], dates,
    month and product names) are listed in the order in which they were
    first written. *)
Module JSObject.

(** [obj[k]], [None] for undefined. *)
Fixpoint get (obj : list (string * Q)) (k : string) : option Q :=
  match obj with
  | [] => None
  | (k', v) :: rest => if (k' =? k)%string then Some v else get rest k
  end.

(** [obj[k] = v] *)
Fixpoint set (obj : list (string * Q)) (k : string) (v : Q) : list (string * Q) :=
  match obj with
  | [] => [(k, v)]
  | (k', v') :: rest =>
      if (k' =? k)%string then (k', v) :: rest else (k', v') :: set rest k v
  end.

(** [obj[k] || 0] *)
Definition getOrZero (obj : list (string * Q)) (k : string) : Q :=
  match get obj k with
  | Some v => or_zero v
  | None => 0%Q
  end.

End JSObject.

(** ** Dashboard.tsx: the figures and the chart *)

Module DashboardView.

(** What the effect of the page computes. *)
Record State : Type := {
  salesData : list (string * Q);
  totalSales : Q;
  numberOfSales : nat;
  lowStockItems : nat;
  netProfit : Q
}.

(** [`${hour.toString().padStart(2, '0')}:00`] *)
Definition hourKey (hour : Z) : string :=
  (JSString.padStart 2 "0" (JSString.toString hour) ++ ":00")%string.

(** [parseInt] over the keys; a NaN among the results makes the whole
    [None]. *)
Fixpoint parseHours (keys : list string) : option (list Z) :=
  match keys with
  | [] => Some []
  | k :: rest =>
      match JSString.parseInt k, parseHours rest with
      | Some h, Some hs => Some (h :: hs)
      | _, _ => None
      end
  end.

(** [Math.min(...hours)] and [Math.max(...hours)] of a non-empty list. *)
Definition minOf (h : Z) (hours : list Z) : Z := fold_left Z.min hours h.
Definition maxOf (h : Z) (hours : list Z) : Z := fold_left Z.max hours h.

(** The values [first, first + 1, ..., last] of the loop variable. *)
Definition hoursFrom (first last : Z) : list Z :=
  map (fun i => first + Z.of_nat i) (seq 0 (Z.to_nat (last - first + 1))).

Section Page.
Variable tz : Z.
(** [date.toLocaleDateString('pt-BR')], the date formatting of the host. *)
Variable toLocaleDateString : Z -> string.
(** The time value of [new Date(s)], the date parser of the host, on the
    strings it can read. *)
Variable parseDate : string -> Q.

Definition isSameDay (date1 date2 : option Z) : bool :=
  match date1, date2 with
  | Some date1, Some date2 =>
      (getFullYear tz date1 =? getFullYear tz date2)
      && (getMonth tz date1 =? getMonth tz date2)
      && (getDate tz date1 =? getDate tz date2)
  | _, _ => false
  end.

Definition isOneDayView (start end_ : option Z) (period : string) : bool :=
  if (period =? "daily")%string then true
  else
    match start, end_ with
    | Some _, Some _ => isSameDay start end_
    | _, _ => false
    end.

(** The profit of one sale: the items of a product of the catalog, at
    their price at sale minus the cost price of the product. *)
Definition saleProfit (products : list Product) (sale : Sale) : Q :=
  fold_left (fun itemSum item =>
    match find (fun p => (id p =? product_id item)%string) products with
    | Some product =>
        let costPrice := or_zero (cost_price product) in
        let profit := ((price_at_sale item - costPrice) * inject_Z (quantity item))%Q in
        (itemSum + profit)%Q
    | None => itemSum
    end) (sale_items sale) 0%Q.

(** The revenue of the sales grouped by hour of the day or by date. *)
Definition salesByDate (showHourlyView : bool) (filteredSales : list Sale)
    : list (string * Q) :=
  fold_left (fun acc sale =>
    let date := created_at sale in
    let key :=
      if showHourlyView then hourKey (getHours tz date)
      else toLocaleDateString date in
    Reports.acc_add acc key (total sale)) filteredSales [].

(** The chart data.  [currentHour] is the hour of the clock reading taken
    when there is no sale to show. *)
Definition chart (currentHour : Z) (showHourlyView : bool)
    (filteredSales : list Sale) : list (string * Q) :=
  let salesByDate := salesByDate showHourlyView filteredSales in
  if showHourlyView then
    match parseHours (map fst salesByDate) with
    | Some hours =>
        match array_sort (fun a b => inject_Z a - inject_Z b)%Q hours with
        | h :: hs =>
            let firstHour := minOf h hs in
            let lastHour := maxOf h hs in
            fold_left (fun sortedData hour =>
                         let key := hourKey hour in
                         JSObject.set sortedData key
                                      (JSObject.getOrZero salesByDate key))
                      (hoursFrom firstHour lastHour) []
        | [] => [(hourKey currentHour, 0%Q)]
        end
    | None => []
    end
  else
    fold_left (fun acc e => JSObject.set acc (fst e) (snd e))
      (array_sort (fun a b =>
                     let dateA :=
                       JSString.join "-" (rev (JSString.split "/" (fst a))) in
                     let dateB :=
                       JSString.join "-" (rev (JSString.split "/" (fst b))) in
                     (parseDate dateA - parseDate dateB)%Q)
                  salesByDate) [].

(** The effect of the page; [st] is the range chosen in the picker. *)
Definition useEffect (currentHour : Z) (st : PeriodState)
    (sales : option (list Sale)) (products : option (list Product))
    (view : State) : State :=
  match sales, products with
  | Some sales, Some products =>
      let filteredSales := Dashboard.filterSalesByDateRange st sales in
      let total := fold_left (fun sum sale => (sum + total sale)%Q) filteredSales 0%Q in
      let profit :=
        fold_left (fun sum sale => (sum + saleProfit products sale)%Q)
                  filteredSales 0%Q in
      (* [product.quantity], the stock of the product, is the field
         [stock_quantity] of the record *)
      let lowStock :=
        List.length
          (filter (fun product => stock_quantity product <=? min_stock_level product)
                  products) in
      let showHourlyView :=
        isOneDayView (startDate st) (endDate st) (selectedPeriod st) in
      {| salesData := chart currentHour showHourlyView filteredSales;
         totalSales := total;
         numberOfSales := List.length filteredSales;
         lowStockItems := lowStock;
         netProfit := profit |}
  | _, _ => view
  end.
End Page.

End DashboardView.

(** ** The date range picker *)

Module DateRangePicker.

(** What a handler of the picker does, in order: calls to the two
    callbacks of the page, and updates of its own calendar. *)
Inductive Call : Type :=
  | onChange (dates : option Z * option Z)
  | onPeriodChange (period : string)
  | setIsCalendarOpen (open : bool)
  | closeAfter (ms : Z).

Definition handleDateChange (tz : Z) (dates : option Z * option Z) : list Call :=
  let '(start, end_) := dates in
  onChange dates
  :: match start, end_ with
     | Some start, Some end_ =>
         let endOfDay := setHours tz end_ 23 59 59 999 in
         [onChange (Some start, Some endOfDay); closeAfter 300]
     | _, _ => []
     end.

Definition handlePeriodChange (period : string) : list Call :=
  [onPeriodChange period;
   setIsCalendarOpen (if (period =? "custom")%string then true else false)].

(** The two callbacks as the Dashboard and the Sales page pass them:
    [onChange] stores the two dates, [onPeriodChange] is the resolver of the
    page; the calendar calls leave the page as it is. *)
Definition page (resolver : string -> PeriodState -> PeriodState)
    (st : PeriodState) (call : Call) : PeriodState :=
  match call with
  | onChange dates =>
      {| selectedPeriod := selectedPeriod st;
         startDate := fst dates;
         endDate := snd dates |}
  | onPeriodChange period => resolver period st
  | setIsCalendarOpen _ => st
  | closeAfter _ => st
  end.

(** The page after the calls of a handler. *)
Definition pageAfter (resolver : string -> PeriodState -> PeriodState)
    (st : PeriodState) (calls : list Call) : PeriodState :=
  fold_left (page resolver) calls st.

(** The calendar of the picker: whether it is open, and how many delayed
    closes are pending (the timers all have the same delay and are never
    cancelled). *)
Record Calendar : Type := {
  isCalendarOpen : bool;
  closePending : nat
}.

Inductive Event : Type :=
  | Handler (calls : list Call)
  | Toggle
  | ClickOutside
  | TimerFires.

Definition calendarCall (c : Calendar) (call : Call) : Calendar :=
  match call with
  | setIsCalendarOpen open =>
      {| isCalendarOpen := open; closePending := closePending c |}
  | closeAfter _ =>
      {| isCalendarOpen := isCalendarOpen c; closePending := S (closePending c) |}
  | _ => c
  end.

Definition step (c : Calendar) (e : Event) : Calendar :=
  match e with
  | Handler calls => fold_left calendarCall calls c
  | Toggle =>
      {| isCalendarOpen := negb (isCalendarOpen c); closePending := closePending c |}
  | ClickOutside =>
      {| isCalendarOpen := false; closePending := closePending c |}
  | TimerFires =>
      match closePending c with
      | S n => {| isCalendarOpen := false; closePending := n |}
      | O => c
      end
  end.

End DateRangePicker.

(** ** The reports page: revenue by month *)

Module ReportsMonthly.

Section Page.
Variable tz : Z.
(** [date.toLocaleString('pt-BR', { month: 'long' })] for a date in month
    [m] (0 to 11) of the local calendar: the month names of the host. *)
Variable monthLong : Z -> string.

Definition monthlyData (filteredSales : list Sale) : Reports.ProductRevenue :=
  fold_left (fun acc sale =>
    let date := created_at sale in
    let month := monthLong (getMonth tz date) in
    Reports.acc_add acc month (total sale)) filteredSales [].

(** The bars of the chart: [Object.entries(monthlyData)]. *)
Definition monthlySales (filteredSales : list Sale) : list (string * Q) :=
  map (fun '(month, revenue) => (month, revenue)) (monthlyData filteredSales).
End Page.

End ReportsMonthly.

(** ** Notions used to state the further properties *)


(** The local calendar day of an instant, as a day number. *)
Definition localDay (tz t : Z) : Z := Day (LocalTime tz t).

(** The local time of day of an instant, in milliseconds. *)
Definition localTimeOfDay (tz t : Z) : Z := TimeWithinDay (LocalTime tz t).

(** The amount an object holds under a key, 0 when the key is absent. *)
Definition valueOf (obj : list (string * Q)) (k : string) : Q :=
  match JSObject.get obj k with
  | Some v => v
  | None => 0%Q
  end.

(** The sum of the amounts that a list of keyed amounts has under [k]. *)
Definition sumKey (k : string) (pairs : list (string * Q)) : Q :=
  Spec.sumQ (map snd (filter (fun p => (fst p =? k)%string) pairs)).

(** Accumulating keyed amounts into an object, one after the other. *)
Definition groupPairs (pairs : list (string * Q)) (acc : list (string * Q))
    : list (string * Q) :=
  fold_left (fun acc p => Reports.acc_add acc (fst p) (snd p)) pairs acc.

(** The keyed amounts that the items of the sales contribute to a chart:
    one for each item whose product is in the catalog. *)
Definition contributions (key : Product -> string) (products : list Product)
    (sales : list Sale) : list (string * Q) :=
  flat_map (fun sale =>
    flat_map (fun item =>
      match find (fun p => (id p =? product_id item)%string) products with
      | Some product =>
          [(key product, (price_at_sale item * inject_Z (quantity item))%Q)]
      | None => []
      end) (sale_items sale)) sales.

(** The cost of the items whose product is in the catalog. *)
Definition costTotal (products : list Product) (sales : list Sale) : Q :=
  Spec.sumQ
    (flat_map (fun sale =>
       flat_map (fun item =>
         match find (fun p => (id p =? product_id item)%string) products with
         | Some product =>
             [(or_zero (cost_price product) * inject_Z (quantity item))%Q]
         | None => []
         end) (sale_items sale)) sales).

(** The sum of the totals of the sales. *)
Definition totalOfSales (sales : list Sale) : Q := Spec.sumQ (map total sales).

(** The year that [new Date(y, ...)] takes for its argument [y]. *)
Definition dateYear (y : Z) : Z :=
  if (0 <=? y) && (y <=? 99) then 1900 + y else y.


(** No product of the catalog has the identifier of the item. *)
Definition orphan (products : list Product) (item : SaleItem) : Prop :=
  find (fun p => (id p =? product_id item)%string) products = None.

(** A second product of the category of X, and sales of it and of an item
    whose product is not in the catalog. *)
Definition produto_w : Product :=
  {| id := "w"; name := "W"; category := "drinks"; selling_price := 3%Q;
     cost_price := 2%Q; stock_quantity := 1; min_stock_level := 1 |}.

Definition venda_w : Sale :=
  {| sale_id := "sw"; created_at := hoje_x - 5 * msPerDay; total := 6%Q;
     payment_method := "pix";
     sale_items := [ {| product_id := "w"; quantity := 2; price_at_sale := 3%Q |} ] |}.

Definition venda_orfa : Sale :=
  {| sale_id := "so"; created_at := hoje_x - 4 * msPerDay; total := 8%Q;
     payment_method := "cash";
     sale_items := [ {| product_id := "gone"; quantity := 1; price_at_sale := 8%Q |} ] |}.

(** The total of the sales made in hour [h] of the day. *)
Definition hourTotal (tz : Z) (h : Z) (sales : list Sale) : Q :=
  Spec.sumQ (map total (filter (fun s => getHours tz (created_at s) =? h) sales)).

(** The date that the comparator of the chart reads from a key:
    [key.split('/').reverse().join('-')]. *)
Definition isoDate (key : string) : string :=
  JSString.join "-" (rev (JSString.split "/" key)).

(** No character of [s] is [c]. *)
Fixpoint without (c : ascii) (s : string) : Prop :=
  match s with
  | EmptyString => True
  | String c' s' => c' <> c /\ without c s'
  end.

(** Dashboard.tsx, the [labelFormatter] of the tooltip of the chart.
    [dateLabel] is the text [t('common.date')].  [split] gives at least
    one piece, so that [[0]] is defined; [%] is the remainder of JS, with
    the sign of the dividend; a NaN prints as [NaN]. *)
Definition labelFormatter (dateLabel : string) (showHourlyView : bool)
    (label : string) : string :=
  if showHourlyView then
    let hour := JSString.parseInt (hd EmptyString (JSString.split ":" label)) in
    let nextHour := option_map (fun hour => Z.rem (hour + 1) 24) hour in
    (label ++ " - "
     ++ JSString.padStart 2 "0"
          (match nextHour with
           | Some n => JSString.toString n
           | None => "NaN"
           end)
     ++ ":00")%string
  else (dateLabel ++ ": " ++ label)%string.

(** * Properties *)

(** ** Calendar facts *)

Lemma DayFromYear_step (y : Z) :
  DayFromYear (y + 1) = DayFromYear y + DaysInYear y.
Proof.
  unfold DayFromYear, DaysInYear.
  destruct (Z.eqb_spec (y mod 4) 0), (Z.eqb_spec (y mod 100) 0),
    (Z.eqb_spec (y mod 400) 0); cbn [negb];
    Z.div_mod_to_equations; lia.
Qed.

Lemma DaysInYear_cases (y : Z) : DaysInYear y = 365 \/ DaysInYear y = 366.
Proof.
  unfold DaysInYear.
  destruct (y mod 4 =? 0), (y mod 100 =? 0), (y mod 400 =? 0); cbn; auto.
Qed.

Lemma DayFromYear_mono (y y' : Z) : y <= y' -> DayFromYear y <= DayFromYear y'.
Proof.
  unfold DayFromYear. intros Hle. Z.div_mod_to_equations. lia.
Qed.

(** The computed year is the one whose days contain [d] ... *)
Lemma YearFromDay_spec (d : Z) :
  DayFromYear (YearFromDay d) <= d < DayFromYear (YearFromDay d + 1).
Proof.
  unfold YearFromDay.
  set (y0 := 1970 + d * 400 / 146097).
  destruct (Z.ltb_spec d (DayFromYear y0)) as [Hlt | Hge].
  - replace (y0 - 1 + 1) with y0 by lia. split; [| lia].
    unfold DayFromYear in *. subst y0. Z.div_mod_to_equations. lia.
  - destruct (Z.leb_spec (DayFromYear (y0 + 1)) d) as [Hnext | Hnext].
    + split; [lia |].
      unfold DayFromYear in *. subst y0. Z.div_mod_to_equations. lia.
    + lia.
Qed.

(** ... hence the largest year that starts on or before [d]. *)
Lemma YearFromDay_largest (d y : Z) :
  DayFromYear y <= d -> y <= YearFromDay d.
Proof.
  intros Hy.
  destruct (Z_le_gt_dec y (YearFromDay d)) as [Hle | Hgt]; [exact Hle |].
  pose proof (YearFromDay_spec d) as [_ Hup].
  pose proof (DayFromYear_mono (YearFromDay d + 1) y ltac:(lia)). lia.
Qed.

Lemma DayWithinYear_range (d : Z) :
  0 <= DayWithinYear d < DaysInYear (YearFromDay d).
Proof.
  unfold DayWithinYear.
  pose proof (YearFromDay_spec d) as [Hlo Hup].
  rewrite DayFromYear_step in Hup. lia.
Qed.

Lemma InLeapYear_cases (d : Z) :
  (InLeapYear d = 0 /\ DaysInYear (YearFromDay d) = 365)
  \/ (InLeapYear d = 1 /\ DaysInYear (YearFromDay d) = 366).
Proof.
  unfold InLeapYear.
  destruct (DaysInYear_cases (YearFromDay d)) as [H | H]; rewrite H; cbn; auto.
Qed.

Lemma MonthFromDay_range (d : Z) : 0 <= MonthFromDay d <= 11.
Proof.
  unfold MonthFromDay.
  repeat match goal with
         | |- context [?a <? ?b] => destruct (a <? b)
         end; lia.
Qed.

Lemma DateFromDay_range (d : Z) : 1 <= DateFromDay d <= 31.
Proof.
  unfold DateFromDay, MonthFromDay.
  pose proof (DayWithinYear_range d) as Hw.
  destruct (InLeapYear_cases d) as [[Hl Hy] | [Hl Hy]]; rewrite Hl, Hy in *;
    repeat match goal with
           | |- context [?a <? ?b] => destruct (Z.ltb_spec a b)
           end; cbn [monthStart]; lia.
Qed.

(** Composing a day from the civil fields of day [d], with the day of the
    month moved by [k], gives the day [d + k]: this is why [setDate] with an
    out-of-range argument rolls over into the neighbouring months. *)
Lemma MakeDay_civil (d k : Z) :
  MakeDay (YearFromDay d) (MonthFromDay d) (DateFromDay d + k) = d + k.
Proof.
  pose proof (MonthFromDay_range d) as Hm.
  unfold MakeDay.
  rewrite (Z.div_small (MonthFromDay d) 12), (Z.mod_small (MonthFromDay d) 12) by lia.
  rewrite Z.add_0_r.
  unfold DateFromDay, DayWithinYear, InLeapYear. lia.
Qed.

Lemma MakeDay_civil0 (d : Z) :
  MakeDay (YearFromDay d) (MonthFromDay d) (DateFromDay d) = d.
Proof.
  rewrite <- (Z.add_0_r (DateFromDay d)), MakeDay_civil. lia.
Qed.

Lemma YearFromDay_unique (d y : Z) :
  DayFromYear y <= d < DayFromYear (y + 1) -> YearFromDay d = y.
Proof.
  intros [Hlo Hup].
  pose proof (YearFromDay_spec d) as [Hlo' Hup'].
  destruct (Z.lt_trichotomy (YearFromDay d) y) as [Hlt | [Heq | Hgt]];
    [| exact Heq |].
  - pose proof (DayFromYear_mono (YearFromDay d + 1) y ltac:(lia)). lia.
  - pose proof (DayFromYear_mono (y + 1) (YearFromDay d) ltac:(lia)). lia.
Qed.

(** [MakeDay] at day 1 is the day ECMA-262 asks for: its year is
    [year + floor(month / 12)], its month [month mod 12], its date 1. *)
Lemma MakeDay_fields (year month : Z) :
  let d := MakeDay year month 1 in
  YearFromDay d = year + month / 12
  /\ MonthFromDay d = month mod 12
  /\ DateFromDay d = 1.
Proof.
  intros d. subst d. unfold MakeDay.
  set (ym := year + month / 12). set (mn := month mod 12).
  set (l := if DaysInYear ym =? 366 then 1 else 0).
  assert (Hmn : 0 <= mn <= 11) by (subst mn; Z.div_mod_to_equations; lia).
  assert (Hl : (l = 0 /\ DaysInYear ym = 365) \/ (l = 1 /\ DaysInYear ym = 366))
    by (subst l; destruct (DaysInYear_cases ym) as [H | H]; rewrite H; cbn; auto).
  assert (Hms : 0 <= monthStart mn l <= 334 + l).
  { assert (Hc : mn = 0 \/ mn = 1 \/ mn = 2 \/ mn = 3 \/ mn = 4 \/ mn = 5 \/ mn = 6
                 \/ mn = 7 \/ mn = 8 \/ mn = 9 \/ mn = 10 \/ mn = 11) by lia.
    repeat (destruct Hc as [-> | Hc]; [cbn [monthStart]; lia |]).
    rewrite Hc. cbn [monthStart]. lia. }
  assert (Hy : YearFromDay (DayFromYear ym + monthStart mn l + 1 - 1) = ym).
  { apply YearFromDay_unique. rewrite DayFromYear_step. lia. }
  assert (Hw : DayWithinYear (DayFromYear ym + monthStart mn l + 1 - 1)
               = monthStart mn l)
    by (unfold DayWithinYear; rewrite Hy; lia).
  assert (Hleap : InLeapYear (DayFromYear ym + monthStart mn l + 1 - 1) = l)
    by (unfold InLeapYear; rewrite Hy; reflexivity).
  assert (Hm : MonthFromDay (DayFromYear ym + monthStart mn l + 1 - 1) = mn).
  { unfold MonthFromDay. rewrite Hw, Hleap.
    assert (Hc : mn = 0 \/ mn = 1 \/ mn = 2 \/ mn = 3 \/ mn = 4 \/ mn = 5 \/ mn = 6
                 \/ mn = 7 \/ mn = 8 \/ mn = 9 \/ mn = 10 \/ mn = 11) by lia.
    clear - Hc Hl.
    assert (Hl' : l = 0 \/ l = 1) by tauto. clear Hl.
    repeat (destruct Hc as [-> | Hc];
            [destruct Hl' as [-> | ->]; reflexivity |]).
    rewrite Hc. destruct Hl' as [-> | ->]; reflexivity. }
  split; [exact Hy |]. split; [exact Hm |].
  unfold DateFromDay. rewrite Hw, Hleap, Hm. lia.
Qed.

Lemma Day_MakeDate (day time : Z) :
  0 <= time < msPerDay -> Day (MakeDate day time) = day.
Proof.
  unfold Day, MakeDate, msPerDay. intros H. Z.div_mod_to_equations. lia.
Qed.

Lemma TimeWithinDay_MakeDate (day time : Z) :
  0 <= time < msPerDay -> TimeWithinDay (MakeDate day time) = time.
Proof.
  unfold TimeWithinDay, MakeDate, msPerDay. intros H. Z.div_mod_to_equations. lia.
Qed.

Lemma MakeDate_Day (t : Z) : MakeDate (Day t) (TimeWithinDay t) = t.
Proof.
  unfold MakeDate, Day, TimeWithinDay, msPerDay. Z.div_mod_to_equations. lia.
Qed.

(** [d.setDate(d.getDate() + k)] moves [d] by [k] whole days and keeps its
    time of day. *)
Lemma setDate_shift (tz t k : Z) :
  setDate tz t (getDate tz t + k) = t + k * msPerDay.
Proof.
  unfold setDate, getDate, UTC, LocalTime.
  rewrite MakeDay_civil.
  pose proof (MakeDate_Day (t + tz)) as H.
  unfold MakeDate in *. lia.
Qed.

Lemma Day_shift (t k : Z) : Day (t + k * msPerDay) = Day t + k.
Proof.
  unfold Day, msPerDay. Z.div_mod_to_equations. lia.
Qed.

Lemma WeekDay_range (d : Z) : 0 <= WeekDay d <= 6.
Proof. unfold WeekDay. Z.div_mod_to_equations. lia. Qed.

Lemma WeekDay_back (d : Z) : WeekDay (d - WeekDay d) = 0.
Proof. unfold WeekDay. Z.div_mod_to_equations. lia. Qed.

(** The local calendar day of the instant that [setHours] produces. *)
Lemma setHours_local_day (tz t h m s ms : Z) :
  0 <= MakeTime h m s ms < msPerDay ->
  Day (LocalTime tz (setHours tz t h m s ms)) = Day (LocalTime tz t).
Proof.
  intros H. unfold setHours, UTC, LocalTime.
  replace (MakeDate (Day (t + tz)) (MakeTime h m s ms) - tz + tz)
    with (MakeDate (Day (t + tz)) (MakeTime h m s ms)) by lia.
  now apply Day_MakeDate.
Qed.

(** Some dates: a leap day, the day before the epoch, a day of 1900 (not a
    leap year), and the roll-over of [new Date] at month -1, at day 0 and
    past the end of February. *)
Example calendar_examples :
  toDateString 0 1709164800000 = (4, 1, 29, 2024)
  /\ toDateString 0 (-86400000) = (3, 11, 31, 1969)
  /\ toDateString 0 (-2203891200000) = (4, 2, 1, 1900)
  /\ newDate 0 2024 4 15 12 34 56 = 1715776496000
  /\ newDate 0 2024 (-1) 31 0 0 0 = newDate 0 2023 11 31 0 0 0
  /\ newDate 0 2024 5 0 0 0 0 = newDate 0 2024 4 31 0 0 0
  /\ newDate 0 2023 1 31 0 0 0 = newDate 0 2023 2 3 0 0 0
  /\ toDateString (-10800000) 1715776496789 = (3, 4, 15, 2024)
  /\ getHours (-10800000) 1715776496789 = 9.
Proof. repeat split; vm_compute; reflexivity. Qed.

(** ** The period resolvers *)

Section Resolvers.
Variables (tz now : Z) (st : PeriodState).

Let d := Day (LocalTime tz now).
Let sunday := d - WeekDay d.

(** The day the weekly range starts on is a Sunday, and it is the last
    one: at most six days before the day of the call. *)
Lemma weekly_sunday : WeekDay sunday = 0 /\ d - 6 <= sunday <= d.
Proof.
  subst sunday. split; [apply WeekDay_back |].
  pose proof (WeekDay_range d). lia.
Qed.

(** Dashboard, [weekly]: from that Sunday at 00:00:00.000 local time to
    the Saturday after it at 23:59:59.999. *)
Lemma Dashboard_weekly :
  Dashboard.handlePeriodChange tz now "weekly" st =
    {| selectedPeriod := "weekly";
       startDate := Some (UTC tz (MakeDate sunday (MakeTime 0 0 0 0)));
       endDate := Some (UTC tz (MakeDate (sunday + 6) (MakeTime 23 59 59 999))) |}.
Proof.
  unfold Dashboard.handlePeriodChange.
  cbn [String.eqb Ascii.eqb Bool.eqb negb].
  assert (Hback : setDate tz now (getDate tz now - getDay tz now)
                  = now + (- WeekDay d) * msPerDay).
  { rewrite <- Z.add_opp_r. apply setDate_shift. }
  rewrite Hback, setDate_shift.
  assert (Hstart : setHours tz (now + - WeekDay d * msPerDay) 0 0 0 0
                   = UTC tz (MakeDate sunday (MakeTime 0 0 0 0))).
  { unfold setHours, LocalTime.
    replace (now + - WeekDay d * msPerDay + tz)
      with (now + tz + (- WeekDay d) * msPerDay) by lia.
    rewrite Day_shift. reflexivity. }
  rewrite Hstart. f_equal. apply f_equal.
  unfold setHours, LocalTime, UTC.
  replace (MakeDate sunday (MakeTime 0 0 0 0) - tz + 6 * msPerDay + tz)
    with (MakeDate sunday (MakeTime 0 0 0 0) + 6 * msPerDay) by lia.
  rewrite Day_shift, Day_MakeDate; [reflexivity | cbv; split; congruence].
Qed.

(** Sales, [weekly]: the same two days, but both bounds keep the time of
    day of the call. *)
Lemma Sales_weekly :
  Sales.handlePeriodChange tz now "weekly" st =
    {| selectedPeriod := "weekly";
       startDate := Some (UTC tz (MakeDate sunday (TimeWithinDay (LocalTime tz now))));
       endDate := Some (UTC tz (MakeDate (sunday + 6)
                                         (TimeWithinDay (LocalTime tz now)))) |}.
Proof.
  unfold Sales.handlePeriodChange.
  cbn [String.eqb Ascii.eqb Bool.eqb negb].
  assert (Hback : setDate tz now (getDate tz now - getDay tz now)
                  = now + (- WeekDay d) * msPerDay).
  { rewrite <- Z.add_opp_r. apply setDate_shift. }
  rewrite Hback, setDate_shift.
  pose proof (MakeDate_Day (LocalTime tz now)) as Hnow.
  fold d in Hnow. subst sunday.
  unfold UTC, MakeDate, LocalTime, msPerDay in *.
  f_equal; apply f_equal; lia.
Qed.

(** Dashboard, [daily]: today from 00:00:00.000 to 23:59:59.000, when the
    year of the call is not one that [new Date(y, ...)] reads as 19yy. *)
Lemma Dashboard_daily :
  getFullYear tz now < 0 \/ 99 < getFullYear tz now ->
  Dashboard.handlePeriodChange tz now "daily" st =
    {| selectedPeriod := "daily";
       startDate := Some (UTC tz (MakeDate d (MakeTime 0 0 0 0)));
       endDate := Some (UTC tz (MakeDate d (MakeTime 23 59 59 0))) |}.
Proof.
  intros Hy.
  unfold Dashboard.handlePeriodChange, newDate.
  cbn [String.eqb Ascii.eqb Bool.eqb negb].
  replace ((0 <=? getFullYear tz now) && (getFullYear tz now <=? 99)) with false
    by (symmetry; apply andb_false_iff; rewrite Z.leb_gt, Z.leb_gt; lia).
  unfold getFullYear, getMonth, getDate. fold d.
  rewrite MakeDay_civil0. reflexivity.
Qed.

(** Sales, [daily]: today from 00:00:00.000 to 23:59:59.999. *)
Lemma Sales_daily :
  Sales.handlePeriodChange tz now "daily" st =
    {| selectedPeriod := "daily";
       startDate := Some (UTC tz (MakeDate d (MakeTime 0 0 0 0)));
       endDate := Some (UTC tz (MakeDate d (MakeTime 23 59 59 999))) |}.
Proof.
  unfold Sales.handlePeriodChange.
  cbn [String.eqb Ascii.eqb Bool.eqb negb].
  f_equal. apply f_equal.
  unfold setHours at 1.
  rewrite setHours_local_day by (cbv; split; congruence).
  reflexivity.
Qed.
End Resolvers.

Section ResolverEnds.
Variables (tz now : Z) (st : PeriodState).

(** [monthly] and [yearly]: the Dashboard range ends at 23:59:59 of the
    last day, the Sales range at 00:00:00 of that day. *)
Lemma monthly_ends :
  exists e,
    endDate (Sales.handlePeriodChange tz now "monthly" st) = Some e
    /\ endDate (Dashboard.handlePeriodChange tz now "monthly" st)
       = Some (e + MakeTime 23 59 59 0).
Proof.
  eexists. split; [reflexivity |].
  unfold Dashboard.handlePeriodChange, Sales.handlePeriodChange.
  cbn [String.eqb Ascii.eqb Bool.eqb negb endDate].
  unfold newDate, UTC, MakeDate. apply f_equal.
  change (MakeTime 0 0 0 0) with 0.
  change (MakeTime 23 59 59 0) with 86399000. lia.
Qed.

Lemma all_no_bounds :
  Dashboard.handlePeriodChange tz now "all" st
  = {| selectedPeriod := "all"; startDate := None; endDate := None |}
  /\ Sales.handlePeriodChange tz now "all" st
     = {| selectedPeriod := "all"; startDate := None; endDate := None |}.
Proof.
  unfold Dashboard.handlePeriodChange, Sales.handlePeriodChange.
  cbn [String.eqb Ascii.eqb Bool.eqb negb]. split; reflexivity.
Qed.

Lemma monthly_yearly_starts :
  startDate (Dashboard.handlePeriodChange tz now "monthly" st)
  = startDate (Sales.handlePeriodChange tz now "monthly" st)
  /\ startDate (Dashboard.handlePeriodChange tz now "yearly" st)
     = startDate (Sales.handlePeriodChange tz now "yearly" st).
Proof.
  unfold Dashboard.handlePeriodChange, Sales.handlePeriodChange.
  cbn [String.eqb Ascii.eqb Bool.eqb negb startDate]. split; reflexivity.
Qed.

Lemma yearly_ends :
  exists e,
    endDate (Sales.handlePeriodChange tz now "yearly" st) = Some e
    /\ endDate (Dashboard.handlePeriodChange tz now "yearly" st)
       = Some (e + MakeTime 23 59 59 0).
Proof.
  eexists. split; [reflexivity |].
  unfold Dashboard.handlePeriodChange, Sales.handlePeriodChange.
  cbn [String.eqb Ascii.eqb Bool.eqb negb endDate].
  unfold newDate, UTC, MakeDate. apply f_equal.
  change (MakeTime 0 0 0 0) with 0.
  change (MakeTime 23 59 59 0) with 86399000. lia.
Qed.
End ResolverEnds.

(** The instant used in the examples: Wednesday 2024-05-15, 12:34:56.789,
    on a host whose local time is UTC. *)
Example wednesday_noon :
  toDateString 0 1715776496789 = (3, 4, 15, 2024)
  /\ (getHours 0 1715776496789, getMinutes 0 1715776496789,
      getSeconds 0 1715776496789, getMilliseconds 0 1715776496789)
     = (12, 34, 56, 789).
Proof. split; reflexivity. Qed.

(** C8 (weekly range starts on the last Sunday at 00:00:00 and ends six
    days later at 23:59:59).  The Dashboard resolver does this (lemmas
    [weekly_sunday] and [Dashboard_weekly]); the Sales resolver misses the
    [setHours] calls.  Called on Wednesday 2024-05-15 at 12:34:56.789 it
    yields Sunday 2024-05-12 at 12:34:56.789 and Saturday 2024-05-18 at
    12:34:56.789, where the Dashboard resolver yields Sunday 00:00:00.000
    and Saturday 23:59:59.999. *)
Theorem Sales_weekly_keeps_time_of_day :
  let now := 1715776496789 in
  let r := Sales.handlePeriodChange 0 now "weekly" Sales.initial in
  let r' := Dashboard.handlePeriodChange 0 now "weekly" (Dashboard.initial 0 now) in
  startDate r = Some 1715517296789
  /\ endDate r = Some 1716035696789
  /\ toDateString 0 1715517296789 = (0, 4, 12, 2024)
  /\ (getHours 0 1715517296789, getMinutes 0 1715517296789,
      getSeconds 0 1715517296789, getMilliseconds 0 1715517296789)
     = (12, 34, 56, 789)
  /\ toDateString 0 1716035696789 = (6, 4, 18, 2024)
  /\ (getHours 0 1716035696789, getMinutes 0 1716035696789,
      getSeconds 0 1716035696789, getMilliseconds 0 1716035696789)
     = (12, 34, 56, 789)
  /\ startDate r' = Some 1715472000000
  /\ endDate r' = Some 1716076799999
  /\ (getHours 0 1715472000000, getMinutes 0 1715472000000,
      getSeconds 0 1715472000000, getMilliseconds 0 1715472000000)
     = (0, 0, 0, 0)
  /\ (getHours 0 1716076799999, getMinutes 0 1716076799999,
      getSeconds 0 1716076799999, getMilliseconds 0 1716076799999)
     = (23, 59, 59, 999).
Proof. cbv zeta. repeat split; vm_compute; reflexivity. Qed.

(** The two resolvers, called at the same instant, disagree on the end of
    [daily], on both bounds of [weekly] and on the ends of [monthly] and
    [yearly]. *)
Lemma resolvers_differ :
  let now := 1715776496789 in
  let D := fun sel => Dashboard.handlePeriodChange 0 now sel Sales.initial in
  let S := fun sel => Sales.handlePeriodChange 0 now sel Sales.initial in
  (endDate (D "daily") = Some 1715817599000
   /\ endDate (S "daily") = Some 1715817599999)
  /\ D "daily" <> S "daily"
  /\ D "weekly" <> S "weekly"
  /\ D "monthly" <> S "monthly"
  /\ D "yearly" <> S "yearly".
Proof.
  cbv zeta. repeat split; try (vm_compute; reflexivity);
    vm_compute; intros H; discriminate H.
Qed.

(** C10, as amended.  The two resolvers agree on [all] (no bounds) and on
    the start of [daily], [monthly] and [yearly]; for [daily] both end on
    today's 23:59:59, Dashboard at millisecond 0 and Sales at millisecond
    999.  (The year of the call is taken outside 0..99, which
    [new Date(y, ...)] reads as 19yy.) *)
Theorem resolvers_agree_where_designed (tz now : Z) (st : PeriodState) :
  getFullYear tz now < 0 \/ 99 < getFullYear tz now ->
  let D := fun sel => Dashboard.handlePeriodChange tz now sel st in
  let S := fun sel => Sales.handlePeriodChange tz now sel st in
  D "all" = S "all"
  /\ (startDate (D "all"), endDate (D "all")) = (None, None)
  /\ startDate (D "daily") = startDate (S "daily")
  /\ startDate (D "monthly") = startDate (S "monthly")
  /\ startDate (D "yearly") = startDate (S "yearly")
  /\ exists e,
       e = UTC tz (MakeDate (Day (LocalTime tz now)) (MakeTime 23 59 59 0))
       /\ endDate (D "daily") = Some e
       /\ endDate (S "daily") = Some (e + 999).
Proof.
  intros Hy D S. subst D S. cbv beta.
  rewrite (Dashboard_daily tz now st Hy), (Sales_daily tz now st).
  destruct (all_no_bounds tz now st) as [HD HS]. rewrite HD, HS.
  destruct (monthly_yearly_starts tz now st) as [Hm Hyr].
  cbn [startDate endDate].
  split; [reflexivity |]. split; [reflexivity |]. split; [reflexivity |].
  split; [exact Hm |]. split; [exact Hyr |].
  eexists. split; [reflexivity |]. split; [reflexivity |].
  apply f_equal. unfold UTC, MakeDate, MakeTime. lia.
Qed.

Lemma resolvers_agree_where_designed_witness :
  let tz := 0 in
  let now := 1715776496789 in
  let D := fun sel => Dashboard.handlePeriodChange tz now sel Sales.initial in
  let S := fun sel => Sales.handlePeriodChange tz now sel Sales.initial in
  (getFullYear tz now < 0 \/ 99 < getFullYear tz now)
  /\ D "all" = S "all"
  /\ startDate (D "daily") = startDate (S "daily").
Proof.
  cbv zeta.
  assert (H : getFullYear 0 1715776496789 < 0 \/ 99 < getFullYear 0 1715776496789)
    by (right; vm_compute; reflexivity).
  split; [exact H |].
  pose proof (resolvers_agree_where_designed 0 1715776496789 Sales.initial H) as R.
  cbv zeta in R. destruct R as (Hall & _ & Hdaily & _).
  split; [exact Hall | exact Hdaily].
Defined.

(** ** Filtering by the date range *)

(** With a start bound and no end bound the filters let every sale pass,
    also one dated before the start: the sale at instant 0 passes the range
    that starts at instant 1000. *)
Lemma open_ended_range_filters_nothing :
  let st := {| selectedPeriod := "custom"; startDate := Some 1000; endDate := None |} in
  ~ (1000 <= created_at old_sale)
  /\ In old_sale (Dashboard.filterSalesByDateRange st [old_sale])
  /\ Sales.isDateMatch st old_sale = true
  /\ Sales.filteredSales (fun _ => true) st "all" (Some [old_sale]) = [old_sale].
Proof.
  cbv zeta. split; [cbn; lia |]. split; [left; reflexivity |].
  split; reflexivity.
Qed.

(** C7, as amended.  The date filters apply only when both bounds are set:
    then exactly the sales dated from [start] to [end] pass, in their
    order; when either bound is null every sale passes. *)
Theorem date_filter_needs_both_bounds (st : PeriodState) (sales : list Sale) :
  (startDate st = None \/ endDate st = None ->
     Dashboard.filterSalesByDateRange st sales = sales
     /\ forall sale, Sales.isDateMatch st sale = true)
  /\ (forall s e, startDate st = Some s -> endDate st = Some e ->
        Dashboard.filterSalesByDateRange st sales
        = filter (fun sale => Sales.isDateMatch st sale) sales
        /\ (forall sale,
              In sale (Dashboard.filterSalesByDateRange st sales)
              <-> In sale sales /\ s <= created_at sale <= e)
        /\ (forall sale,
              Sales.isDateMatch st sale = true <-> s <= created_at sale <= e)).
Proof.
  unfold Dashboard.filterSalesByDateRange, Sales.isDateMatch.
  split.
  - intros [H | H]; rewrite H; [| destruct (startDate st)]; auto.
  - intros s e Hs He. rewrite Hs, He.
    assert (Hb : forall sale,
               (s <=? created_at sale) && (created_at sale <=? e) = true
               <-> s <= created_at sale <= e).
    { intros sale. rewrite andb_true_iff, !Z.leb_le. tauto. }
    split; [reflexivity |]. split; [| exact Hb].
    intros sale. rewrite filter_In, Hb. tauto.
Qed.

Lemma date_filter_needs_both_bounds_witness :
  let sale := {| sale_id := "s2"; created_at := 1500; total := 0%Q;
                 payment_method := "pix"; sale_items := [] |} in
  Dashboard.filterSalesByDateRange
    {| selectedPeriod := "custom"; startDate := None; endDate := Some 1000 |}
    [old_sale; sale] = [old_sale; sale]
  /\ (In sale (Dashboard.filterSalesByDateRange
                 {| selectedPeriod := "custom"; startDate := Some 1000;
                    endDate := Some 2000 |} [old_sale; sale])
      <-> In sale [old_sale; sale] /\ 1000 <= created_at sale <= 2000).
Proof.
  cbv zeta. split.
  - apply (date_filter_needs_both_bounds
             {| selectedPeriod := "custom"; startDate := None; endDate := Some 1000 |}).
    left. reflexivity.
  - apply (date_filter_needs_both_bounds
             {| selectedPeriod := "custom"; startDate := Some 1000;
                endDate := Some 2000 |} _); reflexivity.
Defined.

(** ** Custom rounding *)

Lemma Qlt_bool_iff (x y : Q) : Qlt_bool x y = true <-> (x < y)%Q.
Proof.
  unfold Qlt_bool. rewrite negb_true_iff.
  split.
  - intros H. apply Qnot_le_lt. intros Hle.
    apply Qle_bool_iff in Hle. congruence.
  - intros H. destruct (Qle_bool y x) eqn:E; [| reflexivity].
    apply Qle_bool_iff in E. apply Qlt_not_le in H. contradiction.
Qed.

Lemma Qlt_bool_false_iff (x y : Q) : Qlt_bool x y = false <-> (y <= x)%Q.
Proof.
  unfold Qlt_bool. rewrite negb_false_iff. apply Qle_bool_iff.
Qed.

Lemma Qle_bool_false_iff (x y : Q) : Qle_bool x y = false <-> (y < x)%Q.
Proof.
  split.
  - intros H. apply Qnot_le_lt. intros Hle.
    apply Qle_bool_iff in Hle. congruence.
  - intros H. destruct (Qle_bool x y) eqn:E; [| reflexivity].
    apply Qle_bool_iff in E. apply Qlt_not_le in H. contradiction.
Qed.

(** On non-negative numbers [a % 1] is the fractional part. *)
Lemma Qtrunc_floor (v : Q) : (0 <= v)%Q -> Qtrunc v = Qfloor v.
Proof.
  destruct v as [n d]. unfold Qle, Qtrunc, Qfloor. cbn. intros H.
  apply Z.quot_div_nonneg; lia.
Qed.

Lemma Qfloor_ge_1 (v : Q) : (1 <= v)%Q -> 1 <= Qfloor v.
Proof.
  intros H. change 1 with (Qfloor 1). now apply Qfloor_resp_le.
Qed.

(** C3.  For a non-negative [v] the custom rounding is 1 below 1 and
    otherwise rounds half up: the floor when the fractional part is below
    one half, the floor plus one when it is not.  So 0.49, 1.49 and 0 give 1,
    1.5 gives 2, and the result (an integer) is never below 1. *)
Theorem arredondamentoPersonalizado_spec (v : Q) :
  (0 <= v)%Q ->
  let frac := (v - inject_Z (Qfloor v))%Q in
  ((v < 1)%Q -> Reports.arredondamentoPersonalizado v = 1)
  /\ ((1 <= v)%Q -> (frac < 1 # 2)%Q ->
      Reports.arredondamentoPersonalizado v = Qfloor v)
  /\ ((1 <= v)%Q -> (1 # 2 <= frac)%Q ->
      Reports.arredondamentoPersonalizado v = Qfloor v + 1)
  /\ 1 <= Reports.arredondamentoPersonalizado v
  /\ Reports.arredondamentoPersonalizado (49 # 100) = 1
  /\ Reports.arredondamentoPersonalizado (149 # 100) = 1
  /\ Reports.arredondamentoPersonalizado (15 # 10) = 2
  /\ Reports.arredondamentoPersonalizado 0 = 1.
Proof.
  intros Hv frac.
  assert (Hrem : js_rem1 v = frac)
    by (unfold js_rem1, frac; now rewrite Qtrunc_floor).
  unfold Reports.arredondamentoPersonalizado. rewrite Hrem.
  repeat split; try reflexivity.
  - intros H. apply Qlt_bool_iff in H. now rewrite H.
  - intros H1 Hf. apply Qlt_bool_false_iff in H1. rewrite H1.
    apply Qle_bool_false_iff in Hf. now rewrite Hf.
  - intros H1 Hf. apply Qlt_bool_false_iff in H1. rewrite H1.
    apply Qle_bool_iff in Hf. now rewrite Hf.
  - destruct (Qlt_bool v 1) eqn:E; [lia |].
    apply Qlt_bool_false_iff, Qfloor_ge_1 in E.
    destruct (Qle_bool (1 # 2) frac); lia.
Qed.

Lemma arredondamentoPersonalizado_spec_witness :
  (0 <= 7 # 2)%Q
  /\ Reports.arredondamentoPersonalizado (7 # 2) = Qfloor (7 # 2) + 1
  /\ 1 <= Reports.arredondamentoPersonalizado (7 # 2).
Proof.
  assert (H : (0 <= 7 # 2)%Q) by (cbv; congruence).
  split; [exact H |].
  destruct (arredondamentoPersonalizado_spec (7 # 2) H) as (_ & _ & Hup & Hge & _).
  split; [apply Hup; cbv; congruence | exact Hge].
Defined.

(** ** The consumption analysis *)

Lemma fold_left_add (items : list Reports.ItemVenda) (a : Z) :
  fold_left (fun sum item => sum + quantity (fst item)) items a
  = a + Reports.soma items.
Proof.
  unfold Reports.soma. revert a.
  induction items as [| x items IH]; intros a; cbn; [lia |].
  rewrite IH, (IH (quantity (fst x))). lia.
Qed.

Lemma soma_cons (x : Reports.ItemVenda) (items : list Reports.ItemVenda) :
  Reports.soma (x :: items) = quantity (fst x) + Reports.soma items.
Proof. unfold Reports.soma at 1. cbn. apply fold_left_add. Qed.

Lemma soma_app (l1 l2 : list Reports.ItemVenda) :
  Reports.soma (l1 ++ l2) = Reports.soma l1 + Reports.soma l2.
Proof.
  induction l1 as [| x l1 IH]; [reflexivity |].
  rewrite <- app_comm_cons, !soma_cons, IH. lia.
Qed.

Lemma filter_filter {A : Type} (f g : A -> bool) (l : list A) :
  filter f (filter g l) = filter (fun x => g x && f x) l.
Proof.
  induction l as [| x l IH]; [reflexivity |].
  cbn. destruct (g x); cbn; [destruct (f x) |]; now rewrite IH.
Qed.

(** The items of one sale, dated and restricted to a product and a window. *)
Lemma soma_one_sale (window : Z -> bool) (P : Product) (venda : Sale) :
  Reports.soma
    (filter (fun item : Reports.ItemVenda => window (snd item))
       (filter (fun item : Reports.ItemVenda => (product_id (fst item) =? id P)%string)
          (map (fun item => (item, created_at venda)) (sale_items venda))))
  = if window (created_at venda) then Spec.quantityIn P venda else 0.
Proof.
  unfold Spec.quantityIn.
  induction (sale_items venda) as [| item items IH]; cbn [map filter].
  - now destruct (window (created_at venda)).
  - cbn [fst]. destruct (product_id item =? id P)%string; cbn [filter snd map fold_right].
    + destruct (window (created_at venda)) eqn:E.
      * rewrite soma_cons, IH. reflexivity.
      * exact IH.
    + exact IH.
Qed.

(** The sum the code forms over the dated items of a product is the
    quantity sold in the window. *)
Lemma soma_sold (window : Z -> bool) (P : Product) (vendas : list Sale) :
  Reports.soma
    (filter (fun item : Reports.ItemVenda => window (snd item))
       (filter (fun item : Reports.ItemVenda => (product_id (fst item) =? id P)%string)
          (flat_map (fun venda =>
                       map (fun item => (item, created_at venda)) (sale_items venda))
                    vendas)))
  = Spec.sold window P vendas.
Proof.
  unfold Spec.sold.
  induction vendas as [| venda vendas IH]; [reflexivity |].
  cbn [flat_map]. rewrite !filter_app, soma_app, soma_one_sale.
  unfold Reports.ItemVenda in *. rewrite IH.
  cbn [filter]. destruct (window (created_at venda)); reflexivity.
Qed.

Lemma week_ms (hoje : Z) : hoje - 7 * 24 * 60 * 60 * 1000 = Spec.oneWeekAgo hoje.
Proof. unfold Spec.oneWeekAgo, msPerHour. lia. Qed.

Section Analysis.
Variables (tz hoje : Z) (P : Product) (vendas : list Sale).

Let r := Reports.calcularConsumoMedio tz hoje P vendas.
Let month := Spec.monthlyTotal tz hoje P vendas.
Let recent := Spec.recent hoje P vendas.
Let older := Spec.older tz hoje P vendas.

(** The record of a product, in the quantities of the specification. *)
Lemma calcularConsumoMedio_eq :
  r = {| Reports.produto := name P;
         Reports.consumo_diario :=
           Reports.arredondamentoPersonalizado (inject_Z month / 30);
         Reports.consumo_semanal :=
           Reports.arredondamentoPersonalizado (inject_Z recent / 7);
         Reports.consumo_mensal :=
           Reports.arredondamentoPersonalizado (inject_Z month);
         Reports.quantidade_sugerida :=
           Reports.arredondamentoPersonalizado
             (inject_Z (Qceiling (inject_Z month * (12 # 10))));
         Reports.tendencia :=
           if Qlt_bool (inject_Z older * (11 # 10)) (inject_Z recent)
           then Reports.subindo
           else if Qlt_bool (inject_Z recent) (inject_Z older * (9 # 10))
           then Reports.descendo
           else Reports.estavel |}.
Proof.
  subst r month recent older.
  unfold Reports.calcularConsumoMedio, Spec.monthlyTotal, Spec.recent, Spec.older,
    Spec.oneMonthAgo.
  rewrite <- !week_ms.
  set (week := hoje - 7 * 24 * 60 * 60 * 1000).
  set (month := newDate tz (getFullYear tz hoje) (getMonth tz hoje - 1)
                        (getDate tz hoje) 0 0 0).
  clearbody week month.
  rewrite (filter_filter
             (fun item : Reports.ItemVenda => snd item <? week)
             (fun item : Reports.ItemVenda => month <=? snd item)).
  pose proof (soma_sold (fun ts => month <=? ts) P vendas) as Hm.
  pose proof (soma_sold (fun ts => week <=? ts) P vendas) as Hw.
  pose proof (soma_sold (fun ts => (month <=? ts) && (ts <? week)) P vendas) as Ho.
  cbv beta in Hm, Hw, Ho. unfold Reports.ItemVenda in *.
  rewrite Hm, Hw, Ho. reflexivity.
Qed.
End Analysis.

Lemma quantityIn_positive (P : Product) (sale : Sale) :
  (forall item, In item (sale_items sale) -> 0 < quantity item) ->
  0 <= Spec.quantityIn P sale.
Proof.
  unfold Spec.quantityIn.
  induction (sale_items sale) as [| item items IH]; intros H; cbn; [lia |].
  assert (0 <= fold_right Z.add 0
                 (map quantity
                      (filter (fun item => (product_id item =? id P)%string) items)))
    by (apply IH; intros i Hi; apply H; now right).
  destruct (product_id item =? id P)%string; cbn; [| assumption].
  pose proof (H item (or_introl eq_refl)). lia.
Qed.

Lemma sold_nonneg (window : Z -> bool) (P : Product) (vendas : list Sale) :
  Spec.quantitiesPositive vendas -> 0 <= Spec.sold window P vendas.
Proof.
  unfold Spec.sold, Spec.quantitiesPositive.
  induction vendas as [| venda vendas IH]; intros H; cbn; [lia |].
  assert (0 <= fold_right Z.add 0
                 (map (Spec.quantityIn P)
                      (filter (fun sale => window (created_at sale)) vendas)))
    by (apply IH; intros s i Hs; apply H; now right).
  destruct (window (created_at venda)); cbn; [| assumption].
  pose proof (quantityIn_positive P venda
                (fun i Hi => H venda i (or_introl eq_refl) Hi)). lia.
Qed.

Lemma quantityIn_neverSold (P : Product) (sale : Sale) :
  (forall item, In item (sale_items sale) -> product_id item <> id P) ->
  Spec.quantityIn P sale = 0.
Proof.
  unfold Spec.quantityIn.
  induction (sale_items sale) as [| item items IH]; intros H; cbn; [reflexivity |].
  destruct (String.eqb_spec (product_id item) (id P)) as [E | _].
  - exfalso. exact (H item (or_introl eq_refl) E).
  - apply IH. intros i Hi. apply H. now right.
Qed.

Lemma sold_neverSold (window : Z -> bool) (P : Product) (vendas : list Sale) :
  Spec.neverSold P vendas -> Spec.sold window P vendas = 0.
Proof.
  unfold Spec.sold, Spec.neverSold.
  induction vendas as [| venda vendas IH]; intros H; cbn; [reflexivity |].
  assert (Hrest : fold_right Z.add 0
                    (map (Spec.quantityIn P)
                         (filter (fun sale => window (created_at sale)) vendas)) = 0)
    by (apply IH; intros s i Hs; apply H; now right).
  destruct (window (created_at venda)); cbn; [| exact Hrest].
  rewrite Hrest, quantityIn_neverSold; [reflexivity |].
  intros i Hi. exact (H venda i (or_introl eq_refl) Hi).
Qed.

(** Comparisons of rationals as comparisons of cross products. *)
Ltac q_to_z :=
  unfold Qlt, Qle, Qeq, Qmult, Qdiv, Qinv, Qminus, Qplus, Qopp, inject_Z in *;
  cbn [Qnum Qden Pos.mul Pos.add] in *.

(** The comparisons of the trend, on integers. *)
Lemma rising_iff (older recent : Z) :
  (inject_Z older * (11 # 10) < inject_Z recent)%Q <-> 11 * older < 10 * recent.
Proof. q_to_z. lia. Qed.

Lemma falling_iff (older recent : Z) :
  (inject_Z recent < inject_Z older * (9 # 10))%Q <-> 10 * recent < 9 * older.
Proof. q_to_z. lia. Qed.

(** C2.  With [recent] the quantity sold in the last 7 days and [older] the
    quantity sold in the last month before those 7 days, the trend is
    rising exactly when [recent > older * 1.1], falling exactly when
    [recent < older * 0.9] and stable otherwise; the two boundaries are
    stable, no older sales with recent ones is rising, no sales is stable. *)
Theorem tendencia_spec (tz hoje : Z) (P : Product) (vendas : list Sale) :
  Spec.quantitiesPositive vendas ->
  let recent := inject_Z (Spec.recent hoje P vendas) in
  let older := inject_Z (Spec.older tz hoje P vendas) in
  let trend := Reports.tendencia (Reports.calcularConsumoMedio tz hoje P vendas) in
  (trend = Reports.subindo <-> (older * (11 # 10) < recent)%Q)
  /\ (trend = Reports.descendo <-> (recent < older * (9 # 10))%Q)
  /\ (trend = Reports.estavel <->
      ~ (older * (11 # 10) < recent)%Q /\ ~ (recent < older * (9 # 10))%Q)
  /\ ((recent == older * (11 # 10))%Q -> trend = Reports.estavel)
  /\ ((recent == older * (9 # 10))%Q -> trend = Reports.estavel)
  /\ ((older == 0)%Q -> (0 < recent)%Q -> trend = Reports.subindo)
  /\ ((recent == 0)%Q -> (older == 0)%Q -> trend = Reports.estavel).
Proof.
  intros Hq recent older trend.
  pose proof (sold_nonneg _ P vendas Hq : 0 <= Spec.older tz hoje P vendas) as Ho.
  subst trend. rewrite calcularConsumoMedio_eq. cbn [Reports.tendencia].
  subst recent older.
  set (r := Spec.recent hoje P vendas) in *.
  set (o := Spec.older tz hoje P vendas) in *.
  rewrite rising_iff, falling_iff.
  assert (Hr0 : (inject_Z r == 0)%Q <-> r = 0) by (q_to_z; lia).
  assert (Ho0 : (inject_Z o == 0)%Q <-> o = 0) by (q_to_z; lia).
  assert (Hrp : (0 < inject_Z r)%Q <-> 0 < r) by (q_to_z; lia).
  assert (Hb1 : (inject_Z r == inject_Z o * (11 # 10))%Q <-> 10 * r = 11 * o)
    by (q_to_z; lia).
  assert (Hb2 : (inject_Z r == inject_Z o * (9 # 10))%Q <-> 10 * r = 9 * o)
    by (q_to_z; lia).
  rewrite Hr0, Ho0, Hrp, Hb1, Hb2.
  destruct (Qlt_bool (inject_Z o * (11 # 10)) (inject_Z r)) eqn:E1.
  - apply Qlt_bool_iff, rising_iff in E1.
    repeat split; intros; try congruence; try lia.
  - apply Qlt_bool_false_iff in E1.
    assert (E1' : 10 * r <= 11 * o) by (q_to_z; lia).
    destruct (Qlt_bool (inject_Z r) (inject_Z o * (9 # 10))) eqn:E2.
    + apply Qlt_bool_iff, falling_iff in E2.
      repeat split; intros; try congruence; try lia.
    + apply Qlt_bool_false_iff in E2.
      assert (E2' : 9 * o <= 10 * r) by (q_to_z; lia).
      repeat split; intros; try congruence; try lia.
Qed.

Lemma vendas_x_positive : Spec.quantitiesPositive vendas_x.
Proof.
  intros sale item Hs Hi. unfold vendas_x in Hs. cbn [In] in Hs.
  repeat (destruct Hs as [<- | Hs];
          [destruct Hi as [<- | []]; reflexivity |]).
  contradiction.
Defined.

Lemma tendencia_spec_witness :
  Spec.quantitiesPositive vendas_x
  /\ Spec.recent hoje_x produto_x vendas_x = 10
  /\ Spec.older 0 hoje_x produto_x vendas_x = 20
  /\ Reports.tendencia (Reports.calcularConsumoMedio 0 hoje_x produto_x vendas_x)
     = Reports.descendo.
Proof.
  split; [exact vendas_x_positive |].
  split; [vm_compute; reflexivity |]. split; [vm_compute; reflexivity |].
  apply (tendencia_spec 0 hoje_x produto_x vendas_x vendas_x_positive).
  vm_compute. reflexivity.
Defined.

(** [ceil(m * 1.2)] for an integer [m], and its custom rounding. *)
Lemma Qceiling_six_fifths (m : Z) :
  Qceiling (inject_Z m * (12 # 10)) = (6 * m + 4) / 5.
Proof.
  unfold Qceiling, Qfloor, Qopp, Qmult, inject_Z. cbn [Qnum Qden Pos.mul].
  Z.div_mod_to_equations. lia.
Qed.

Lemma arredondamento_inteiro (n : Z) :
  Reports.arredondamentoPersonalizado (inject_Z n) = Z.max 1 n.
Proof.
  unfold Reports.arredondamentoPersonalizado.
  destruct (Qlt_bool (inject_Z n) 1) eqn:E.
  - apply Qlt_bool_iff in E. q_to_z. lia.
  - apply Qlt_bool_false_iff in E.
    assert (Hn : 1 <= n) by (q_to_z; lia).
    assert (Hrem : (js_rem1 (inject_Z n) == 0)%Q).
    { unfold js_rem1. rewrite Qtrunc_floor by (q_to_z; lia).
      rewrite Qfloor_Z. q_to_z. lia. }
    rewrite Qfloor_Z.
    destruct (Qle_bool (1 # 2) (js_rem1 (inject_Z n))) eqn:E2; [| lia].
    apply Qle_bool_iff in E2. rewrite Hrem in E2. q_to_z. lia.
Qed.

(** C4.  The suggested quantity of a product is the custom rounding of
    [ceil(monthlyTotal * 1.2)], where [monthlyTotal] is the quantity of the
    product sold since one calendar month ago; a monthly total of 30 gives
    36, as in the end-to-end example. *)
Theorem quantidade_sugerida_spec (tz hoje : Z) (P : Product) (vendas : list Sale) :
  let monthlyTotal := Spec.monthlyTotal tz hoje P vendas in
  Reports.quantidade_sugerida (Reports.calcularConsumoMedio tz hoje P vendas)
  = Reports.arredondamentoPersonalizado
      (inject_Z (Qceiling (inject_Z monthlyTotal * (12 # 10))))
  /\ Reports.quantidade_sugerida (Reports.calcularConsumoMedio tz hoje P vendas)
     = Z.max 1 ((6 * monthlyTotal + 4) / 5)
  /\ Reports.arredondamentoPersonalizado
       (inject_Z (Qceiling (inject_Z 30 * (12 # 10)))) = 36
  /\ Spec.monthlyTotal 0 hoje_x produto_x vendas_x = 30
  /\ Reports.quantidade_sugerida
       (Reports.calcularConsumoMedio 0 hoje_x produto_x vendas_x) = 36.
Proof.
  intros monthlyTotal. subst monthlyTotal.
  rewrite calcularConsumoMedio_eq. cbn [Reports.quantidade_sugerida].
  split; [reflexivity |].
  split; [now rewrite arredondamento_inteiro, Qceiling_six_fifths |].
  repeat split; vm_compute; reflexivity.
Qed.

(** C5.  A product without any sale item in the sales gets daily, weekly,
    monthly and suggested quantity 1 and the stable trend. *)
Theorem never_sold_all_ones (tz hoje : Z) (P : Product) (vendas : list Sale) :
  Spec.neverSold P vendas ->
  Reports.calcularConsumoMedio tz hoje P vendas
  = {| Reports.produto := name P;
       Reports.consumo_diario := 1;
       Reports.consumo_semanal := 1;
       Reports.consumo_mensal := 1;
       Reports.quantidade_sugerida := 1;
       Reports.tendencia := Reports.estavel |}.
Proof.
  intros H. rewrite calcularConsumoMedio_eq.
  unfold Spec.monthlyTotal, Spec.recent, Spec.older.
  rewrite !sold_neverSold by exact H. reflexivity.
Qed.

Lemma produto_y_never_sold : Spec.neverSold produto_y vendas_x.
Proof.
  intros sale item Hs Hi. unfold vendas_x in Hs. cbn [In] in Hs.
  repeat (destruct Hs as [<- | Hs];
          [destruct Hi as [<- | []]; cbn; discriminate |]).
  contradiction.
Defined.

Lemma never_sold_all_ones_witness :
  Spec.neverSold produto_y vendas_x
  /\ Reports.calcularConsumoMedio 0 hoje_x produto_y vendas_x
     = {| Reports.produto := "Y";
          Reports.consumo_diario := 1;
          Reports.consumo_semanal := 1;
          Reports.consumo_mensal := 1;
          Reports.quantidade_sugerida := 1;
          Reports.tendencia := Reports.estavel |}.
Proof.
  split; [exact produto_y_never_sold |].
  exact (never_sold_all_ones 0 hoje_x produto_y vendas_x produto_y_never_sold).
Defined.

(** ** The analysis on binary64 numbers *)

Lemma tendencia_eq (tz hoje : Z) (P : Product) (vendas : list Sale) :
  Reports.tendencia (Reports.calcularConsumoMedio tz hoje P vendas)
  = tendencia_de (Spec.recent hoje P vendas) (Spec.older tz hoje P vendas).
Proof. rewrite calcularConsumoMedio_eq. reflexivity. Qed.

(** The binary64 computations give what the rational ones give: the trend
    for sums below 60 and 80, the three rates and the suggested quantity
    for sums below 400; and the products by 1.1 that are inexact
    (50 * 1.1 is above 55) stay on the side of the boundary. *)
Example binary64_agreement :
  forallb (fun antigo =>
             forallb (fun recente =>
                        Tendencia_eqb (Binary64.tendencia recente antigo)
                                      (tendencia_de recente antigo))
                     (upto 80))
          (upto 60) = true
  /\ forallb (fun m =>
        PrimFloat.eqb (Binary64.consumo_diario m)
          (Binary64.of_Z (Reports.arredondamentoPersonalizado (inject_Z m / 30)))
        && PrimFloat.eqb (Binary64.consumo_semanal m)
             (Binary64.of_Z (Reports.arredondamentoPersonalizado (inject_Z m / 7)))
        && PrimFloat.eqb (Binary64.arredondamentoPersonalizado (Binary64.of_Z m))
             (Binary64.of_Z (Reports.arredondamentoPersonalizado (inject_Z m)))
        && PrimFloat.eqb (Binary64.quantidade_sugerida m)
             (Binary64.of_Z
                (Reports.arredondamentoPersonalizado
                   (inject_Z (Qceiling (inject_Z m * (12 # 10)))))))
      (upto 400) = true
  /\ PrimFloat.ltb 55 (Binary64.of_Z 50 * Binary64.c1_1)%float = true
  /\ Binary64.tendencia 55 50 = Reports.estavel
  /\ Binary64.tendencia 11 10 = Reports.estavel
  /\ Binary64.tendencia 9 10 = Reports.estavel
  /\ Binary64.tendencia 45 50 = Reports.estavel.
Proof. repeat split; vm_compute; reflexivity. Qed.

(** ** The analysis and the display filter *)






(** ** Sorting *)

Section SortFacts.
Context {A : Type}.

(** Whatever the comparator, sorting permutes. *)
Lemma sort_insert_perm (cmp : A -> A -> Q) (x : A) (l : list A) :
  Permutation (x :: l) (sort_insert cmp x l).
Proof.
  induction l as [| y l IH]; cbn; [apply Permutation_refl |].
  destruct (Qle_bool (cmp x y) 0); [apply Permutation_refl |].
  eapply perm_trans; [apply perm_swap | apply perm_skip, IH].
Qed.

Lemma array_sort_perm (cmp : A -> A -> Q) (l : list A) :
  Permutation l (array_sort cmp l).
Proof.
  induction l as [| x l IH]; cbn; [constructor |].
  eapply perm_trans; [apply perm_skip, IH | apply sort_insert_perm].
Qed.

(** The comparator [(a, b) => key(b) - key(a)] of a descending sort. *)
Variable key : A -> Z.
Let desc : A -> A -> Q := fun a b => (inject_Z (key b) - inject_Z (key a))%Q.
Let before : A -> A -> Prop := fun a b => key b <= key a.

Lemma desc_le (x y : A) : Qle_bool (desc x y) 0 = (key y <=? key x).
Proof.
  subst desc. cbv beta.
  destruct (Z.leb_spec (key y) (key x)) as [H | H].
  - apply Qle_bool_iff. q_to_z. lia.
  - apply Qle_bool_false_iff. q_to_z. lia.
Qed.

Lemma sort_insert_sorted (x : A) (l : list A) :
  StronglySorted before l -> StronglySorted before (sort_insert desc x l).
Proof.
  induction 1 as [| y l Hs IH Hy]; cbn.
  - repeat constructor.
  - rewrite desc_le. destruct (Z.leb_spec (key y) (key x)) as [Hle | Hgt].
    + constructor; [constructor; assumption |].
      constructor; [exact Hle |].
      eapply Forall_impl; [| exact Hy].
      intros z Hz. unfold before in *. lia.
    + constructor; [exact IH |].
      eapply Permutation_Forall; [apply sort_insert_perm |].
      constructor; [unfold before; lia | exact Hy].
Qed.

Lemma array_sort_sorted (l : list A) : StronglySorted before (array_sort desc l).
Proof.
  induction l as [| x l IH]; cbn; [constructor | now apply sort_insert_sorted].
Qed.

(** Inserting [x] moves it only past elements with a larger key, so the
    elements of any one key keep their order. *)
Lemma sort_insert_class (n : Z) (x : A) (l : list A) :
  filter (fun a => key a =? n) (sort_insert desc x l)
  = filter (fun a => key a =? n) (x :: l).
Proof.
  induction l as [| y l IH]; [reflexivity |].
  cbn [sort_insert]. rewrite desc_le.
  destruct (Z.leb_spec (key y) (key x)) as [Hle | Hgt]; [reflexivity |].
  cbn [filter] in *. rewrite IH.
  destruct (Z.eqb_spec (key y) n) as [Ey | Ey],
           (Z.eqb_spec (key x) n) as [Ex | Ex]; try reflexivity.
  lia.
Qed.

Lemma array_sort_stable (n : Z) (l : list A) :
  filter (fun a => key a =? n) (array_sort desc l)
  = filter (fun a => key a =? n) l.
Proof.
  induction l as [| x l IH]; [reflexivity |].
  cbn [array_sort fold_right]. fold (array_sort desc l).
  rewrite sort_insert_class. cbn [filter]. now rewrite IH.
Qed.
End SortFacts.

(** C6.  The analysis table is in non-increasing order of suggested
    quantity, holds the records of the catalog and no others, and the
    records of one suggested quantity are in catalog order: the sort is
    stable.  In the example Y and Z, both at 1, stay in their order behind
    X at 36. *)
Theorem analise_sorted_stable (tz hoje : Z) (products : list Product)
    (filteredSales : list Sale) :
  let analise :=
    map (fun produto => Reports.calcularConsumoMedio tz hoje produto filteredSales)
        products in
  let out := Reports.analiseConsumo tz hoje products filteredSales in
  StronglySorted
    (fun a b => Reports.quantidade_sugerida b <= Reports.quantidade_sugerida a) out
  /\ Permutation analise out
  /\ (forall n,
        filter (fun a => Reports.quantidade_sugerida a =? n) out
        = filter (fun a => Reports.quantidade_sugerida a =? n) analise)
  /\ map Reports.produto
         (Reports.analiseConsumo 0 hoje_x [produto_y; produto_x; produto_z] vendas_x)
     = ["X"; "Y"; "Z"]
  /\ map Reports.produto
         (Reports.analiseConsumo 0 hoje_x [produto_z; produto_x; produto_y] vendas_x)
     = ["X"; "Z"; "Y"].
Proof.
  intros analise out. subst out. unfold Reports.analiseConsumo. fold analise.
  split; [apply (array_sort_sorted Reports.quantidade_sugerida) |].
  split; [apply array_sort_perm |].
  split; [intros n; apply (array_sort_stable Reports.quantidade_sugerida) |].
  split; vm_compute; reflexivity.
Qed.

(** ** Revenue percentages *)

Lemma sumQ_cons (x : Q) (l : list Q) : Spec.sumQ (x :: l) = (x + Spec.sumQ l)%Q.
Proof. reflexivity. Qed.

Lemma sumQ_nil : Spec.sumQ [] = 0%Q.
Proof. reflexivity. Qed.

Lemma sumQ_app (l1 l2 : list Q) :
  (Spec.sumQ (l1 ++ l2) == Spec.sumQ l1 + Spec.sumQ l2)%Q.
Proof.
  induction l1 as [| x l1 IH].
  - rewrite sumQ_nil. cbn [app]. ring.
  - cbn [app]. rewrite !sumQ_cons, IH. ring.
Qed.

Lemma sumQ_perm (l1 l2 : list Q) :
  Permutation l1 l2 -> (Spec.sumQ l1 == Spec.sumQ l2)%Q.
Proof.
  induction 1 as [| x l1 l2 _ IH | x y l | l1 l2 l3 _ IH1 _ IH2].
  - reflexivity.
  - rewrite !sumQ_cons. now rewrite IH.
  - rewrite !sumQ_cons. ring.
  - now rewrite IH1.
Qed.

Lemma fold_left_Qplus (l : list Q) (a : Q) :
  (fold_left (fun sum value => sum + value) l a == a + Spec.sumQ l)%Q.
Proof.
  revert a. induction l as [| x l IH]; intros a; cbn [fold_left].
  - rewrite sumQ_nil. ring.
  - rewrite IH, sumQ_cons. ring.
Qed.


Lemma totalOf_sum (data : Reports.ProductRevenue) :
  (Reports.totalOf data == Spec.sumQ (map snd data))%Q.
Proof. unfold Reports.totalOf. rewrite fold_left_Qplus. ring. Qed.

Lemma or_zero_eq (v : Q) : (or_zero v == v)%Q.
Proof.
  unfold or_zero. destruct (Qeq_bool v 0) eqn:E; [| reflexivity].
  apply Qeq_bool_iff in E. now symmetry.
Qed.

(** Writing an amount under a key adds it to the total of the object. *)
Lemma acc_add_sum (acc : Reports.ProductRevenue) (k : string) (v : Q) :
  (Spec.sumQ (map snd (Reports.acc_add acc k v)) == Spec.sumQ (map snd acc) + v)%Q.
Proof.
  induction acc as [| [k' v'] rest IH]; cbn [Reports.acc_add map snd].
  - rewrite sumQ_cons, !sumQ_nil. ring.
  - destruct (k' =? k)%string; cbn [map snd]; rewrite !sumQ_cons.
    + rewrite or_zero_eq. ring.
    + rewrite IH. ring.
Qed.

Lemma existsb_find {A : Type} (f : A -> bool) (l : list A) :
  existsb f l = match find f l with Some _ => true | None => false end.
Proof.
  induction l as [| x l IH]; [reflexivity |].
  cbn. destruct (f x); [reflexivity | exact IH].
Qed.

Section RevenueTotals.
Variables (key : Product -> string) (products : list Product).

Let amount : SaleItem -> Q :=
  fun item => (price_at_sale item * inject_Z (quantity item))%Q.
Let inCatalog : SaleItem -> bool :=
  fun item => existsb (fun p => (id p =? product_id item)%string) products.
Let step : Reports.ProductRevenue -> SaleItem -> Reports.ProductRevenue :=
  fun acc item =>
    match find (fun p => (id p =? product_id item)%string) products with
    | Some product => Reports.acc_add acc (key product) (amount item)
    | None => acc
    end.

Lemma items_sum (items : list SaleItem) (acc : Reports.ProductRevenue) :
  (Spec.sumQ (map snd (fold_left step items acc))
   == Spec.sumQ (map snd acc) + Spec.sumQ (map amount (filter inCatalog items)))%Q.
Proof.
  revert acc. induction items as [| item items IH]; intros acc;
    cbn [fold_left filter map].
  - rewrite sumQ_nil. ring.
  - rewrite IH.
    assert (Hin : inCatalog item
                  = match find (fun p => (id p =? product_id item)%string) products
                    with Some _ => true | None => false end)
      by apply existsb_find.
    rewrite Hin. unfold step at 1.
    destruct (find (fun p => (id p =? product_id item)%string) products);
      cbn [map].
    + rewrite acc_add_sum, sumQ_cons. ring.
    + ring.
Qed.

Lemma sales_sum (sales : list Sale) (acc : Reports.ProductRevenue) :
  (Spec.sumQ (map snd (fold_left (fun acc sale => fold_left step (sale_items sale) acc)
                                 sales acc))
   == Spec.sumQ (map snd acc) + Spec.grandTotal products sales)%Q.
Proof.
  unfold Spec.grandTotal. fold amount. fold inCatalog.
  revert acc. induction sales as [| sale sales IH]; intros acc;
    cbn [fold_left flat_map filter map].
  - rewrite sumQ_nil. ring.
  - rewrite IH, items_sum, filter_app, map_app, sumQ_app. ring.
Qed.

(** Both charts divide by the revenue of the items found in the catalog. *)
Lemma revenueBy_total (sales : list Sale) :
  (Reports.totalOf (Reports.revenueBy key products sales)
   == Spec.grandTotal products sales)%Q.
Proof.
  rewrite totalOf_sum. unfold Reports.revenueBy.
  transitivity (Spec.sumQ (map snd (@nil (string * Q)))
                + Spec.grandTotal products sales)%Q.
  - exact (sales_sum sales []).
  - cbn [map]. rewrite sumQ_nil. ring.
Qed.
End RevenueTotals.













(** * Further properties of the pages *)

(** ** More calendar facts *)

(** Two days with the same year, month and day of the month are the same
    day. *)
Lemma civil_inj (d1 d2 : Z) :
  YearFromDay d1 = YearFromDay d2 ->
  MonthFromDay d1 = MonthFromDay d2 ->
  DateFromDay d1 = DateFromDay d2 ->
  d1 = d2.
Proof.
  intros Hy Hm Hd.
  rewrite <- (MakeDay_civil0 d1), <- (MakeDay_civil0 d2). congruence.
Qed.

Lemma MakeDay_date (y m dt : Z) : MakeDay y m dt = MakeDay y m 1 + (dt - 1).
Proof. unfold MakeDay. lia. Qed.

Lemma twelve_cases (r : Z) :
  0 <= r <= 11 ->
  r = 0 \/ r = 1 \/ r = 2 \/ r = 3 \/ r = 4 \/ r = 5 \/ r = 6 \/ r = 7 \/ r = 8
  \/ r = 9 \/ r = 10 \/ r = 11.
Proof. lia. Qed.

(** A month has 28 to 31 days. *)
Lemma MakeDay_month_length (y m : Z) :
  28 <= MakeDay y (m + 1) 1 - MakeDay y m 1 <= 31.
Proof.
  unfold MakeDay.
  assert (Hr : 0 <= m mod 12 <= 11) by (Z.div_mod_to_equations; lia).
  destruct (Z.eq_dec (m mod 12) 11) as [E | E].
  - assert (Hq : (m + 1) / 12 = m / 12 + 1) by (Z.div_mod_to_equations; lia).
    assert (Hm : (m + 1) mod 12 = 0) by (Z.div_mod_to_equations; lia).
    rewrite Hq, Hm, E. replace (y + (m / 12 + 1)) with (y + m / 12 + 1) by lia.
    rewrite DayFromYear_step.
    destruct (DaysInYear_cases (y + m / 12)) as [H | H]; rewrite H;
      cbn [monthStart Z.eqb Pos.eqb];
      destruct (DaysInYear (y + m / 12 + 1) =? 366); lia.
  - assert (Hq : (m + 1) / 12 = m / 12) by (Z.div_mod_to_equations; lia).
    assert (Hm : (m + 1) mod 12 = m mod 12 + 1) by (Z.div_mod_to_equations; lia).
    rewrite Hq, Hm.
    destruct (DaysInYear (y + m / 12) =? 366);
      destruct (twelve_cases _ Hr) as
        [-> | [-> | [-> | [-> | [-> | [-> | [-> | [-> | [-> | [-> | [-> | Hc]]]]]]]]]]];
      cbn [monthStart Z.add Pos.add Pos.succ]; lia.
Qed.






(** ** Instants and local days *)

Lemma from_midnight (tz D t : Z) :
  UTC tz (MakeDate D (MakeTime 0 0 0 0)) <= t <-> D <= localDay tz t.
Proof.
  unfold UTC, MakeDate, MakeTime, localDay, LocalTime, Day, msPerDay.
  Z.div_mod_to_equations. lia.
Qed.

Lemma until_time (tz D time t : Z) :
  0 <= time < msPerDay ->
  t <= UTC tz (MakeDate D time)
  <-> localDay tz t < D \/ (localDay tz t = D /\ localTimeOfDay tz t <= time).
Proof.
  unfold UTC, MakeDate, localDay, localTimeOfDay, LocalTime, Day, TimeWithinDay,
    msPerDay.
  intros H. Z.div_mod_to_equations. lia.
Qed.

Lemma until_end_of_day (tz D t : Z) :
  t <= UTC tz (MakeDate D (MakeTime 23 59 59 999)) <-> localDay tz t <= D.
Proof.
  unfold UTC, MakeDate, MakeTime, localDay, LocalTime, Day, msPerDay,
    msPerHour, msPerMinute, msPerSecond.
  Z.div_mod_to_equations. lia.
Qed.

Lemma localTimeOfDay_range (tz t : Z) : 0 <= localTimeOfDay tz t < msPerDay.
Proof.
  unfold localTimeOfDay, TimeWithinDay, msPerDay. Z.div_mod_to_equations. lia.
Qed.

(** The year, the month and the day of the month of two instants agree
    exactly when the instants are on the same local day. *)
Lemma same_fields_same_day (tz a b : Z) :
  (getFullYear tz a =? getFullYear tz b)
  && (getMonth tz a =? getMonth tz b)
  && (getDate tz a =? getDate tz b) = true
  <-> localDay tz a = localDay tz b.
Proof.
  unfold getFullYear, getMonth, getDate, localDay.
  rewrite !andb_true_iff, !Z.eqb_eq. split.
  - intros [[Hy Hm] Hd]. now apply civil_inj.
  - intros ->. auto.
Qed.

(** ** Dashboard.tsx: one-day views *)

(** X1.  [isSameDay] holds exactly for two dates that are both set and fall
    on the same day of the local calendar, whatever their times of day. *)
Theorem isSameDay_iff (tz : Z) (date1 date2 : option Z) :
  DashboardView.isSameDay tz date1 date2 = true
  <-> exists a b, date1 = Some a /\ date2 = Some b
                  /\ localDay tz a = localDay tz b.
Proof.
  unfold DashboardView.isSameDay.
  destruct date1 as [a |], date2 as [b |].
  - rewrite same_fields_same_day. split.
    + intros H. exists a, b. auto.
    + intros (a' & b' & Ha & Hb & H). now inversion Ha; inversion Hb; subst.
  - split; [discriminate | intros (a' & b' & _ & Hb & _); discriminate].
  - split; [discriminate | intros (a' & b' & Ha & _ & _); discriminate].
  - split; [discriminate | intros (a' & b' & Ha & _ & _); discriminate].
Qed.

Lemma newDate_eq (tz y m d h mi s : Z) :
  newDate tz y m d h mi s
  = UTC tz (MakeDate (MakeDay (dateYear y) m d) (MakeTime h mi s 0)).
Proof. reflexivity. Qed.

Lemma localDay_UTC (tz D time : Z) :
  0 <= time < msPerDay -> localDay tz (UTC tz (MakeDate D time)) = D.
Proof.
  intros H. unfold localDay, LocalTime, UTC.
  replace (MakeDate D time - tz + tz) with (MakeDate D time) by lia.
  now apply Day_MakeDate.
Qed.

Lemma localTimeOfDay_UTC (tz D time : Z) :
  0 <= time < msPerDay -> localTimeOfDay tz (UTC tz (MakeDate D time)) = time.
Proof.
  intros H. unfold localTimeOfDay, LocalTime, UTC.
  replace (MakeDate D time - tz + tz) with (MakeDate D time) by lia.
  now apply TimeWithinDay_MakeDate.
Qed.

Lemma time_in_day (h m s ms : Z) :
  0 <= h <= 23 -> 0 <= m <= 59 -> 0 <= s <= 59 -> 0 <= ms <= 999 ->
  0 <= MakeTime h m s ms < msPerDay.
Proof.
  unfold MakeTime, msPerDay, msPerHour, msPerMinute, msPerSecond. lia.
Qed.

Section Ranges.
Variables (tz now : Z) (st : PeriodState).

Let y := dateYear (getFullYear tz now).
Let m := getMonth tz now.

Lemma Dashboard_daily_raw :
  Dashboard.handlePeriodChange tz now "daily" st =
    {| selectedPeriod := "daily";
       startDate := Some (UTC tz (MakeDate (MakeDay y m (getDate tz now))
                                           (MakeTime 0 0 0 0)));
       endDate := Some (UTC tz (MakeDate (MakeDay y m (getDate tz now))
                                         (MakeTime 23 59 59 0))) |}.
Proof.
  unfold Dashboard.handlePeriodChange.
  cbn [String.eqb Ascii.eqb Bool.eqb negb]. now rewrite !newDate_eq.
Qed.

Lemma Dashboard_monthly :
  Dashboard.handlePeriodChange tz now "monthly" st =
    {| selectedPeriod := "monthly";
       startDate := Some (UTC tz (MakeDate (MakeDay y m 1) (MakeTime 0 0 0 0)));
       endDate := Some (UTC tz (MakeDate (MakeDay y (m + 1) 0)
                                         (MakeTime 23 59 59 0))) |}.
Proof.
  unfold Dashboard.handlePeriodChange.
  cbn [String.eqb Ascii.eqb Bool.eqb negb]. now rewrite !newDate_eq.
Qed.

Lemma Dashboard_yearly :
  Dashboard.handlePeriodChange tz now "yearly" st =
    {| selectedPeriod := "yearly";
       startDate := Some (UTC tz (MakeDate (MakeDay y 0 1) (MakeTime 0 0 0 0)));
       endDate := Some (UTC tz (MakeDate (MakeDay y 11 31) (MakeTime 23 59 59 0))) |}.
Proof.
  unfold Dashboard.handlePeriodChange.
  cbn [String.eqb Ascii.eqb Bool.eqb negb]. now rewrite !newDate_eq.
Qed.

Lemma Sales_monthly :
  Sales.handlePeriodChange tz now "monthly" st =
    {| selectedPeriod := "monthly";
       startDate := Some (UTC tz (MakeDate (MakeDay y m 1) (MakeTime 0 0 0 0)));
       endDate := Some (UTC tz (MakeDate (MakeDay y (m + 1) 0)
                                         (MakeTime 0 0 0 0))) |}.
Proof.
  unfold Sales.handlePeriodChange.
  cbn [String.eqb Ascii.eqb Bool.eqb negb]. now rewrite !newDate_eq.
Qed.

Lemma Sales_yearly :
  Sales.handlePeriodChange tz now "yearly" st =
    {| selectedPeriod := "yearly";
       startDate := Some (UTC tz (MakeDate (MakeDay y 0 1) (MakeTime 0 0 0 0)));
       endDate := Some (UTC tz (MakeDate (MakeDay y 11 31) (MakeTime 0 0 0 0))) |}.
Proof.
  unfold Sales.handlePeriodChange.
  cbn [String.eqb Ascii.eqb Bool.eqb negb]. now rewrite !newDate_eq.
Qed.

(** A selector that is none of the six of the picker clears the range. *)
Lemma resolver_other (sel : string) :
  sel <> "custom" -> sel <> "daily" -> sel <> "weekly" -> sel <> "monthly" ->
  sel <> "yearly" ->
  Dashboard.handlePeriodChange tz now sel st
  = {| selectedPeriod := sel; startDate := None; endDate := None |}
  /\ Sales.handlePeriodChange tz now sel st
     = {| selectedPeriod := sel; startDate := None; endDate := None |}.
Proof.
  intros Hc Hd Hw Hm Hy.
  apply String.eqb_neq in Hc, Hd, Hw, Hm, Hy.
  unfold Dashboard.handlePeriodChange, Sales.handlePeriodChange.
  rewrite Hc, Hd, Hw, Hm, Hy. split; reflexivity.
Qed.

(** The last day of a month is 27 to 30 days after its first day, and the
    last day of the year 364 or 365 days after its first. *)
Lemma last_day_of_month : 27 <= MakeDay y (m + 1) 0 - MakeDay y m 1 <= 30.
Proof.
  pose proof (MakeDay_month_length y m).
  rewrite (MakeDay_date y (m + 1) 0). lia.
Qed.

Lemma last_day_of_year : 364 <= MakeDay y 11 31 - MakeDay y 0 1 <= 365.
Proof.
  unfold MakeDay. cbn [Z.div Z.modulo Z.div_eucl Z.pos_div_eucl monthStart].
  change (11 / 12) with 0. change (11 mod 12) with 11.
  change (0 / 12) with 0. change (0 mod 12) with 0. cbn [monthStart].
  rewrite Z.add_0_r. destruct (DaysInYear y =? 366); lia.
Qed.
End Ranges.

Lemma isSameDay_other_day (tz a b : Z) :
  localDay tz a <> localDay tz b ->
  DashboardView.isSameDay tz (Some a) (Some b) = false.
Proof.
  intros H. unfold DashboardView.isSameDay.
  destruct ((getFullYear tz a =? getFullYear tz b)
            && (getMonth tz a =? getMonth tz b)
            && (getDate tz a =? getDate tz b)) eqn:E; [| reflexivity].
  apply same_fields_same_day in E. contradiction.
Qed.

(** X2.  Of the selectors of the picker, the Dashboard shows the chart by
    hour for [daily] only: the ranges of [weekly], [monthly] and [yearly]
    never start and end on the same day, and [all] has no range. *)
Theorem hourly_view_only_for_daily (tz now : Z) (st : PeriodState) :
  let view := fun sel =>
    let st' := Dashboard.handlePeriodChange tz now sel st in
    DashboardView.isOneDayView tz (startDate st') (endDate st') (selectedPeriod st') in
  view "daily" = true
  /\ view "weekly" = false
  /\ view "monthly" = false
  /\ view "yearly" = false
  /\ view "all" = false.
Proof.
  intros view. subst view. cbv beta zeta.
  assert (T0 : 0 <= MakeTime 0 0 0 0 < msPerDay) by (apply time_in_day; lia).
  assert (T1 : 0 <= MakeTime 23 59 59 0 < msPerDay) by (apply time_in_day; lia).
  assert (T2 : 0 <= MakeTime 23 59 59 999 < msPerDay) by (apply time_in_day; lia).
  rewrite Dashboard_daily_raw, Dashboard_weekly, Dashboard_monthly, Dashboard_yearly.
  destruct (all_no_bounds tz now st) as [-> _].
  cbn [startDate endDate selectedPeriod].
  unfold DashboardView.isOneDayView.
  cbn [String.eqb Ascii.eqb Bool.eqb].
  split; [reflexivity |].
  split; [apply isSameDay_other_day; rewrite !localDay_UTC by assumption; lia |].
  split.
  { apply isSameDay_other_day. rewrite !localDay_UTC by assumption.
    pose proof (last_day_of_month tz now). lia. }
  split; [| reflexivity].
  apply isSameDay_other_day. rewrite !localDay_UTC by assumption.
  pose proof (last_day_of_year tz now). lia.
Qed.

(** X3.  Whatever selector other than [custom] is chosen, and whenever it
    is chosen, the range that either page resolves has its start not after
    its end. *)
Theorem resolved_ranges_ordered (tz now : Z) (st : PeriodState) (sel : string)
    (s e : Z) :
  sel <> "custom" ->
  (startDate (Dashboard.handlePeriodChange tz now sel st) = Some s ->
   endDate (Dashboard.handlePeriodChange tz now sel st) = Some e -> s <= e)
  /\ (startDate (Sales.handlePeriodChange tz now sel st) = Some s ->
      endDate (Sales.handlePeriodChange tz now sel st) = Some e -> s <= e).
Proof.
  intros Hc.
  pose proof (last_day_of_month tz now) as Hmonth.
  pose proof (last_day_of_year tz now) as Hyear.
  destruct (String.eqb_spec sel "daily") as [-> | Hd].
  { rewrite Dashboard_daily_raw, Sales_daily. cbn [startDate endDate].
    split; intros [= <-] [= <-];
      unfold UTC, MakeDate, MakeTime, msPerDay, msPerHour, msPerMinute, msPerSecond;
      lia. }
  destruct (String.eqb_spec sel "weekly") as [-> | Hw].
  { rewrite Dashboard_weekly, Sales_weekly. cbn [startDate endDate].
    pose proof (localTimeOfDay_range tz now) as Ht. unfold localTimeOfDay in Ht.
    split; intros [= <-] [= <-];
      unfold UTC, MakeDate, MakeTime, msPerDay, msPerHour, msPerMinute, msPerSecond
        in *; lia. }
  destruct (String.eqb_spec sel "monthly") as [-> | Hm].
  { rewrite Dashboard_monthly, Sales_monthly. cbn [startDate endDate].
    split; intros [= <-] [= <-];
      unfold UTC, MakeDate, MakeTime, msPerDay, msPerHour, msPerMinute, msPerSecond;
      lia. }
  destruct (String.eqb_spec sel "yearly") as [-> | Hy].
  { rewrite Dashboard_yearly, Sales_yearly. cbn [startDate endDate].
    split; intros [= <-] [= <-];
      unfold UTC, MakeDate, MakeTime, msPerDay, msPerHour, msPerMinute, msPerSecond;
      lia. }
  destruct (resolver_other tz now st sel Hc Hd Hw Hm Hy) as [-> ->].
  cbn [startDate]. split; discriminate.
Qed.

Lemma resolved_ranges_ordered_witness :
  let D := Dashboard.handlePeriodChange 0 hoje_x "monthly" Sales.initial in
  "monthly" <> "custom"
  /\ startDate D = Some 1714521600000
  /\ endDate D = Some 1717199999000
  /\ 1714521600000 <= 1717199999000.
Proof.
  cbv zeta.
  assert (Hc : "monthly" <> "custom") by discriminate.
  assert (Hs : startDate (Dashboard.handlePeriodChange 0 hoje_x "monthly" Sales.initial)
               = Some 1714521600000) by (vm_compute; reflexivity).
  assert (He : endDate (Dashboard.handlePeriodChange 0 hoje_x "monthly" Sales.initial)
               = Some 1717199999000) by (vm_compute; reflexivity).
  split; [exact Hc |]. split; [exact Hs |]. split; [exact He |].
  exact (proj1 (resolved_ranges_ordered 0 hoje_x Sales.initial "monthly"
                  1714521600000 1717199999000 Hc) Hs He).
Defined.

(** ** The sales that the resolved ranges select *)

Lemma between_iff (s e t : Z) :
  (s <=? t) && (t <=? e) = true <-> s <= t /\ t <= e.
Proof. rewrite andb_true_iff, !Z.leb_le. tauto. Qed.

(** X4.  On the Sales page the [daily] range selects exactly the sales of
    the local day of the call, from its first to its last millisecond. *)
Theorem Sales_daily_selects_today (tz now : Z) (st : PeriodState) (sale : Sale) :
  Sales.isDateMatch (Sales.handlePeriodChange tz now "daily" st) sale = true
  <-> localDay tz (created_at sale) = localDay tz now.
Proof.
  rewrite Sales_daily. unfold Sales.isDateMatch. cbn [startDate endDate].
  rewrite between_iff, from_midnight, until_end_of_day.
  fold (localDay tz now). lia.
Qed.

(** X5.  On the Dashboard the [daily] range selects the sales of the local
    day of the call up to 23:59:59.000: a sale of the last 999 milliseconds
    of the day is left out.  (The year of the call is outside 0..99.) *)
Theorem Dashboard_daily_selects_today (tz now : Z) (st : PeriodState)
    (sales : list Sale) (sale : Sale) :
  getFullYear tz now < 0 \/ 99 < getFullYear tz now ->
  In sale (Dashboard.filterSalesByDateRange
             (Dashboard.handlePeriodChange tz now "daily" st) sales)
  <-> In sale sales
      /\ localDay tz (created_at sale) = localDay tz now
      /\ localTimeOfDay tz (created_at sale) <= MakeTime 23 59 59 0.
Proof.
  intros Hy. rewrite (Dashboard_daily tz now st Hy).
  unfold Dashboard.filterSalesByDateRange. cbn [startDate endDate].
  rewrite filter_In, between_iff, from_midnight.
  rewrite until_time by (apply time_in_day; lia).
  fold (localDay tz now). intuition lia.
Qed.

Lemma Dashboard_daily_selects_today_witness :
  (getFullYear 0 hoje_x < 0 \/ 99 < getFullYear 0 hoje_x)
  /\ In (venda_x 0 2)
        (Dashboard.filterSalesByDateRange
           (Dashboard.handlePeriodChange 0 hoje_x "daily" Sales.initial)
           [venda_x 1 3; venda_x 0 2]).
Proof.
  assert (H : getFullYear 0 hoje_x < 0 \/ 99 < getFullYear 0 hoje_x)
    by (right; vm_compute; reflexivity).
  split; [exact H |].
  apply (Dashboard_daily_selects_today 0 hoje_x Sales.initial
           [venda_x 1 3; venda_x 0 2] (venda_x 0 2) H).
  split; [right; left; reflexivity |].
  split; vm_compute; [reflexivity | discriminate].
Defined.

(** X6.  On the Dashboard the [weekly] range selects exactly the sales of
    the seven local days that start with the last Sunday. *)
Theorem Dashboard_weekly_selects_week (tz now : Z) (st : PeriodState)
    (sales : list Sale) (sale : Sale) :
  let sunday := localDay tz now - WeekDay (localDay tz now) in
  In sale (Dashboard.filterSalesByDateRange
             (Dashboard.handlePeriodChange tz now "weekly" st) sales)
  <-> In sale sales /\ sunday <= localDay tz (created_at sale) <= sunday + 6.
Proof.
  intros sunday. rewrite Dashboard_weekly.
  unfold Dashboard.filterSalesByDateRange. cbn [startDate endDate].
  rewrite filter_In, between_iff, from_midnight, until_end_of_day.
  subst sunday. unfold localDay. tauto.
Qed.




(** ** The time filter of the reports page *)

Lemma same_date_string_iff (tz a b : Z) :
  (let '(wd1, m1, d1, y1) := toDateString tz a in
   let '(wd2, m2, d2, y2) := toDateString tz b in
   (wd1 =? wd2) && (m1 =? m2) && (d1 =? d2) && (y1 =? y2)) = true
  <-> localDay tz a = localDay tz b.
Proof.
  unfold toDateString.
  rewrite !andb_true_iff, !Z.eqb_eq. split.
  - intros (((_ & Hm) & Hd) & Hy).
    apply same_fields_same_day. rewrite Hm, Hd, Hy, !Z.eqb_refl. reflexivity.
  - intros H.
    assert (F := proj2 (same_fields_same_day tz a b) H).
    rewrite !andb_true_iff, !Z.eqb_eq in F.
    unfold getDay. fold (localDay tz a). fold (localDay tz b). rewrite H.
    tauto.
Qed.

(** X8.  The [daily] filter of the reports page keeps exactly the sales of
    the local day of the clock reading, and what it keeps the [weekly] and
    the [monthly] filter keep too. *)
Theorem filterSalesByTime_daily (tz now : Z) (sales : list Sale) (sale : Sale) :
  (In sale (Reports.filterSalesByTime tz now "daily" sales)
   <-> In sale sales /\ localDay tz (created_at sale) = localDay tz now)
  /\ (In sale (Reports.filterSalesByTime tz now "daily" sales) ->
      In sale (Reports.filterSalesByTime tz now "weekly" sales)
      /\ In sale (Reports.filterSalesByTime tz now "monthly" sales)).
Proof.
  assert (Hd : In sale (Reports.filterSalesByTime tz now "daily" sales)
               <-> In sale sales /\ localDay tz (created_at sale) = localDay tz now).
  { unfold Reports.filterSalesByTime.
    cbn [String.eqb Ascii.eqb Bool.eqb].
    rewrite filter_In, same_date_string_iff. tauto. }
  split; [exact Hd |].
  intros H. apply Hd in H. destruct H as [Hin Hday].
  unfold Reports.filterSalesByTime.
  cbn [String.eqb Ascii.eqb Bool.eqb].
  rewrite !filter_In. split; (split; [exact Hin |]).
  - apply Z.leb_le. revert Hday.
    unfold localDay, LocalTime, Day, msPerDay. Z.div_mod_to_equations. lia.
  - apply same_fields_same_day in Hday.
    rewrite !andb_true_iff, !Z.eqb_eq in *. tauto.
Qed.

(** ** The sales table of the Sales page *)


(** ** The date range picker *)

Lemma setHours_eq (tz t h m s ms : Z) :
  setHours tz t h m s ms = UTC tz (MakeDate (localDay tz t) (MakeTime h m s ms)).
Proof. reflexivity. Qed.

(** X10.  When both dates of a custom range are picked, the page ends up
    with the start as picked and the end moved to 23:59:59.999 of the day
    picked, so that the range filter lets pass the sales from the start to
    the last millisecond of the end day; the period is left as it is.  While
    only the start is picked the end is null, no close of the calendar is
    scheduled, and the filter lets every sale pass. *)
Theorem range_selection_covers_end_day (tz : Z)
    (resolver : string -> PeriodState -> PeriodState) (st : PeriodState)
    (start end_ : Z) (sales : list Sale) (sale : Sale) :
  let full := DateRangePicker.pageAfter resolver st
                (DateRangePicker.handleDateChange tz (Some start, Some end_)) in
  let half := DateRangePicker.pageAfter resolver st
                (DateRangePicker.handleDateChange tz (Some start, None)) in
  selectedPeriod full = selectedPeriod st
  /\ startDate full = Some start
  /\ (exists e, endDate full = Some e
                /\ localDay tz e = localDay tz end_
                /\ localTimeOfDay tz e = MakeTime 23 59 59 999
                /\ end_ <= e)
  /\ (In sale (Dashboard.filterSalesByDateRange full sales)
      <-> In sale sales
          /\ start <= created_at sale
          /\ localDay tz (created_at sale) <= localDay tz end_)
  /\ endDate half = None
  /\ DateRangePicker.handleDateChange tz (Some start, None)
     = [DateRangePicker.onChange (Some start, None)]
  /\ Dashboard.filterSalesByDateRange half sales = sales.
Proof.
  intros full half. subst full half.
  unfold DateRangePicker.pageAfter, DateRangePicker.handleDateChange.
  cbn [fold_left DateRangePicker.page fst snd selectedPeriod startDate endDate].
  assert (T : 0 <= MakeTime 23 59 59 999 < msPerDay) by (apply time_in_day; lia).
  rewrite setHours_eq.
  split; [reflexivity |]. split; [reflexivity |].
  split.
  { eexists. split; [reflexivity |].
    rewrite localDay_UTC, localTimeOfDay_UTC by exact T.
    split; [reflexivity |]. split; [reflexivity |].
    apply until_end_of_day. lia. }
  split.
  { unfold Dashboard.filterSalesByDateRange. cbn [startDate endDate].
    rewrite filter_In, between_iff, until_end_of_day. tauto. }
  split; [reflexivity |]. split; reflexivity.
Qed.

Lemma calendarCalls_pending (calls : list DateRangePicker.Call)
    (c : DateRangePicker.Calendar) :
  (DateRangePicker.closePending c
   <= DateRangePicker.closePending (fold_left DateRangePicker.calendarCall calls c))%nat.
Proof.
  revert c. induction calls as [| call calls IH]; intros c; cbn [fold_left];
    [lia |].
  eapply Nat.le_trans; [| apply IH].
  destruct call; cbn; lia.
Qed.

Lemma steps_pending (events : list DateRangePicker.Event)
    (c : DateRangePicker.Calendar) :
  Forall (fun e => e <> DateRangePicker.TimerFires) events ->
  (DateRangePicker.closePending c
   <= DateRangePicker.closePending (fold_left DateRangePicker.step events c))%nat.
Proof.
  intros H. revert c. induction H as [| e events He _ IH]; intros c;
    cbn [fold_left]; [lia |].
  eapply Nat.le_trans; [| apply IH].
  destruct e; cbn; try lia; [apply calendarCalls_pending | contradiction].
Qed.

(** X11.  Once both dates of a range are picked, the calendar is closed
    when the delayed close fires, whatever was clicked, toggled or chosen
    in between: the close is never cancelled.  Choosing a period opens the
    calendar for [custom] and closes it for every other period, and a click
    outside closes it. *)
Theorem calendar_closes_after_selection (tz start end_ : Z)
    (c : DateRangePicker.Calendar) (events : list DateRangePicker.Event)
    (period : string) :
  Forall (fun e => e <> DateRangePicker.TimerFires) events ->
  let picked :=
    DateRangePicker.Handler
      (DateRangePicker.handleDateChange tz (Some start, Some end_)) in
  let chosen :=
    DateRangePicker.Handler (DateRangePicker.handlePeriodChange period) in
  DateRangePicker.isCalendarOpen
    (fold_left DateRangePicker.step
       (picked :: events ++ [DateRangePicker.TimerFires]) c) = false
  /\ DateRangePicker.isCalendarOpen (DateRangePicker.step c picked)
     = DateRangePicker.isCalendarOpen c
  /\ (DateRangePicker.isCalendarOpen (DateRangePicker.step c chosen) = true
      <-> period = "custom")
  /\ DateRangePicker.isCalendarOpen
       (DateRangePicker.step c DateRangePicker.ClickOutside) = false.
Proof.
  intros Hev picked chosen. subst picked chosen.
  split.
  - cbn [fold_left]. rewrite fold_left_app. cbn [fold_left].
    set (c1 := DateRangePicker.step c _).
    assert (H1 : (1 <= DateRangePicker.closePending c1)%nat)
      by (subst c1; cbn; lia).
    pose proof (steps_pending events c1 Hev) as H2.
    unfold DateRangePicker.step at 1.
    destruct (DateRangePicker.closePending
                (fold_left DateRangePicker.step events c1)); [lia | reflexivity].
  - split; [reflexivity |]. split; [| reflexivity].
    cbn. destruct (String.eqb_spec period "custom"); split; congruence.
Qed.

Lemma calendar_closes_after_selection_witness :
  let c := {| DateRangePicker.isCalendarOpen := true;
              DateRangePicker.closePending := 0 |} in
  let events := [DateRangePicker.Toggle; DateRangePicker.Toggle] in
  Forall (fun e => e <> DateRangePicker.TimerFires) events
  /\ DateRangePicker.isCalendarOpen
       (fold_left DateRangePicker.step
          (DateRangePicker.Handler
             (DateRangePicker.handleDateChange 0 (Some 0, Some hoje_x))
           :: events ++ [DateRangePicker.TimerFires]) c) = false.
Proof.
  cbv zeta.
  assert (H : Forall (fun e => e <> DateRangePicker.TimerFires)
                     [DateRangePicker.Toggle; DateRangePicker.Toggle])
    by (repeat constructor; discriminate).
  split; [exact H |].
  exact (proj1 (calendar_closes_after_selection 0 0 hoje_x
                  {| DateRangePicker.isCalendarOpen := true;
                     DateRangePicker.closePending := 0 |}
                  [DateRangePicker.Toggle; DateRangePicker.Toggle] "custom" H)).
Defined.

(** ** The analysis table *)

Lemma arredondamento_ge_1 (v : Q) : 1 <= Reports.arredondamentoPersonalizado v.
Proof.
  unfold Reports.arredondamentoPersonalizado.
  destruct (Qlt_bool v 1) eqn:E; [lia |].
  apply Qlt_bool_false_iff, Qfloor_ge_1 in E.
  destruct (Qle_bool (1 # 2) (js_rem1 v)); lia.
Qed.

Lemma arredondamento_le (v : Q) :
  Reports.arredondamentoPersonalizado v <= Z.max 1 (Qfloor v + 1).
Proof.
  unfold Reports.arredondamentoPersonalizado.
  destruct (Qlt_bool v 1); [lia |].
  destruct (Qle_bool (1 # 2) (js_rem1 v)); lia.
Qed.

Lemma Qfloor_div (n : Z) (d : positive) :
  Qfloor (inject_Z n / inject_Z (Zpos d)) = n / Zpos d.
Proof.
  unfold Qfloor, Qdiv, Qmult, Qinv, inject_Z. cbn [Qnum Qden].
  rewrite Z.mul_1_r. reflexivity.
Qed.

(** X12.  The analysis table has one record for each product of the
    catalog, under the name of the product, and every quantity of every
    record is at least 1, whatever the sales are. *)
Theorem analysis_table_shape (tz hoje : Z) (products : list Product)
    (filteredSales : list Sale) :
  let table := Reports.analiseConsumo tz hoje products filteredSales in
  List.length table = List.length products
  /\ Permutation (map name products) (map Reports.produto table)
  /\ Forall (fun r => 1 <= Reports.consumo_diario r
                      /\ 1 <= Reports.consumo_semanal r
                      /\ 1 <= Reports.consumo_mensal r
                      /\ 1 <= Reports.quantidade_sugerida r) table.
Proof.
  intros table. subst table. unfold Reports.analiseConsumo.
  set (analise := map _ products).
  set (cmp := fun a b : Reports.ConsumoAnalise => _).
  pose proof (array_sort_perm cmp analise) as Hp.
  split.
  - rewrite <- (Permutation_length Hp). subst analise. apply length_map.
  - split.
    + eapply perm_trans; [| apply Permutation_map, Hp].
      subst analise. rewrite map_map. apply Permutation_refl.
    + eapply Permutation_Forall; [exact Hp |].
      subst analise. apply Forall_forall. intros r Hr.
      apply in_map_iff in Hr. destruct Hr as (p & <- & _).
      cbn. repeat split; apply arredondamento_ge_1.
Qed.

(** X13.  In every record the daily consumption is not above the monthly
    consumption, and the monthly consumption not above the suggested
    quantity. *)
Theorem analysis_record_ordered (tz hoje : Z) (P : Product) (vendas : list Sale) :
  let r := Reports.calcularConsumoMedio tz hoje P vendas in
  Reports.consumo_diario r <= Reports.consumo_mensal r
  /\ Reports.consumo_mensal r <= Reports.quantidade_sugerida r.
Proof.
  intros r. subst r. rewrite calcularConsumoMedio_eq.
  cbn [Reports.consumo_diario Reports.consumo_mensal Reports.quantidade_sugerida].
  set (m := Spec.monthlyTotal tz hoje P vendas).
  rewrite !arredondamento_inteiro, Qceiling_six_fifths.
  split.
  - change 30%Q with (inject_Z 30).
    pose proof (arredondamento_le (inject_Z m / inject_Z 30)) as H.
    rewrite Qfloor_div in H.
    revert H. generalize (Reports.arredondamentoPersonalizado
                            (inject_Z m / inject_Z 30)).
    intros a. Z.div_mod_to_equations. lia.
  - Z.div_mod_to_equations. lia.
Qed.

Lemma dateYear_id (y : Z) : y < 0 \/ 99 < y -> dateYear y = y.
Proof.
  intros H. unfold dateYear.
  replace ((0 <=? y) && (y <=? 99)) with false; [reflexivity |].
  symmetry. apply andb_false_iff. rewrite !Z.leb_gt. lia.
Qed.

(** One calendar month ago is the local midnight 28 to 31 days before the
    local day of the call. *)
Lemma oneMonthAgo_day (tz hoje : Z) :
  getFullYear tz hoje < 0 \/ 99 < getFullYear tz hoje ->
  exists len,
    28 <= len <= 31
    /\ Spec.oneMonthAgo tz hoje
       = UTC tz (MakeDate (localDay tz hoje - len) (MakeTime 0 0 0 0)).
Proof.
  intros Hy. unfold Spec.oneMonthAgo. rewrite newDate_eq, (dateYear_id _ Hy).
  unfold getFullYear, getMonth, getDate. fold (localDay tz hoje).
  set (D := localDay tz hoje).
  exists (MakeDay (YearFromDay D) (MonthFromDay D) 1
          - MakeDay (YearFromDay D) (MonthFromDay D - 1) 1).
  split.
  - pose proof (MakeDay_month_length (YearFromDay D) (MonthFromDay D - 1)) as H.
    replace (MonthFromDay D - 1 + 1) with (MonthFromDay D) in H by lia. exact H.
  - do 2 f_equal.
    pose proof (MakeDay_civil0 D) as H. rewrite MakeDay_date in H.
    rewrite MakeDay_date. lia.
Qed.

Lemma sold_cons_out (window : Z -> bool) (P : Product) (sale : Sale)
    (vendas : list Sale) :
  window (created_at sale) = false ->
  Spec.sold window P (sale :: vendas) = Spec.sold window P vendas.
Proof. intros H. unfold Spec.sold. cbn [filter]. now rewrite H. Qed.

(** X14.  The month that the analysis looks back on starts at a local
    midnight, 28 to 31 days before the day of the clock reading; a sale
    dated before the midnight 31 days back changes no record.  (The year of
    the clock reading is outside 0..99.) *)
Theorem lookback_window (tz hoje : Z) (P : Product) (vendas : list Sale) :
  getFullYear tz hoje < 0 \/ 99 < getFullYear tz hoje ->
  let midnight := fun days =>
    UTC tz (MakeDate (localDay tz hoje - days) (MakeTime 0 0 0 0)) in
  midnight 31 <= Spec.oneMonthAgo tz hoje <= midnight 28
  /\ localTimeOfDay tz (Spec.oneMonthAgo tz hoje) = 0
  /\ Spec.oneMonthAgo tz hoje <= Spec.oneWeekAgo hoje
  /\ (forall sale,
        created_at sale < midnight 31 ->
        Reports.calcularConsumoMedio tz hoje P (sale :: vendas)
        = Reports.calcularConsumoMedio tz hoje P vendas).
Proof.
  intros Hy midnight. subst midnight. cbv beta.
  destruct (oneMonthAgo_day tz hoje Hy) as (len & Hlen & Hm).
  assert (T0 : 0 <= MakeTime 0 0 0 0 < msPerDay) by (apply time_in_day; lia).
  assert (Hnow : UTC tz (MakeDate (localDay tz hoje) (MakeTime 0 0 0 0)) <= hoje)
    by (apply from_midnight; lia).
  assert (Hweek : Spec.oneMonthAgo tz hoje <= Spec.oneWeekAgo hoje).
  { rewrite Hm. revert Hnow.
    unfold Spec.oneWeekAgo, UTC, MakeDate, MakeTime, msPerDay, msPerHour. lia. }
  assert (Hlo : UTC tz (MakeDate (localDay tz hoje - 31) (MakeTime 0 0 0 0))
                <= Spec.oneMonthAgo tz hoje)
    by (rewrite Hm; unfold UTC, MakeDate, msPerDay; lia).
  split; [split; [exact Hlo | rewrite Hm; unfold UTC, MakeDate, msPerDay; lia] |].
  split; [rewrite Hm; now apply localTimeOfDay_UTC |].
  split; [exact Hweek |].
  intros sale Hold.
  rewrite !calcularConsumoMedio_eq.
  unfold Spec.monthlyTotal, Spec.recent, Spec.older.
  rewrite !sold_cons_out; [reflexivity | | |].
  - apply andb_false_iff. left. apply Z.leb_gt. lia.
  - apply Z.leb_gt. lia.
  - apply Z.leb_gt. lia.
Qed.

Lemma lookback_window_witness :
  (getFullYear 0 hoje_x < 0 \/ 99 < getFullYear 0 hoje_x)
  /\ Spec.oneMonthAgo 0 hoje_x <= Spec.oneWeekAgo hoje_x
  /\ Reports.calcularConsumoMedio 0 hoje_x produto_x (venda_x 40 9 :: vendas_x)
     = Reports.calcularConsumoMedio 0 hoje_x produto_x vendas_x.
Proof.
  assert (H : getFullYear 0 hoje_x < 0 \/ 99 < getFullYear 0 hoje_x)
    by (right; vm_compute; reflexivity).
  split; [exact H |].
  pose proof (lookback_window 0 hoje_x produto_x vendas_x H) as L.
  cbv zeta in L. destruct L as (_ & _ & Hw & Hold).
  split; [exact Hw |].
  apply Hold. vm_compute. reflexivity.
Defined.

Lemma sold_split (w w1 w2 : Z -> bool) (P : Product) (vendas : list Sale) :
  (forall ts, w ts = w1 ts || w2 ts) ->
  (forall ts, w1 ts && w2 ts = false) ->
  Spec.sold w P vendas = Spec.sold w1 P vendas + Spec.sold w2 P vendas.
Proof.
  intros Hor Hand. unfold Spec.sold.
  induction vendas as [| v vendas IH]; [reflexivity |].
  cbn [filter]. rewrite (Hor (created_at v)).
  specialize (Hand (created_at v)).
  destruct (w1 (created_at v)), (w2 (created_at v)); cbn [orb map fold_right] in *;
    try discriminate; lia.
Qed.

(** X15.  The two quantities that the trend compares, the one of the last
    seven days and the one of the month before them, add up to the monthly
    total; so, for positive quantities, the weekly consumption of a record
    is not above its monthly consumption.  (The year of the clock reading is
    outside 0..99.) *)
Theorem trend_parts_make_the_month (tz hoje : Z) (P : Product)
    (vendas : list Sale) :
  getFullYear tz hoje < 0 \/ 99 < getFullYear tz hoje ->
  Spec.quantitiesPositive vendas ->
  let r := Reports.calcularConsumoMedio tz hoje P vendas in
  Spec.older tz hoje P vendas + Spec.recent hoje P vendas
  = Spec.monthlyTotal tz hoje P vendas
  /\ Reports.consumo_semanal r <= Reports.consumo_mensal r.
Proof.
  intros Hy Hq r. subst r.
  destruct (oneMonthAgo_day tz hoje Hy) as (len & Hlen & Hm).
  assert (Hnow : UTC tz (MakeDate (localDay tz hoje) (MakeTime 0 0 0 0)) <= hoje)
    by (apply from_midnight; lia).
  assert (Hweek : Spec.oneMonthAgo tz hoje <= Spec.oneWeekAgo hoje).
  { rewrite Hm. revert Hnow.
    unfold Spec.oneWeekAgo, UTC, MakeDate, MakeTime, msPerDay, msPerHour. lia. }
  assert (Hsum : Spec.older tz hoje P vendas + Spec.recent hoje P vendas
                 = Spec.monthlyTotal tz hoje P vendas).
  { unfold Spec.older, Spec.recent, Spec.monthlyTotal. symmetry.
    apply sold_split; intros ts.
    - destruct (Z.leb_spec (Spec.oneMonthAgo tz hoje) ts),
               (Z.ltb_spec ts (Spec.oneWeekAgo hoje)),
               (Z.leb_spec (Spec.oneWeekAgo hoje) ts); cbn; try reflexivity; lia.
    - destruct (Z.leb_spec (Spec.oneMonthAgo tz hoje) ts),
               (Z.ltb_spec ts (Spec.oneWeekAgo hoje)),
               (Z.leb_spec (Spec.oneWeekAgo hoje) ts); cbn; try reflexivity; lia. }
  split; [exact Hsum |].
  rewrite calcularConsumoMedio_eq.
  cbn [Reports.consumo_semanal Reports.consumo_mensal].
  pose proof (sold_nonneg _ P vendas Hq : 0 <= Spec.older tz hoje P vendas) as Ho.
  pose proof (sold_nonneg _ P vendas Hq : 0 <= Spec.recent hoje P vendas) as Hr.
  rewrite <- Hsum, arredondamento_inteiro.
  change 7%Q with (inject_Z 7).
  pose proof (arredondamento_le (inject_Z (Spec.recent hoje P vendas) / inject_Z 7))
    as H.
  rewrite Qfloor_div in H. revert H.
  generalize (Reports.arredondamentoPersonalizado
                (inject_Z (Spec.recent hoje P vendas) / inject_Z 7)).
  intros a. Z.div_mod_to_equations. lia.
Qed.

Lemma trend_parts_make_the_month_witness :
  (getFullYear 0 hoje_x < 0 \/ 99 < getFullYear 0 hoje_x)
  /\ Spec.quantitiesPositive vendas_x
  /\ Spec.older 0 hoje_x produto_x vendas_x + Spec.recent hoje_x produto_x vendas_x
     = Spec.monthlyTotal 0 hoje_x produto_x vendas_x.
Proof.
  assert (H : getFullYear 0 hoje_x < 0 \/ 99 < getFullYear 0 hoje_x)
    by (right; vm_compute; reflexivity).
  split; [exact H |]. split; [exact vendas_x_positive |].
  exact (proj1 (trend_parts_make_the_month 0 hoje_x produto_x vendas_x H
                  vendas_x_positive)).
Defined.

(** ** Objects used as maps *)

Lemma get_acc_add (acc : list (string * Q)) (k : string) (v : Q) (k' : string) :
  JSObject.get (Reports.acc_add acc k v) k'
  = if (k =? k')%string then
      Some (match JSObject.get acc k with
            | Some x => (or_zero x + v)%Q
            | None => (0 + v)%Q
            end)
    else JSObject.get acc k'.
Proof.
  induction acc as [| [k0 v0] rest IH]; cbn [Reports.acc_add JSObject.get].
  - destruct (k =? k')%string; reflexivity.
  - destruct (String.eqb_spec k0 k) as [-> | Hne]; cbn [JSObject.get].
    + destruct (String.eqb_spec k k'); reflexivity.
    + rewrite IH.
      destruct (String.eqb_spec k0 k') as [-> | Hne'].
      * destruct (String.eqb_spec k k'); [congruence | reflexivity].
      * reflexivity.
Qed.

Lemma valueOf_acc_add (acc : list (string * Q)) (k : string) (v : Q) (k' : string) :
  (valueOf (Reports.acc_add acc k v) k'
   == valueOf acc k' + (if (k =? k')%string then v else 0))%Q.
Proof.
  unfold valueOf. rewrite get_acc_add.
  destruct (String.eqb_spec k k') as [-> | Hne].
  - destruct (JSObject.get acc k'); [rewrite or_zero_eq |]; reflexivity.
  - destruct (JSObject.get acc k'); ring.
Qed.

Lemma keys_acc_add (acc : list (string * Q)) (k : string) (v : Q) (k' : string) :
  In k' (map fst (Reports.acc_add acc k v)) <-> k' = k \/ In k' (map fst acc).
Proof.
  induction acc as [| [k0 v0] rest IH]; cbn [Reports.acc_add map fst In].
  - intuition congruence.
  - destruct (String.eqb_spec k0 k) as [-> | Hne]; cbn [map fst In].
    + intuition congruence.
    + rewrite IH. intuition congruence.
Qed.

Lemma NoDup_acc_add (acc : list (string * Q)) (k : string) (v : Q) :
  NoDup (map fst acc) -> NoDup (map fst (Reports.acc_add acc k v)).
Proof.
  induction acc as [| [k0 v0] rest IH]; cbn [Reports.acc_add map fst]; intros H.
  - repeat constructor. intros [].
  - inversion H as [| x l Hnin Hnd]; subst.
    destruct (String.eqb_spec k0 k) as [-> | Hne]; cbn [map fst].
    + constructor; assumption.
    + constructor; [| now apply IH].
      rewrite keys_acc_add. intros [E | Hin]; [congruence | contradiction].
Qed.

Lemma get_In (obj : list (string * Q)) (k : string) (v : Q) :
  NoDup (map fst obj) -> In (k, v) obj -> JSObject.get obj k = Some v.
Proof.
  induction obj as [| [k0 v0] rest IH]; cbn [map fst JSObject.get];
    intros Hnd Hin; [destruct Hin |].
  inversion Hnd as [| x l Hnin Hnd']; subst.
  destruct Hin as [[= -> ->] | Hin].
  - now rewrite String.eqb_refl.
  - destruct (String.eqb_spec k0 k) as [-> | Hne]; [| now apply IH].
    exfalso. apply Hnin. apply in_map_iff. exists (k, v). auto.
Qed.

Lemma sumKey_cons (k : string) (p : string * Q) (pairs : list (string * Q)) :
  (sumKey k (p :: pairs)
   == (if (fst p =? k)%string then snd p else 0) + sumKey k pairs)%Q.
Proof.
  unfold sumKey. cbn [filter].
  destruct (fst p =? k)%string; cbn [map]; [rewrite sumQ_cons |]; ring.
Qed.

Section Grouping.
Variable pairs : list (string * Q).

Lemma groupPairs_keys (acc : list (string * Q)) (k : string) :
  In k (map fst (groupPairs pairs acc))
  <-> In k (map fst pairs) \/ In k (map fst acc).
Proof.
  unfold groupPairs. revert acc.
  induction pairs as [| p l IH]; intros acc; cbn [fold_left map In].
  - tauto.
  - rewrite IH, keys_acc_add. intuition congruence.
Qed.

Lemma groupPairs_NoDup (acc : list (string * Q)) :
  NoDup (map fst acc) -> NoDup (map fst (groupPairs pairs acc)).
Proof.
  unfold groupPairs. revert acc.
  induction pairs as [| p l IH]; intros acc H; cbn [fold_left]; [exact H |].
  apply IH. now apply NoDup_acc_add.
Qed.

Lemma groupPairs_valueOf (acc : list (string * Q)) (k : string) :
  (valueOf (groupPairs pairs acc) k == valueOf acc k + sumKey k pairs)%Q.
Proof.
  unfold groupPairs. revert acc.
  induction pairs as [| p l IH]; intros acc; cbn [fold_left].
  - unfold sumKey. cbn [filter map]. rewrite sumQ_nil. ring.
  - rewrite IH, valueOf_acc_add, sumKey_cons. ring.
Qed.

Lemma groupPairs_total (acc : list (string * Q)) :
  (Spec.sumQ (map snd (groupPairs pairs acc))
   == Spec.sumQ (map snd acc) + Spec.sumQ (map snd pairs))%Q.
Proof.
  unfold groupPairs. revert acc.
  induction pairs as [| p l IH]; intros acc; cbn [fold_left map].
  - rewrite sumQ_nil. ring.
  - rewrite IH, acc_add_sum, sumQ_cons. ring.
Qed.

(** Grouping from the empty object: every key once, under each key the sum
    of its amounts. *)
Lemma groupPairs_spec :
  let obj := groupPairs pairs [] in
  NoDup (map fst obj)
  /\ (forall k, In k (map fst obj) <-> In k (map fst pairs))
  /\ (forall k v, In (k, v) obj -> (v == sumKey k pairs)%Q)
  /\ (Spec.sumQ (map snd obj) == Spec.sumQ (map snd pairs))%Q.
Proof.
  cbv zeta.
  assert (Hnd : NoDup (map fst (groupPairs pairs [])))
    by (apply groupPairs_NoDup; constructor).
  split; [exact Hnd |]. split; [| split].
  - intros k. rewrite groupPairs_keys. cbn. tauto.
  - intros k v Hin.
    pose proof (groupPairs_valueOf [] k) as H.
    unfold valueOf in H at 1. rewrite (get_In _ _ _ Hnd Hin) in H.
    rewrite H. unfold valueOf. cbn. ring.
  - rewrite groupPairs_total. cbn [map]. rewrite sumQ_nil. ring.
Qed.
End Grouping.

Lemma fold_left_group {A : Type} (key : A -> string) (amount : A -> Q)
    (l : list A) (acc : list (string * Q)) :
  fold_left (fun acc x => Reports.acc_add acc (key x) (amount x)) l acc
  = groupPairs (map (fun x => (key x, amount x)) l) acc.
Proof.
  unfold groupPairs. revert acc.
  induction l as [| x l IH]; intros acc; cbn [fold_left map]; [reflexivity |].
  now rewrite IH.
Qed.

Lemma groupPairs_app (l1 l2 acc : list (string * Q)) :
  groupPairs (l1 ++ l2) acc = groupPairs l2 (groupPairs l1 acc).
Proof. unfold groupPairs. apply fold_left_app. Qed.

(** The two charts of the reports page group the contributions of the
    items. *)
Lemma revenueBy_group (key : Product -> string) (products : list Product)
    (sales : list Sale) :
  Reports.revenueBy key products sales
  = groupPairs (contributions key products sales) [].
Proof.
  unfold Reports.revenueBy.
  enough (H : forall acc,
             fold_left (fun acc sale =>
               fold_left (fun acc item =>
                 match find (fun p => (id p =? product_id item)%string) products with
                 | Some product =>
                     Reports.acc_add acc (key product)
                       (price_at_sale item * inject_Z (quantity item))%Q
                 | None => acc
                 end) (sale_items sale) acc) sales acc
             = groupPairs (contributions key products sales) acc) by apply H.
  unfold contributions.
  induction sales as [| sale sales IH]; intros acc; cbn [fold_left flat_map];
    [reflexivity |].
  rewrite groupPairs_app, IH. f_equal.
  generalize acc. clear.
  induction (sale_items sale) as [| item items IH]; intros acc;
    cbn [fold_left flat_map]; [reflexivity |].
  rewrite groupPairs_app, IH. f_equal.
  destruct (find (fun p => (id p =? product_id item)%string) products);
    reflexivity.
Qed.

(** ** The charts of the reports page *)




Lemma contributions_app (key : Product -> string) (products : list Product)
    (l1 l2 : list Sale) :
  contributions key products (l1 ++ l2)
  = contributions key products l1 ++ contributions key products l2.
Proof. unfold contributions. apply flat_map_app. Qed.

Lemma contributions_orphans (key : Product -> string) (products : list Product)
    (sale : Sale) :
  (forall item, In item (sale_items sale) -> orphan products item) ->
  contributions key products [sale] = [].
Proof.
  unfold contributions, orphan. cbn [flat_map]. rewrite app_nil_r.
  induction (sale_items sale) as [| item items IH]; intros H; cbn [flat_map];
    [reflexivity |].
  rewrite (H item (or_introl eq_refl)). cbn [app].
  apply IH. intros i Hi. apply H. now right.
Qed.

(** X17.  A sale whose items all refer to products that are not in the
    catalog changes neither chart of the reports page, wherever it stands
    among the sales, and its profit on the Dashboard is zero. *)
Theorem orphan_sales_ignored (t : string -> string) (products : list Product)
    (before after : list Sale) (sale : Sale) :
  (forall item, In item (sale_items sale) -> orphan products item) ->
  Reports.categoryDistribution t products (before ++ sale :: after)
  = Reports.categoryDistribution t products (before ++ after)
  /\ Reports.revenueContribution t products (before ++ sale :: after)
     = Reports.revenueContribution t products (before ++ after)
  /\ DashboardView.saleProfit products sale = 0%Q.
Proof.
  intros H.
  assert (Hrev : forall key,
             Reports.revenueBy key products (before ++ sale :: after)
             = Reports.revenueBy key products (before ++ after)).
  { intros key. rewrite !revenueBy_group.
    change (sale :: after) with ([sale] ++ after).
    rewrite !contributions_app, (contributions_orphans key products sale H).
    reflexivity. }
  unfold Reports.categoryDistribution, Reports.revenueContribution.
  rewrite !Hrev. split; [reflexivity |]. split; [reflexivity |].
  unfold DashboardView.saleProfit, orphan in *.
  induction (sale_items sale) as [| item items IH]; [reflexivity |].
  cbn [fold_left]. rewrite (H item (or_introl eq_refl)).
  apply IH. intros i Hi. apply H. now right.
Qed.

Lemma orphan_sales_ignored_witness :
  (forall item, In item (sale_items venda_orfa) ->
                orphan [produto_x; produto_w] item)
  /\ Reports.categoryDistribution (fun k => k) [produto_x; produto_w]
       ([venda_w] ++ venda_orfa :: vendas_x)
     = Reports.categoryDistribution (fun k => k) [produto_x; produto_w]
         ([venda_w] ++ vendas_x).
Proof.
  assert (H : forall item, In item (sale_items venda_orfa) ->
                           orphan [produto_x; produto_w] item)
    by (intros item [<- | []]; reflexivity).
  split; [exact H |].
  exact (proj1 (orphan_sales_ignored (fun k => k) [produto_x; produto_w]
                  [venda_w] vendas_x venda_orfa H)).
Defined.

(** X18.  The chart of revenue by month has one bar for each month name
    that occurs among the filtered sales, and the bar holds the sum of the
    totals of all the sales of that month name, of whatever year; the bars
    add up to the sum of the totals of the sales. *)
Theorem monthly_bars (tz : Z) (monthLong : Z -> string)
    (filteredSales : list Sale) :
  let month := fun sale => monthLong (getMonth tz (created_at sale)) in
  let bars := ReportsMonthly.monthlySales tz monthLong filteredSales in
  NoDup (map fst bars)
  /\ (forall k, In k (map fst bars) <-> exists sale, In sale filteredSales /\ month sale = k)
  /\ (forall k v,
        In (k, v) bars ->
        (v == Spec.sumQ (map total
                             (filter (fun sale => (month sale =? k)%string)
                                     filteredSales)))%Q)
  /\ (Spec.sumQ (map snd bars) == totalOfSales filteredSales)%Q.
Proof.
  intros month bars. subst bars.
  unfold ReportsMonthly.monthlySales, ReportsMonthly.monthlyData.
  assert (Hid : forall l : list (string * Q),
             map (fun '(month, revenue) => (month, revenue)) l = l).
  { intros l. induction l as [| [k v] l IH]; cbn; [reflexivity | now rewrite IH]. }
  rewrite Hid.
  assert (Hg : fold_left (fun acc sale =>
                 Reports.acc_add acc (monthLong (getMonth tz (created_at sale)))
                                 (total sale)) filteredSales []
               = groupPairs (map (fun x => (month x, total x)) filteredSales) [])
    by apply (fold_left_group month total filteredSales []).
  rewrite Hg.
  destruct (groupPairs_spec (map (fun x => (month x, total x)) filteredSales))
    as (Hnd & Hkeys & Hval & Hsum).
  split; [exact Hnd |]. split; [| split].
  - intros k. rewrite Hkeys, map_map. cbn [fst]. rewrite in_map_iff.
    split; intros (s & H1 & H2); exists s; tauto.
  - intros k v Hin. rewrite (Hval k v Hin). unfold sumKey.
    clear. induction filteredSales as [| s l IH]; [reflexivity |].
    cbn [map filter fst snd].
    destruct (month s =? k)%string; cbn [map]; rewrite ?sumQ_cons, ?IH;
      reflexivity.
  - rewrite Hsum, map_map. reflexivity.
Qed.

Section SortByAmount.
Context {A : Type}.
Variable amount : A -> Q.



End SortByAmount.











(** ** The figures of the Dashboard *)

Lemma grandTotal_contributions (key : Product -> string) (products : list Product)
    (sales : list Sale) :
  (Spec.grandTotal products sales
   == Spec.sumQ (map snd (contributions key products sales)))%Q.
Proof.
  rewrite <- (revenueBy_total key), totalOf_sum, revenueBy_group.
  destruct (groupPairs_spec (contributions key products sales)) as (_ & _ & _ & H).
  exact H.
Qed.

Lemma saleProfit_eq (products : list Product) (sale : Sale) :
  (DashboardView.saleProfit products sale
   == Spec.sumQ (map snd (contributions name products [sale]))
      - costTotal products [sale])%Q.
Proof.
  unfold DashboardView.saleProfit, contributions, costTotal.
  cbn [flat_map]. rewrite !app_nil_r.
  enough (H : forall a,
             (fold_left (fun itemSum item =>
                match find (fun p => (id p =? product_id item)%string) products with
                | Some product =>
                    (itemSum
                     + (price_at_sale item - or_zero (cost_price product))
                       * inject_Z (quantity item))%Q
                | None => itemSum
                end) (sale_items sale) a
              == a
                 + (Spec.sumQ
                      (map snd
                         (flat_map (fun item =>
                            match find (fun p => (id p =? product_id item)%string)
                                       products with
                            | Some product =>
                                [(name product,
                                  (price_at_sale item * inject_Z (quantity item))%Q)]
                            | None => []
                            end) (sale_items sale)))
                    - Spec.sumQ
                        (flat_map (fun item =>
                           match find (fun p => (id p =? product_id item)%string)
                                      products with
                           | Some product =>
                               [(or_zero (cost_price product)
                                 * inject_Z (quantity item))%Q]
                           | None => []
                           end) (sale_items sale))))%Q).
  { rewrite H. ring. }
  induction (sale_items sale) as [| item items IH]; intros a;
    cbn [fold_left flat_map map].
  - rewrite sumQ_nil. ring.
  - rewrite IH.
    destruct (find (fun p => (id p =? product_id item)%string) products);
      cbn [app map snd]; rewrite ?sumQ_cons; ring.
Qed.

Lemma costTotal_cons (products : list Product) (sale : Sale) (sales : list Sale) :
  (costTotal products (sale :: sales)
   == costTotal products [sale] + costTotal products sales)%Q.
Proof.
  unfold costTotal. cbn [flat_map]. rewrite app_nil_r, sumQ_app. reflexivity.
Qed.

Lemma contributions_cons (key : Product -> string) (products : list Product)
    (sale : Sale) (sales : list Sale) :
  contributions key products (sale :: sales)
  = contributions key products [sale] ++ contributions key products sales.
Proof.
  change (sale :: sales) with ([sale] ++ sales). apply contributions_app.
Qed.

(** X21.  The figures of the Dashboard are those of the sales in the range:
    their number, the sum of their totals, and as net profit the revenue of
    their items whose product is in the catalog minus the cost of those
    items; the count of low-stock items is not above the size of the
    catalog.  Until both the sales and the catalog are there the figures
    stay as they were. *)
Theorem dashboard_figures (tz : Z) (toLocaleDateString : Z -> string)
    (parseDate : string -> Q) (currentHour : Z) (st : PeriodState)
    (sales : list Sale) (products : list Product) (view : DashboardView.State) :
  let run := DashboardView.useEffect tz toLocaleDateString parseDate currentHour st in
  let shown := run (Some sales) (Some products) view in
  let inRange := Dashboard.filterSalesByDateRange st sales in
  DashboardView.numberOfSales shown = List.length inRange
  /\ (DashboardView.numberOfSales shown <= List.length sales)%nat
  /\ (DashboardView.totalSales shown == totalOfSales inRange)%Q
  /\ (DashboardView.netProfit shown
      == Spec.grandTotal products inRange - costTotal products inRange)%Q
  /\ (DashboardView.lowStockItems shown <= List.length products)%nat
  /\ run None (Some products) view = view
  /\ run (Some sales) None view = view.
Proof.
  intros run shown inRange. subst run shown.
  unfold DashboardView.useEffect. fold inRange.
  cbn [DashboardView.numberOfSales DashboardView.totalSales
       DashboardView.netProfit DashboardView.lowStockItems].
  split; [reflexivity |].
  split.
  { subst inRange. unfold Dashboard.filterSalesByDateRange.
    destruct (startDate st), (endDate st); try lia. apply filter_length_le. }
  split.
  { unfold totalOfSales. generalize inRange. intros l.
    enough (H : forall a, (fold_left (fun sum sale => sum + total sale) l a
                           == a + Spec.sumQ (map total l))%Q)
      by (rewrite H; ring).
    induction l as [| s l IH]; intros a; cbn [fold_left map].
    - rewrite sumQ_nil. ring.
    - rewrite IH, sumQ_cons. ring. }
  split.
  { rewrite (grandTotal_contributions name). generalize inRange. intros l.
    enough (H : forall a,
               (fold_left (fun sum sale =>
                             sum + DashboardView.saleProfit products sale) l a
                == a + (Spec.sumQ (map snd (contributions name products l))
                        - costTotal products l))%Q)
      by (rewrite H; ring).
    induction l as [| s l IH]; intros a; cbn [fold_left].
    - unfold contributions, costTotal. cbn [flat_map map]. rewrite sumQ_nil. ring.
    - rewrite IH, (contributions_cons name products s l), map_app, sumQ_app,
        (costTotal_cons products s l), saleProfit_eq. ring. }
  split; [apply filter_length_le |].
  split; reflexivity.
Qed.

(** ** The chart of the Dashboard *)

Lemma getHours_range (tz t : Z) : 0 <= getHours tz t <= 23.
Proof.
  unfold getHours, TimeWithinDay, msPerHour, msPerDay.
  Z.div_mod_to_equations. lia.
Qed.

Lemma hourKey_parse (h : Z) :
  0 <= h <= 23 -> JSString.parseInt (DashboardView.hourKey h) = Some h.
Proof.
  intros Hh.
  assert (H : forallb (fun h =>
                match JSString.parseInt (DashboardView.hourKey h) with
                | Some x => x =? h
                | None => false
                end) (upto 24) = true) by (vm_compute; reflexivity).
  rewrite forallb_forall in H.
  specialize (H h).
  destruct (JSString.parseInt (DashboardView.hourKey h)) as [x |].
  - f_equal. apply Z.eqb_eq, H. unfold upto. apply in_map_iff.
    exists (Z.to_nat h). split; [lia | apply in_seq; lia].
  - discriminate H. unfold upto. apply in_map_iff.
    exists (Z.to_nat h). split; [lia | apply in_seq; lia].
Qed.

Lemma hourKey_inj (a b : Z) :
  0 <= a <= 23 -> 0 <= b <= 23 ->
  DashboardView.hourKey a = DashboardView.hourKey b -> a = b.
Proof.
  intros Ha Hb E. apply hourKey_parse in Ha, Hb. rewrite E in Ha. congruence.
Qed.

Lemma hourKey_eqb (a b : Z) :
  0 <= a <= 23 -> 0 <= b <= 23 ->
  (DashboardView.hourKey a =? DashboardView.hourKey b)%string = (a =? b).
Proof.
  intros Ha Hb.
  destruct (String.eqb_spec (DashboardView.hourKey a) (DashboardView.hourKey b))
    as [E | E]; destruct (Z.eqb_spec a b) as [E' | E']; try reflexivity.
  - elim E'. now apply hourKey_inj.
  - elim E. now rewrite E'.
Qed.

Lemma set_fresh (obj : list (string * Q)) (k : string) (v : Q) :
  ~ In k (map fst obj) -> JSObject.set obj k v = obj ++ [(k, v)].
Proof.
  induction obj as [| [k0 v0] rest IH]; cbn [JSObject.set map fst In app];
    intros H; [reflexivity |].
  destruct (String.eqb_spec k0 k) as [-> | Hne]; [tauto |].
  rewrite IH; tauto.
Qed.

(** Writing entries with distinct new keys into an object appends them. *)
Lemma fold_set_fresh (entries obj : list (string * Q)) :
  NoDup (map fst entries) ->
  (forall k, In k (map fst entries) -> ~ In k (map fst obj)) ->
  fold_left (fun acc e => JSObject.set acc (fst e) (snd e)) entries obj
  = obj ++ entries.
Proof.
  revert obj. induction entries as [| [k v] rest IH]; intros obj Hnd Hfresh;
    cbn [fold_left fst snd].
  - now rewrite app_nil_r.
  - cbn [map fst] in Hnd, Hfresh. inversion Hnd as [| x l Hnin Hnd']; subst.
    rewrite set_fresh by (apply Hfresh; now left).
    rewrite IH.
    + now rewrite <- app_assoc.
    + exact Hnd'.
    + intros k' Hin. rewrite map_app, in_app_iff. cbn [map fst In].
      intros [H | [<- | []]]; [| contradiction].
      revert H. apply Hfresh. now right.
Qed.

Lemma fold_left_map {A B C : Type} (f : C -> B -> C) (g : A -> B) (l : list A)
    (c : C) :
  fold_left (fun acc x => f acc (g x)) l c = fold_left f (map g l) c.
Proof.
  revert c. induction l as [| x l IH]; intros c; cbn [fold_left map];
    [reflexivity | apply IH].
Qed.

Lemma hoursFrom_In (first last h : Z) :
  In h (DashboardView.hoursFrom first last) <-> first <= h <= last.
Proof.
  unfold DashboardView.hoursFrom. rewrite in_map_iff. split.
  - intros (i & <- & Hi). apply in_seq in Hi. lia.
  - intros Hh. exists (Z.to_nat (h - first)). split; [lia | apply in_seq; lia].
Qed.

Lemma hoursFrom_NoDup (first last : Z) :
  NoDup (DashboardView.hoursFrom first last).
Proof.
  unfold DashboardView.hoursFrom.
  generalize (seq_NoDup (Z.to_nat (last - first + 1)) 0).
  generalize (seq 0 (Z.to_nat (last - first + 1))).
  induction 1 as [| i l Hnin _ IH]; cbn [map]; constructor; [| exact IH].
  rewrite in_map_iff. intros (j & E & Hj).
  assert (j = i) by lia. now subst.
Qed.

Lemma hourKeys_NoDup (l : list Z) :
  NoDup l -> Forall (fun h => 0 <= h <= 23) l ->
  NoDup (map DashboardView.hourKey l).
Proof.
  induction 1 as [| h l Hnin _ IH]; intros Hr; cbn [map]; constructor.
  - inversion Hr as [| x y Hh Hl]; subst.
    rewrite in_map_iff. intros (h' & E & Hin).
    rewrite Forall_forall in Hl.
    apply hourKey_inj in E; [now subst | now apply Hl | exact Hh].
  - apply IH. now inversion Hr.
Qed.

Lemma minOf_spec (h : Z) (l : list Z) :
  In (DashboardView.minOf h l) (h :: l)
  /\ forall x, In x (h :: l) -> DashboardView.minOf h l <= x.
Proof.
  unfold DashboardView.minOf. revert h.
  induction l as [| y l IH]; intros h; cbn [fold_left].
  - split; [now left | intros x [<- | []]; lia].
  - destruct (IH (Z.min h y)) as [Hin Hle]. split.
    + destruct Hin as [E | Hin]; [| now right; right].
      rewrite <- E. destruct (Z.min_spec h y) as [[_ ->] | [_ ->]];
        [now left | now right; left].
    + intros x [E | [E | Hx]].
      * specialize (Hle (Z.min h y) (or_introl eq_refl)). lia.
      * specialize (Hle (Z.min h y) (or_introl eq_refl)). lia.
      * apply Hle. now right.
Qed.

Lemma maxOf_spec (h : Z) (l : list Z) :
  In (DashboardView.maxOf h l) (h :: l)
  /\ forall x, In x (h :: l) -> x <= DashboardView.maxOf h l.
Proof.
  unfold DashboardView.maxOf. revert h.
  induction l as [| y l IH]; intros h; cbn [fold_left].
  - split; [now left | intros x [<- | []]; lia].
  - destruct (IH (Z.max h y)) as [Hin Hle]. split.
    + destruct Hin as [E | Hin]; [| now right; right].
      rewrite <- E. destruct (Z.max_spec h y) as [[_ ->] | [_ ->]];
        [now right; left | now left].
    + intros x [E | [E | Hx]].
      * specialize (Hle (Z.max h y) (or_introl eq_refl)). lia.
      * specialize (Hle (Z.max h y) (or_introl eq_refl)). lia.
      * apply Hle. now right.
Qed.

Lemma parseHours_keys (hs : list Z) :
  Forall (fun h => 0 <= h <= 23) hs ->
  DashboardView.parseHours (map DashboardView.hourKey hs) = Some hs.
Proof.
  induction 1 as [| h hs Hh _ IH]; cbn [map DashboardView.parseHours];
    [reflexivity |].
  now rewrite hourKey_parse, IH.
Qed.

Lemma keys_are_hours (keys : list string) :
  (forall k, In k keys -> exists h, 0 <= h <= 23 /\ k = DashboardView.hourKey h) ->
  exists hs, keys = map DashboardView.hourKey hs
             /\ Forall (fun h => 0 <= h <= 23) hs.
Proof.
  induction keys as [| k keys IH]; intros H.
  - exists []. split; [reflexivity | constructor].
  - destruct (H k (or_introl eq_refl)) as (h & Hh & ->).
    destruct IH as (hs & -> & Hhs); [intros k' Hk'; apply H; now right |].
    exists (h :: hs). split; [reflexivity | now constructor].
Qed.

Lemma sumQ_map_ext {A : Type} (f g : A -> Q) (l : list A) :
  (forall x, In x l -> (f x == g x)%Q) ->
  (Spec.sumQ (map f l) == Spec.sumQ (map g l))%Q.
Proof.
  induction l as [| x l IH]; intros H; cbn [map]; [reflexivity |].
  rewrite !sumQ_cons, IH, (H x) by (try (intros; apply H); now (left + right)).
  reflexivity.
Qed.

Lemma sumQ_map_plus {A : Type} (f g : A -> Q) (l : list A) :
  (Spec.sumQ (map (fun x => f x + g x) l)
   == Spec.sumQ (map f l) + Spec.sumQ (map g l))%Q.
Proof.
  induction l as [| x l IH]; cbn [map].
  - rewrite !sumQ_nil. ring.
  - rewrite !sumQ_cons, IH. ring.
Qed.

Lemma sumQ_indicator (x : Z) (v : Q) (l : list Z) :
  NoDup l ->
  (Spec.sumQ (map (fun h => if x =? h then v else 0) l)
   == if existsb (Z.eqb x) l then v else 0)%Q.
Proof.
  induction 1 as [| h l Hnin _ IH]; cbn [map existsb]; [reflexivity |].
  rewrite sumQ_cons, IH.
  destruct (Z.eqb_spec x h) as [-> | Hne]; cbn [orb].
  - destruct (existsb (Z.eqb h) l) eqn:E; [| ring].
    apply existsb_exists in E. destruct E as (y & Hy & E).
    apply Z.eqb_eq in E. subst. contradiction.
  - ring.
Qed.

Lemma hourTotal_cons (tz h : Z) (s : Sale) (sales : list Sale) :
  (hourTotal tz h (s :: sales)
   == (if getHours tz (created_at s) =? h then total s else 0)
      + hourTotal tz h sales)%Q.
Proof.
  unfold hourTotal. cbn [filter].
  destruct (getHours tz (created_at s) =? h); cbn [map];
    [rewrite sumQ_cons |]; ring.
Qed.

(** The totals by hour, over hours that cover the sales, make the total
    of the sales. *)
Lemma hourTotal_sum (tz : Z) (hours : list Z) (sales : list Sale) :
  NoDup hours ->
  (forall s, In s sales -> In (getHours tz (created_at s)) hours) ->
  (Spec.sumQ (map (fun h => hourTotal tz h sales) hours) == totalOfSales sales)%Q.
Proof.
  intros Hnd. unfold totalOfSales.
  induction sales as [| s sales IH]; intros Hin.
  - cbn [map]. rewrite sumQ_nil. clear.
    induction hours as [| h l IH]; cbn [map]; [reflexivity |].
    rewrite sumQ_cons, IH. unfold hourTotal. cbn [filter map].
    rewrite sumQ_nil. ring.
  - cbn [map]. rewrite sumQ_cons, <- IH by (intros; apply Hin; now right).
    rewrite (sumQ_map_ext _ _ _ (fun h _ => hourTotal_cons tz h s sales)).
    rewrite (sumQ_map_plus
               (fun h => if getHours tz (created_at s) =? h then total s else 0%Q)
               (fun h => hourTotal tz h sales)).
    rewrite (sumQ_indicator _ _ _ Hnd).
    assert (E : existsb (Z.eqb (getHours tz (created_at s))) hours = true).
    { apply existsb_exists. exists (getHours tz (created_at s)).
      split; [apply Hin; now left | apply Z.eqb_refl]. }
    rewrite E. reflexivity.
Qed.

Lemma sumKey_hour (tz h : Z) (sales : list Sale) :
  0 <= h <= 23 ->
  (sumKey (DashboardView.hourKey h)
          (map (fun s => (DashboardView.hourKey (getHours tz (created_at s)),
                          total s)) sales)
   == hourTotal tz h sales)%Q.
Proof.
  intros Hh. induction sales as [| s sales IH].
  - reflexivity.
  - cbn [map]. rewrite sumKey_cons, hourTotal_cons, IH. cbn [fst snd].
    rewrite hourKey_eqb by (apply getHours_range || exact Hh). reflexivity.
Qed.

Lemma getOrZero_valueOf (obj : list (string * Q)) (k : string) :
  (JSObject.getOrZero obj k == valueOf obj k)%Q.
Proof.
  unfold JSObject.getOrZero, valueOf.
  destruct (JSObject.get obj k); [apply or_zero_eq | reflexivity].
Qed.

Lemma salesByDate_group (tz : Z) (toLocaleDateString : Z -> string)
    (hourly : bool) (sales : list Sale) :
  DashboardView.salesByDate tz toLocaleDateString hourly sales
  = groupPairs
      (map (fun s =>
              (if hourly then DashboardView.hourKey (getHours tz (created_at s))
               else toLocaleDateString (created_at s), total s)) sales) [].
Proof.
  unfold DashboardView.salesByDate.
  apply (fold_left_group
           (fun s => if hourly
                     then DashboardView.hourKey (getHours tz (created_at s))
                     else toLocaleDateString (created_at s)) total).
Qed.

(** The hours between the first and the last hour with a sale, each with
    what the grouping has under its key. *)
Lemma hourly_chart_entries (tz : Z) (toLocaleDateString : Z -> string)
    (parseDate : string -> Q) (currentHour : Z) (sales : list Sale) :
  sales <> [] ->
  exists first last,
    (exists s, In s sales /\ getHours tz (created_at s) = first)
    /\ (exists s, In s sales /\ getHours tz (created_at s) = last)
    /\ (forall s, In s sales -> first <= getHours tz (created_at s) <= last)
    /\ DashboardView.chart tz toLocaleDateString parseDate currentHour true sales
       = map (fun hour =>
                (DashboardView.hourKey hour,
                 JSObject.getOrZero
                   (DashboardView.salesByDate tz toLocaleDateString true sales)
                   (DashboardView.hourKey hour)))
             (DashboardView.hoursFrom first last).
Proof.
  intros Hne. unfold DashboardView.chart. cbv zeta.
  set (G := DashboardView.salesByDate tz toLocaleDateString true sales).
  assert (EG : G = groupPairs
                     (map (fun s =>
                             (DashboardView.hourKey (getHours tz (created_at s)),
                              total s)) sales) [])
    by apply (salesByDate_group tz toLocaleDateString true).
  destruct (groupPairs_spec
              (map (fun s =>
                      (DashboardView.hourKey (getHours tz (created_at s)),
                       total s)) sales)) as (_ & Hkeys & _ & _).
  cbv zeta in Hkeys. rewrite <- EG in Hkeys. clearbody G.
  assert (Hk : forall k, In k (map fst G) <->
                         exists s, In s sales
                                   /\ k = DashboardView.hourKey
                                            (getHours tz (created_at s))).
  { intros k. rewrite Hkeys, map_map. cbn [fst]. rewrite in_map_iff.
    split; intros (s & H1 & H2); exists s; split; auto. }
  clear Hkeys EG.
  destruct (keys_are_hours (map fst G)) as (hs & Ekeys & Hr).
  { intros k H. apply Hk in H. destruct H as (s & _ & ->).
    exists (getHours tz (created_at s)). split;
      [apply getHours_range | reflexivity]. }
  rewrite Ekeys in Hk. rewrite Ekeys, parseHours_keys by exact Hr.
  assert (Hhs : forall h, In h hs <->
                          exists s, In s sales /\ getHours tz (created_at s) = h).
  { rewrite Forall_forall in Hr. intros h. split.
    - intros Hin.
      destruct (proj1 (Hk (DashboardView.hourKey h))) as (s & Hs & E);
        [apply in_map; exact Hin |].
      exists s. split; [exact Hs |].
      symmetry. apply hourKey_inj; [now apply Hr | apply getHours_range | exact E].
    - intros (s & Hs & <-).
      assert (H : In (DashboardView.hourKey (getHours tz (created_at s)))
                     (map DashboardView.hourKey hs))
        by (apply Hk; exists s; auto).
      apply in_map_iff in H. destruct H as (h' & E & Hin).
      apply hourKey_inj in E; [now subst | now apply Hr | apply getHours_range]. }
  clear Hk Ekeys.
  pose proof (array_sort_perm (fun a b => inject_Z a - inject_Z b)%Q hs) as Hperm.
  destruct (array_sort (fun a b => inject_Z a - inject_Z b)%Q hs)
    as [| h rest].
  - apply Permutation_sym, Permutation_nil in Hperm. subst hs.
    destruct sales as [| s l]; [congruence |].
    destruct (proj2 (Hhs (getHours tz (created_at s)))).
    exists s. split; [now left | reflexivity].
  - destruct (minOf_spec h rest) as [Hmin Hmin_le].
    destruct (maxOf_spec h rest) as [Hmax Hmax_le].
    set (first := DashboardView.minOf h rest) in *.
    set (last := DashboardView.maxOf h rest) in *.
    assert (Hin : forall x, In x (h :: rest) <-> In x hs).
    { intros x. split; apply Permutation_in;
        [apply Permutation_sym |]; exact Hperm. }
    exists first, last.
    split; [apply Hhs, Hin, Hmin |].
    split; [apply Hhs, Hin, Hmax |].
    assert (Hcover : forall s, In s sales ->
                               first <= getHours tz (created_at s) <= last).
    { intros s Hs.
      assert (H : In (getHours tz (created_at s)) (h :: rest))
        by (apply Hin, Hhs; exists s; auto).
      split; [now apply Hmin_le | now apply Hmax_le]. }
    split; [exact Hcover |].
    assert (Hfirst : 0 <= first).
    { apply Hin, Hhs in Hmin. destruct Hmin as (s & _ & <-).
      apply getHours_range. }
    assert (Hlast : last <= 23).
    { apply Hin, Hhs in Hmax. destruct Hmax as (s & _ & <-).
      apply getHours_range. }
    set (entry := fun hour : Z =>
                    (DashboardView.hourKey hour,
                     JSObject.getOrZero G (DashboardView.hourKey hour))).
    transitivity
      (fold_left (fun acc e => JSObject.set acc (fst e) (snd e))
                 (map entry (DashboardView.hoursFrom first last)) []).
    + apply (fold_left_map (fun acc (e : string * Q) =>
                            JSObject.set acc (fst e) (snd e)) entry).
    + rewrite fold_set_fresh; [reflexivity | | intros k _ []].
      rewrite map_map. cbn [fst entry].
      apply hourKeys_NoDup; [apply hoursFrom_NoDup |].
      apply Forall_forall. intros x Hx. apply hoursFrom_In in Hx. lia.
Qed.

(** X22.  The chart of a one-day view has one bar for every hour from the
    hour of the earliest sale of the range to the hour of the latest, in
    this order and without gaps: the bar of an hour carries the total of
    the sales of that hour, zero for an hour without one, and the bars add
    up to the total of the sales.  Without any sale the chart has the
    current hour alone, at zero. *)
Theorem hourly_chart (tz : Z) (toLocaleDateString : Z -> string)
    (parseDate : string -> Q) (currentHour : Z) (sales : list Sale) :
  sales <> [] ->
  let chart := DashboardView.chart tz toLocaleDateString parseDate currentHour true in
  chart [] = [(DashboardView.hourKey currentHour, 0%Q)]
  /\ exists first last,
       0 <= first /\ first <= last /\ last <= 23
       /\ (exists s, In s sales /\ getHours tz (created_at s) = first)
       /\ (exists s, In s sales /\ getHours tz (created_at s) = last)
       /\ (forall s, In s sales -> first <= getHours tz (created_at s) <= last)
       /\ map fst (chart sales)
          = map (fun i => DashboardView.hourKey (first + Z.of_nat i))
                (seq 0 (Z.to_nat (last - first + 1)))
       /\ Forall2 (fun bar i =>
                     (snd bar == hourTotal tz (first + Z.of_nat i) sales)%Q)
                  (chart sales) (seq 0 (Z.to_nat (last - first + 1)))
       /\ (Spec.sumQ (map snd (chart sales)) == totalOfSales sales)%Q.
Proof.
  intros Hne chart. split; [reflexivity |].
  destruct (hourly_chart_entries tz toLocaleDateString parseDate currentHour
              sales Hne) as (first & last & Hf & Hl & Hcover & Echart).
  fold chart in Echart. clearbody chart. rewrite Echart. clear Echart.
  exists first, last.
  assert (H0 : 0 <= first)
    by (destruct Hf as (s & _ & <-); apply getHours_range).
  assert (H23 : last <= 23)
    by (destruct Hl as (s & _ & <-); apply getHours_range).
  assert (Hfl : first <= last)
    by (destruct Hf as (s & Hs & <-); now apply Hcover).
  do 3 (split; [assumption |]).
  do 3 (split; [assumption |]).
  assert (Hbar : forall h, 0 <= h <= 23 ->
                 (JSObject.getOrZero
                    (DashboardView.salesByDate tz toLocaleDateString true sales)
                    (DashboardView.hourKey h)
                  == hourTotal tz h sales)%Q).
  { intros h Hh.
    rewrite getOrZero_valueOf, (salesByDate_group tz toLocaleDateString true),
      groupPairs_valueOf, sumKey_hour by exact Hh.
    unfold valueOf. cbn [JSObject.get]. ring. }
  split; [| split].
  - unfold DashboardView.hoursFrom. rewrite !map_map. reflexivity.
  - unfold DashboardView.hoursFrom. rewrite map_map.
    assert (Hi : forall i, In i (seq 0 (Z.to_nat (last - first + 1))) ->
                           0 <= first + Z.of_nat i <= 23)
      by (intros i Hi; apply in_seq in Hi; lia).
    revert Hi. generalize (seq 0 (Z.to_nat (last - first + 1))).
    induction l as [| i l IH]; intros Hi; cbn [map]; constructor.
    + cbn [snd]. apply Hbar, Hi. now left.
    + apply IH. intros j Hj. apply Hi. now right.
  - rewrite map_map. cbn [snd].
    rewrite (sumQ_map_ext _ (fun h => hourTotal tz h sales)).
    + apply hourTotal_sum; [apply hoursFrom_NoDup |].
      intros s Hs. apply hoursFrom_In. now apply Hcover.
    + intros h Hh. apply hoursFrom_In in Hh. apply Hbar. lia.
Qed.

Lemma hourly_chart_witness :
  vendas_x <> []
  /\ DashboardView.chart 0 (fun _ => EmptyString) (fun _ => 0%Q) 7 true []
     = [(DashboardView.hourKey 7, 0%Q)].
Proof.
  split; [discriminate |].
  pose proof (hourly_chart 0 (fun _ => EmptyString) (fun _ => 0%Q) 7 vendas_x) as H.
  cbv zeta in H. destruct H as [H _]; [discriminate | exact H].
Defined.

Section SortByOrder.
Context {A : Type}.
Variable cmp : A -> A -> Q.
Variable before : A -> A -> Prop.
Hypothesis before_trans : forall x y z, before x y -> before y z -> before x z.
Hypothesis cmp_le : forall x y, Qle_bool (cmp x y) 0 = true -> before x y.
Hypothesis cmp_gt : forall x y, Qle_bool (cmp x y) 0 = false -> before y x.

Lemma sort_insert_ordered (x : A) (l : list A) :
  StronglySorted before l -> StronglySorted before (sort_insert cmp x l).
Proof.
  induction 1 as [| y l Hs IH Hy]; cbn [sort_insert].
  - repeat constructor.
  - destruct (Qle_bool (cmp x y) 0) eqn:E.
    + apply cmp_le in E.
      constructor; [constructor; assumption |].
      constructor; [exact E |].
      eapply Forall_impl; [| exact Hy].
      intros z Hz. eapply before_trans; eassumption.
    + constructor; [exact IH |].
      eapply Permutation_Forall; [apply sort_insert_perm |].
      constructor; [| exact Hy].
      now apply cmp_gt.
Qed.

Lemma array_sort_ordered (l : list A) : StronglySorted before (array_sort cmp l).
Proof.
  induction l as [| x l IH]; cbn; [constructor | now apply sort_insert_ordered].
Qed.
End SortByOrder.

(** X23.  The chart of a view of several days has one bar for each date on
    which a sale of the range was made, the bar carries the total of the
    sales of that date, the bars stand in the order of their dates, read as
    year-month-day, and they add up to the total of the sales. *)
Theorem dated_chart (tz : Z) (toLocaleDateString : Z -> string)
    (parseDate : string -> Q) (currentHour : Z) (sales : list Sale) :
  let chart :=
    DashboardView.chart tz toLocaleDateString parseDate currentHour false sales in
  let day := fun s => toLocaleDateString (created_at s) in
  NoDup (map fst chart)
  /\ (forall k, In k (map fst chart) <-> exists s, In s sales /\ day s = k)
  /\ (forall k v,
        In (k, v) chart ->
        (v == Spec.sumQ (map total (filter (fun s => (day s =? k)%string) sales)))%Q)
  /\ StronglySorted
       (fun a b => (parseDate (isoDate (fst a)) <= parseDate (isoDate (fst b)))%Q)
       chart
  /\ (Spec.sumQ (map snd chart) == totalOfSales sales)%Q.
Proof.
  intros chart day. subst chart. unfold DashboardView.chart.
  cbv beta iota zeta.
  set (G := DashboardView.salesByDate tz toLocaleDateString false sales).
  assert (EG : G = groupPairs (map (fun s => (day s, total s)) sales) [])
    by apply (salesByDate_group tz toLocaleDateString false).
  destruct (groupPairs_spec (map (fun s => (day s, total s)) sales))
    as (Hnd & Hkeys & Hval & Hsum).
  cbv zeta in Hnd, Hkeys, Hval, Hsum. rewrite <- EG in Hnd, Hkeys, Hval, Hsum.
  clearbody G.
  match goal with
  | |- context [array_sort ?c G] => set (cmp := c)
  end.
  pose proof (array_sort_perm cmp G) as Hperm.
  assert (Hnd' : NoDup (map fst (array_sort cmp G))).
  { eapply Permutation_NoDup; [apply Permutation_map; exact Hperm | exact Hnd]. }
  rewrite fold_set_fresh; [| exact Hnd' | intros k _ []]. cbn [app].
  split; [exact Hnd' |]. split; [| split; [| split]].
  - intros k.
    transitivity (In k (map fst G)).
    + split; apply Permutation_in; [apply Permutation_sym |];
        apply Permutation_map; exact Hperm.
    + rewrite Hkeys, map_map. cbn [fst]. rewrite in_map_iff.
      split; intros (s & H1 & H2); exists s; tauto.
  - intros k v Hin.
    apply (Permutation_in _ (Permutation_sym Hperm)) in Hin.
    rewrite (Hval k v Hin). unfold sumKey.
    clear. induction sales as [| s l IH]; [reflexivity |].
    cbn [map filter fst snd].
    destruct (day s =? k)%string; cbn [map]; rewrite ?sumQ_cons, ?IH;
      reflexivity.
  - apply array_sort_ordered.
    + intros x y z. apply Qle_trans.
    + intros x y H. subst cmp. cbv beta in H. apply Qle_bool_iff in H.
      unfold isoDate. apply Qle_minus_iff in H. apply Qle_minus_iff.
      setoid_replace (parseDate (JSString.join "-" (rev (JSString.split "/" (fst y))))
                      + - parseDate (JSString.join "-" (rev (JSString.split "/" (fst x)))))%Q
        with (0 + - (parseDate (JSString.join "-" (rev (JSString.split "/" (fst x))))
                     - parseDate (JSString.join "-" (rev (JSString.split "/" (fst y))))))%Q
        by ring.
      exact H.
    + intros x y H. subst cmp. cbv beta in H.
      unfold isoDate. apply Qlt_le_weak, Qnot_le_lt. intros Hle.
      assert (E : Qle_bool
                    (parseDate (JSString.join "-" (rev (JSString.split "/" (fst x))))
                     - parseDate (JSString.join "-" (rev (JSString.split "/" (fst y)))))
                    0 = true).
      { apply Qle_bool_iff. apply Qle_minus_iff. apply Qle_minus_iff in Hle.
        setoid_replace
          (0 + - (parseDate (JSString.join "-" (rev (JSString.split "/" (fst x))))
                  - parseDate (JSString.join "-" (rev (JSString.split "/" (fst y))))))%Q
          with (parseDate (JSString.join "-" (rev (JSString.split "/" (fst y))))
                + - parseDate (JSString.join "-" (rev (JSString.split "/" (fst x)))))%Q
          by ring.
        exact Hle. }
      congruence.
  - rewrite <- (sumQ_perm _ _ (Permutation_map snd Hperm)), Hsum, map_map.
    reflexivity.
Qed.

(** ** The keys and the labels of the chart *)

Lemma string_app_assoc (a b c : string) : ((a ++ b) ++ c = a ++ (b ++ c))%string.
Proof.
  induction a as [| x a IH]; cbn [append]; [reflexivity | now rewrite IH].
Qed.

Lemma string_app_nil (a : string) : (a ++ EmptyString)%string = a.
Proof.
  induction a as [| x a IH]; cbn [append]; [reflexivity | now rewrite IH].
Qed.

Lemma splitFrom_without (sep : ascii) (a cur : string) :
  without sep a -> JSString.splitFrom sep a cur = [(cur ++ a)%string].
Proof.
  revert cur. induction a as [| c a IH]; intros cur H; cbn [JSString.splitFrom].
  - now rewrite string_app_nil.
  - destruct H as [Hc Ha]. apply Ascii.eqb_neq in Hc. rewrite Hc.
    rewrite IH by exact Ha. now rewrite string_app_assoc.
Qed.

Lemma splitFrom_sep (sep : ascii) (a rest cur : string) :
  without sep a ->
  JSString.splitFrom sep (a ++ String sep rest) cur
  = (cur ++ a)%string :: JSString.splitFrom sep rest EmptyString.
Proof.
  revert cur. induction a as [| c a IH]; intros cur H;
    cbn [append JSString.splitFrom].
  - now rewrite Ascii.eqb_refl, string_app_nil.
  - destruct H as [Hc Ha]. apply Ascii.eqb_neq in Hc. rewrite Hc.
    rewrite IH by exact Ha. now rewrite string_app_assoc.
Qed.

(** X24.  From a key of the form day/month/year the comparator of the
    chart reads the date year-month-day. *)
Theorem isoDate_of_key (d m y : string) :
  without "/" d -> without "/" m -> without "/" y ->
  isoDate (d ++ "/" ++ m ++ "/" ++ y) = (y ++ "-" ++ m ++ "-" ++ d)%string.
Proof.
  intros Hd Hm Hy. unfold isoDate, JSString.split.
  cbn [append].
  rewrite (splitFrom_sep "/" d _ EmptyString Hd).
  rewrite (splitFrom_sep "/" m _ EmptyString Hm).
  rewrite (splitFrom_without "/" y EmptyString Hy).
  reflexivity.
Qed.

Lemma isoDate_of_key_witness :
  without "/" "15" /\ isoDate "15/05/2024" = "2024-05-15".
Proof.
  assert (H15 : without "/" "15") by (cbn; repeat split; discriminate).
  assert (H05 : without "/" "05") by (cbn; repeat split; discriminate).
  assert (H2024 : without "/" "2024") by (cbn; repeat split; discriminate).
  split; [exact H15 |].
  exact (isoDate_of_key "15" "05" "2024" H15 H05 H2024).
Defined.

(** X25.  On a bar of the hourly chart the tooltip reads the hour of the
    bar and the next hour of the clock, the hour after 23:00 being 00:00. *)
Theorem tooltip_label (dateLabel : string) (h : Z) :
  0 <= h <= 23 ->
  labelFormatter dateLabel true (DashboardView.hourKey h)
  = (DashboardView.hourKey h ++ " - " ++ DashboardView.hourKey ((h + 1) mod 24))%string.
Proof.
  intros Hh.
  assert (H : forallb (fun h =>
                (labelFormatter dateLabel true (DashboardView.hourKey h)
                 =? DashboardView.hourKey h ++ " - "
                    ++ DashboardView.hourKey ((h + 1) mod 24))%string)
                (upto 24) = true) by (vm_compute; reflexivity).
  rewrite forallb_forall in H. apply String.eqb_eq, H.
  unfold upto. apply in_map_iff.
  exists (Z.to_nat h). split; [lia | apply in_seq; lia].
Qed.

Lemma tooltip_label_witness :
  0 <= 23 <= 23 /\ labelFormatter "Data" true "23:00" = "23:00 - 00:00".
Proof.
  split; [lia |]. apply (tooltip_label "Data" 23). lia.
Defined.
